(** * Weaklog processor: the LLM response parsers, the provider adapters'
      retry loop, the client facade, identifier generation and the cooldown
      index, embedded from the TypeScript sources and checked against the
      specification.

    Conventions of the embedding.
    - A JavaScript string is a [string]; one character stands for one UTF-16
      code unit, so the model covers the strings whose code units are below
      256.  Character classes ([\s], [\d], case mapping) are the ECMAScript
      ones restricted to that range.
    - A JavaScript exception is a value of [Completion]: [Throw e] is an
      abrupt completion carrying the thrown value, [Normal a] a normal one.
      A [try { body } catch { handler }] is a [match] on the completion of
      the body.
    - Reads of the clock, of the network and of the vault are explicit
      arguments (a time stamp, an oracle of attempt outcomes, a vault
      state).
    - The cooldown manager is modelled on the values that [JSON.parse]
      returns, whatever they are ([UntypedCooldownManager]), and on the
      type [CooldownEntry] for the vaults whose index holds entries of that
      type ([CooldownManager]); [typed_manager_refines_untyped] relates the
      two models. *)

From Stdlib Require Import ZArith NArith QArith List String Ascii Bool Lia DecimalString.
From stdpp Require Import base strings gmap.
Import ListNotations.

Local Open Scope string_scope.
Local Open Scope Z_scope.

(* ====================================================================== *)
(** ** JavaScript values used by the plugin                                *)
(* ====================================================================== *)

(** A thrown value.  [instanceofError] is the result of
    [error instanceof Error]; [name] and [message] are the fields the
    adapters inspect. *)
Record JsError := mkJsError {
  instanceofError : bool;
  name : string;
  message : string
}.

Definition Error (msg : string) : JsError := mkJsError true "Error" msg.
Definition TypeError (msg : string) : JsError := mkJsError true "TypeError" msg.
Definition SyntaxError (msg : string) : JsError := mkJsError true "SyntaxError" msg.

Inductive Completion (A : Type) : Type :=
| Normal (a : A)
| Throw (e : JsError).
Arguments Normal {A} a.
Arguments Throw {A} e.

#[global] Instance Completion_bind : MBind Completion :=
  fun A B k c =>
    match c with
    | Normal a => k a
    | Throw e => Throw e
    end.

#[global] Instance Completion_ret : MRet Completion := fun A a => Normal a.

Definition completes {A : Type} (c : Completion A) : bool :=
  match c with Normal _ => true | Throw _ => false end.

Module JS.

(** [\s] of regular expressions and the set removed by [trim]: TAB, LF, VT,
    FF, CR, SPACE and NBSP are the members below 256. *)
Definition isWhiteSpace (c : ascii) : bool :=
  let n := N_of_ascii c in
  (((9 <=? n) && (n <=? 13)) || (n =? 32) || (n =? 160))%N.

(** [\d] *)
Definition isDigit (c : ascii) : bool :=
  let n := N_of_ascii c in ((48 <=? n) && (n <=? 57))%N.

Fixpoint trimStart (s : string) : string :=
  match s with
  | EmptyString => EmptyString
  | String c s' => if isWhiteSpace c then trimStart s' else s
  end.

Fixpoint trimEnd (s : string) : string :=
  match s with
  | EmptyString => EmptyString
  | String c s' =>
      match trimEnd s' with
      | EmptyString => if isWhiteSpace c then EmptyString else String c EmptyString
      | t => String c t
      end
  end.

(** [s.trim()] *)
Definition trim (s : string) : string := trimEnd (trimStart s).

(** [s.startsWith(p)] *)
Fixpoint startsWith (s p : string) {struct p} : bool :=
  match p with
  | EmptyString => true
  | String a p' =>
      match s with
      | EmptyString => false
      | String b s' => Ascii.eqb a b && startsWith s' p'
      end
  end.

(** [s.includes(needle)] *)
Fixpoint includes (s needle : string) : bool :=
  if startsWith s needle then true
  else match s with
       | EmptyString => false
       | String _ s' => includes s' needle
       end.

(** [s.substring(0, n)] *)
Definition substring0 (n : nat) (s : string) : string := String.substring 0 n s.

(** [toLowerCase] on one code unit below 256: A-Z and the Latin-1 capitals
    (U+00C0-U+00DE except the multiplication sign) move up by 32. *)
Definition lowerChar (c : ascii) : ascii :=
  let n := N_of_ascii c in
  if (((65 <=? n) && (n <=? 90)) || ((192 <=? n) && (n <=? 222) && negb (n =? 215)))%N
  then ascii_of_N (n + 32) else c.

Fixpoint toLowerCase (s : string) : string :=
  match s with
  | EmptyString => EmptyString
  | String c s' => String (lowerChar c) (toLowerCase s')
  end.

(** [String(n)] for a non-negative integer *)
Definition ofN (n : N) : string := NilEmpty.string_of_uint (N.to_uint n).

(** [String(n)] for an integer *)
Definition ofZ (n : Z) : string :=
  if n <? 0 then "-" ++ ofN (Z.to_N (- n)) else ofN (Z.to_N n).

Fixpoint repeatChar (c : ascii) (n : nat) : string :=
  match n with
  | O => EmptyString
  | S n' => String c (repeatChar c n')
  end.

(** [s.padStart(width, c)] for a one-character filler *)
Definition padStart (width : nat) (c : ascii) (s : string) : string :=
  repeatChar c (width - String.length s) ++ s.

(** One double quote and one line feed, as strings *)
Definition dq : string := String (ascii_of_N 34) EmptyString.
Definition lf : string := String (ascii_of_N 10) EmptyString.

(** [parts.join(sep)] *)
Fixpoint join (sep : string) (parts : list string) : string :=
  match parts with
  | [] => EmptyString
  | [x] => x
  | x :: rest => x ++ sep ++ join sep rest
  end.

(** [s.replace(pattern, replacement)] for a string pattern: the first
    occurrence is replaced. *)
Fixpoint replaceFirst (pattern replacement s : string) : string :=
  if startsWith s pattern
  then replacement ++ String.substring (String.length pattern) (String.length s) s
  else match s with
       | EmptyString => EmptyString
       | String c s' => String c (replaceFirst pattern replacement s')
       end.

(** The truthiness of a string *)
Definition nonEmpty (s : string) : bool :=
  match s with EmptyString => false | _ => true end.

End JS.

(* ====================================================================== *)
(** ** JSON values                                                         *)
(* ====================================================================== *)

(** The value [JSON.parse] builds.  A number keeps the decimal it was written
    as, [m * 10^e]; an object keeps its members in source order. *)
#[warning="-register-all"]
Inductive JSON : Type :=
| JNull
| JBool (b : bool)
| JNumber (m e : Z)
| JString (s : string)
| JArray (items : list JSON)
| JObject (members : list (string * JSON)).

Module Json.

(** Whether the double nearest to [m * 10^e] is a zero: the decimal is zero,
    or its magnitude is at most half the least subnormal, [2^-1075]. *)
Definition numberIsZero (m e : Z) : bool :=
  (m =? 0) || ((e <? 0) && (Z.abs m * 2 ^ 1075 <=? 10 ^ (- e))).

(** [ToBoolean] *)
Definition truthy (v : JSON) : bool :=
  match v with
  | JNull => false
  | JBool b => b
  | JNumber m e => negb (numberIsZero m e)
  | JString s => JS.nonEmpty s
  | JArray _ => true
  | JObject _ => true
  end.

(** [ToBoolean] of a value that may be [undefined] ([None]) *)
Definition truthyU (v : option JSON) : bool :=
  match v with
  | None => false
  | Some w => truthy w
  end.

(** The own property [k] of an object built by [JSON.parse]: of duplicate
    members the last one wins. *)
Fixpoint lookupMember (k : string) (ms : list (string * JSON)) : option JSON :=
  match ms with
  | [] => None
  | (k', v) :: rest =>
      match lookupMember k rest with
      | Some w => Some w
      | None => if String.eqb k' k then Some v else None
      end
  end.

(** [v.k] for a value [v] that is neither [null] nor [undefined] and a key
    [k] that no built-in prototype defines (every key the plugin reads is
    such a key): the member of an object, [undefined] for anything else. *)
Definition member (v : JSON) (k : string) : option JSON :=
  match v with
  | JObject ms => lookupMember k ms
  | _ => None
  end.

(** [v.k]: reading a property of [null] throws. *)
Definition get (v : JSON) (k : string) : Completion (option JSON) :=
  match v with
  | JNull => Throw (TypeError "Cannot read properties of null")
  | _ => Normal (member v k)
  end.

(** [v?.k] for a value that may be [undefined] *)
Definition getOpt (v : option JSON) (k : string) : option JSON :=
  match v with
  | None => None
  | Some JNull => None
  | Some w => member w k
  end.

(** [text.match(/\{[\s\S]*\}/)]: the text from the first opening brace to the
    last closing brace, when a closing brace follows the first opening one. *)
Fixpoint afterFirstOpen (s : string) : option string :=
  match s with
  | EmptyString => None
  | String c s' => if Ascii.eqb c "{" then Some s' else afterFirstOpen s'
  end.

Fixpoint throughLastClose (s : string) : option string :=
  match s with
  | EmptyString => None
  | String c s' =>
      match throughLastClose s' with
      | Some t => Some (String c t)
      | None => if Ascii.eqb c "}" then Some (String c EmptyString) else None
      end
  end.

Definition matchObject (s : string) : option string :=
  match afterFirstOpen s with
  | None => None
  | Some rest =>
      match throughLastClose rest with
      | None => None
      | Some body => Some (String "{" body)
      end
  end.

End Json.

(* ====================================================================== *)
(** ** An executable [JSON.parse]                                          *)
(* ====================================================================== *)

(** The parsers below take [JSON.parse] as an argument, so every result about
    them holds for any parser.  [JsonParser.parse] is the JSON grammar of
    ECMA-404, run by the examples; [None] stands for the [SyntaxError] that
    [JSON.parse] throws.  A [\u] escape above 00FF names a code unit outside
    the string model and is refused. *)
Module JsonParser.

(** The double quote, code unit 34 *)
Definition dquote : ascii := ascii_of_N 34.

(** A text written with apostrophes in place of double quotes, as the
    examples write model responses. *)
Fixpoint text (s : string) : string :=
  match s with
  | EmptyString => EmptyString
  | String c s' => String (if Ascii.eqb c "'" then dquote else c) (text s')
  end.

Definition isJsonSpace (c : ascii) : bool :=
  let n := N_of_ascii c in ((n =? 32) || (n =? 9) || (n =? 10) || (n =? 13))%N.

Fixpoint skipWs (s : string) : string :=
  match s with
  | EmptyString => EmptyString
  | String c s' => if isJsonSpace c then skipWs s' else s
  end.

Definition hexValue (c : ascii) : option N :=
  let n := N_of_ascii c in
  if ((48 <=? n) && (n <=? 57))%N then Some (n - 48)%N
  else if ((97 <=? n) && (n <=? 102))%N then Some (n - 87)%N
  else if ((65 <=? n) && (n <=? 70))%N then Some (n - 55)%N
  else None.

(** The four hexadecimal digits of a [\u] escape *)
Definition parseHex4 (s : string) : option (ascii * string) :=
  match s with
  | String a (String b (String c (String d rest))) =>
      match hexValue a, hexValue b, hexValue c, hexValue d with
      | Some x, Some y, Some z, Some w =>
          let n := (((x * 16 + y) * 16 + z) * 16 + w)%N in
          if (n <? 256)%N then Some (ascii_of_N n, rest) else None
      | _, _, _, _ => None
      end
  | _ => None
  end.

Definition escapeChar (c : ascii) : option ascii :=
  if Ascii.eqb c dquote then Some dquote
  else if Ascii.eqb c "\" then Some "\"%char
  else if Ascii.eqb c "/" then Some "/"%char
  else if Ascii.eqb c "b" then Some (ascii_of_N 8)
  else if Ascii.eqb c "f" then Some (ascii_of_N 12)
  else if Ascii.eqb c "n" then Some (ascii_of_N 10)
  else if Ascii.eqb c "r" then Some (ascii_of_N 13)
  else if Ascii.eqb c "t" then Some (ascii_of_N 9)
  else None.

(** The characters of a string literal after its opening quote, up to and
    including the closing quote.  [fuel] bounds the number of characters. *)
Fixpoint parseChars (fuel : nat) (s : string) : option (string * string) :=
  match fuel with
  | O => None
  | S f =>
      match s with
      | EmptyString => None
      | String c rest =>
          if Ascii.eqb c dquote then Some (EmptyString, rest)
          else if Ascii.eqb c "\" then
            match rest with
            | EmptyString => None
            | String e rest' =>
                if Ascii.eqb e "u" then
                  match parseHex4 rest' with
                  | Some (x, rest'') =>
                      match parseChars f rest'' with
                      | Some (t, r) => Some (String x t, r)
                      | None => None
                      end
                  | None => None
                  end
                else
                  match escapeChar e with
                  | Some x =>
                      match parseChars f rest' with
                      | Some (t, r) => Some (String x t, r)
                      | None => None
                      end
                  | None => None
                  end
            end
          else if (N_of_ascii c <? 32)%N then None
          else
            match parseChars f rest with
            | Some (t, r) => Some (String c t, r)
            | None => None
            end
      end
  end.

(** A maximal run of decimal digits: their value, their count, the rest *)
Fixpoint parseDigits (s : string) (acc : Z) (count : nat) : Z * nat * string :=
  match s with
  | String c rest =>
      if JS.isDigit c
      then parseDigits rest (acc * 10 + (Z.of_N (N_of_ascii c) - 48)) (S count)
      else (acc, count, s)
  | EmptyString => (acc, count, s)
  end.

(** [int frac? exp?] after the optional minus sign *)
Definition parseUnsigned (s : string) : option (Z * Z * string) :=
  match s with
  | EmptyString => None
  | String c rest =>
      if negb (JS.isDigit c) then None
      else
        let '(i, _, r1) :=
          if Ascii.eqb c "0" then (0, 1%nat, rest) else parseDigits s 0 0 in
        let fraction :=
          match r1 with
          | String d r2 =>
              if Ascii.eqb d "." then
                let '(m, k, r3) := parseDigits r2 i 0 in
                match k with O => None | _ => Some (m, k, r3) end
              else Some (i, O, r1)
          | EmptyString => Some (i, O, r1)
          end in
        match fraction with
        | None => None
        | Some (m, k, r3) =>
            match r3 with
            | String x r4 =>
                if Ascii.eqb x "e" || Ascii.eqb x "E" then
                  let '(neg, r5) :=
                    match r4 with
                    | String sg r5 =>
                        if Ascii.eqb sg "-" then (true, r5)
                        else if Ascii.eqb sg "+" then (false, r5)
                        else (false, r4)
                    | EmptyString => (false, r4)
                    end in
                  let '(x, n, r6) := parseDigits r5 0 0 in
                  match n with
                  | O => None
                  | _ => Some (m, (if neg then - x else x) - Z.of_nat k, r6)
                  end
                else Some (m, - Z.of_nat k, r3)
            | EmptyString => Some (m, - Z.of_nat k, r3)
            end
        end
  end.

Definition parseNumber (s : string) : option (JSON * string) :=
  match s with
  | String c rest =>
      if Ascii.eqb c "-" then
        match parseUnsigned rest with
        | Some (m, e, r) => Some (JNumber (- m) e, r)
        | None => None
        end
      else
        match parseUnsigned s with
        | Some (m, e, r) => Some (JNumber m e, r)
        | None => None
        end
  | EmptyString => None
  end.

Definition parseLiteral (word : string) (v : JSON) (s : string) : option (JSON * string) :=
  if JS.startsWith s word
  then Some (v, String.substring (String.length word) (String.length s) s)
  else None.

Fixpoint parseValue (fuel : nat) (s : string) : option (JSON * string) :=
  match fuel with
  | O => None
  | S f =>
      match skipWs s with
      | EmptyString => None
      | String c rest =>
          if Ascii.eqb c "{" then
            match skipWs rest with
            | String d rest' =>
                if Ascii.eqb d "}" then Some (JObject [], rest')
                else
                  match parseMembers f (String d rest') with
                  | Some (ms, r) => Some (JObject ms, r)
                  | None => None
                  end
            | EmptyString => None
            end
          else if Ascii.eqb c "[" then
            match skipWs rest with
            | String d rest' =>
                if Ascii.eqb d "]" then Some (JArray [], rest')
                else
                  match parseElements f (String d rest') with
                  | Some (vs, r) => Some (JArray vs, r)
                  | None => None
                  end
            | EmptyString => None
            end
          else if Ascii.eqb c dquote then
            match parseChars (String.length rest) rest with
            | Some (t, r) => Some (JString t, r)
            | None => None
            end
          else if Ascii.eqb c "t" then parseLiteral "true" (JBool true) (String c rest)
          else if Ascii.eqb c "f" then parseLiteral "false" (JBool false) (String c rest)
          else if Ascii.eqb c "n" then parseLiteral "null" JNull (String c rest)
          else parseNumber (String c rest)
      end
  end

with parseElements (fuel : nat) (s : string) : option (list JSON * string) :=
  match fuel with
  | O => None
  | S f =>
      match parseValue f s with
      | None => None
      | Some (v, r) =>
          match skipWs r with
          | String c rest =>
              if Ascii.eqb c "," then
                match parseElements f rest with
                | Some (vs, r') => Some (v :: vs, r')
                | None => None
                end
              else if Ascii.eqb c "]" then Some ([v], rest)
              else None
          | EmptyString => None
          end
      end
  end

with parseMembers (fuel : nat) (s : string) : option (list (string * JSON) * string) :=
  match fuel with
  | O => None
  | S f =>
      match skipWs s with
      | String q rest =>
          if negb (Ascii.eqb q dquote) then None
          else
            match parseChars (String.length rest) rest with
            | None => None
            | Some (k, r) =>
                match skipWs r with
                | String colon r1 =>
                    if negb (Ascii.eqb colon ":") then None
                    else
                      match parseValue f r1 with
                      | None => None
                      | Some (v, r2) =>
                          match skipWs r2 with
                          | String c r3 =>
                              if Ascii.eqb c "," then
                                match parseMembers f r3 with
                                | Some (ms, r') => Some ((k, v) :: ms, r')
                                | None => None
                                end
                              else if Ascii.eqb c "}" then Some ([(k, v)], r3)
                              else None
                          | EmptyString => None
                          end
                      end
                | EmptyString => None
                end
            end
      | EmptyString => None
      end
  end.

(** [JSON.parse(text)]: one value, with nothing but white space around it.
    Every recursive call follows the reading of a character or is the first
    call of a list of elements or members, so twice the length of the text
    bounds the depth. *)
Definition parse (text : string) : option JSON :=
  match parseValue (2 * String.length text + 2) text with
  | Some (v, r) =>
      match skipWs r with
      | EmptyString => Some v
      | _ => None
      end
  | None => None
  end.

End JsonParser.

(* ====================================================================== *)
(** ** TriageAnalyzer                                                      *)
(* ====================================================================== *)

Record CheckResult := mkCheck {
  pass : bool;
  reason : string
}.

Record Checks := mkChecks {
  hasSpecifics : CheckResult;
  canBeCorePhrase : CheckResult;
  isTransferable : CheckResult;
  isNonHarmful : CheckResult
}.

Inductive Recommendation := adopt | review | reject.

Record TriageResult := mkTriage {
  checks : Checks;
  score : nat;
  recommendation : Recommendation;
  coreQuestion : string;
  timestamp : string
}.

Module TriageAnalyzer.

(** [Object.values(checks)] *)
Definition values (c : Checks) : list CheckResult :=
  [hasSpecifics c; canBeCorePhrase c; isTransferable c; isNonHarmful c].

(** The number of [true] values among the four checks *)
Definition passed (c : Checks) : nat :=
  length (List.filter pass (values c)).

Definition validateCheckResult (check : option JSON) : CheckResult :=
  {| pass := match Json.getOpt check "pass" with
             | Some (JBool true) => true
             | _ => false
             end;
     reason := match Json.getOpt check "reason" with
               | Some (JString s) => s
               | _ => "No reason provided"
               end |}.

Definition calculateRecommendation (score : nat) : Recommendation :=
  if (score =? 4)%nat then adopt
  else if (2 <=? score)%nat then review
  else reject.

Definition createFallbackResult (content now : string) : TriageResult :=
  {| checks :=
       {| hasSpecifics := mkCheck false "Analysis failed - please review";
          canBeCorePhrase := mkCheck false "Analysis failed - please review";
          isTransferable := mkCheck false "Analysis failed - please review";
          isNonHarmful := mkCheck true "Assumed safe" |};
     score := 1;
     recommendation := review;
     coreQuestion := JS.substring0 37 content ++ "...";
     timestamp := now |}.

Section Parse.

(** [JSON.parse]; [None] is a thrown [SyntaxError]. *)
Variable JSON_parse : string -> option JSON.

Definition parseJson (text : string) : Completion JSON :=
  match JSON_parse text with
  | Some v => Normal v
  | None => Throw (SyntaxError "Unexpected token in JSON")
  end.

(** The body of the [try] block of [parseTriageResponse]. [now] is the
    reading of the clock that stamps the result. *)
Definition parseTriageBody (response now : string) : Completion TriageResult :=
  match Json.matchObject response with
  | None => Throw (Error "No JSON found in response")
  | Some jsonText =>
      parsed ← parseJson jsonText;
      checksV ← Json.get parsed "checks";
      if negb (Json.truthyU checksV) then Throw (Error "Invalid response structure")
      else
        coreV ← Json.get parsed "coreQuestion";
        if negb (Json.truthyU coreV) then Throw (Error "Invalid response structure")
        else
          let checks :=
            {| hasSpecifics := validateCheckResult (Json.getOpt checksV "hasSpecifics");
               canBeCorePhrase := validateCheckResult (Json.getOpt checksV "canBeCorePhrase");
               isTransferable := validateCheckResult (Json.getOpt checksV "isTransferable");
               isNonHarmful := validateCheckResult (Json.getOpt checksV "isNonHarmful") |} in
          let score := length (List.filter pass (values checks)) in
          let recommendation := calculateRecommendation score in
          match coreV with
          | Some (JString q) =>
              Normal {| checks := checks;
                        score := score;
                        recommendation := recommendation;
                        coreQuestion := JS.substring0 40 q;
                        timestamp := now |}
          | _ => Throw (TypeError "parsed.coreQuestion.substring is not a function")
          end
  end.

Definition parseTriageResponse (response originalContent now : string) : TriageResult :=
  match parseTriageBody response now with
  | Normal result => result
  | Throw _ => createFallbackResult originalContent now
  end.

End Parse.

End TriageAnalyzer.

(* ====================================================================== *)
(** ** SynthesisGuide                                                      *)
(* ====================================================================== *)

Inductive ResponseLanguage := english | japanese.

Record SynthesisGuideType := mkGuide {
  questions : list string;
  suggestedTone : string;
  guideTimestamp : string
}.

Module SynthesisGuide.

Definition getFallbackQuestions (language : ResponseLanguage) : list string :=
  match language with
  | japanese =>
      [ "この経験が示す普遍的なパターンや真実は何ですか？";
        "同じような状況に直面している他の人は、この洞察からどのような恩恵を受けるでしょうか？";
        "より深く探求したい問いは何ですか？";
        "もしこれが未来の自分へのレッスンだとしたら、それは何でしょうか？" ]
  | english =>
      [ "What universal pattern or truth does this experience reveal?";
        "How might others facing similar situations benefit from this insight?";
        "What question would you want to explore more deeply?";
        "If this were a lesson for your future self, what would it be?" ]
  end.

Fixpoint dropDigits (s : string) : string :=
  match s with
  | EmptyString => EmptyString
  | String c s' => if JS.isDigit c then dropDigits s' else s
  end.

(** [q.replace(/^\d+\.\s*|^-\s*/, '')]: a leading run of digits followed by a
    dot, or a leading dash, is removed together with the white space after
    it; the pattern has no [g] flag and is anchored, so this happens once. *)
Definition stripListMarker (q : string) : string :=
  match q with
  | EmptyString => EmptyString
  | String c rest =>
      if JS.isDigit c then
        match dropDigits rest with
        | String d after => if Ascii.eqb d "." then JS.trimStart after else q
        | EmptyString => q
        end
      else if Ascii.eqb c "-" then JS.trimStart rest
      else q
  end.

(** The callback of [map]: [null] ([None]) for an element that is not a
    string. *)
Definition cleanQuestion (q : JSON) : option string :=
  match q with
  | JString s => Some (JS.trim (stripListMarker s))
  | _ => None
  end.

(** The callback of [filter]: [q && q.length > 0] *)
Definition keepQuestion (q : option string) : bool :=
  match q with
  | Some s => JS.nonEmpty s && (0 <? String.length s)%nat
  | None => false
  end.

(** [parsed.questions.map(...).filter(...)] *)
Definition cleanQuestions (qs : list JSON) : list (option string) :=
  List.filter keepQuestion (List.map cleanQuestion qs).

(** The list above as the [string[]] it is typed as: the filter has left no
    [null] in it. *)
Fixpoint strings (l : list (option string)) : list string :=
  match l with
  | [] => []
  | Some s :: rest => s :: strings rest
  | None :: rest => strings rest
  end.

Definition validTones : list string := ["reflective"; "analytical"; "exploratory"].

Definition validateTone (tone : option JSON) : string :=
  match tone with
  | Some (JString t) =>
      if existsb (String.eqb (JS.toLowerCase t)) validTones
      then JS.toLowerCase t
      else "reflective"
  | _ => "reflective"
  end.

Definition createFallbackGuide (language : ResponseLanguage) (now : string) : SynthesisGuideType :=
  {| questions := getFallbackQuestions language;
     suggestedTone := "reflective";
     guideTimestamp := now |}.

Section Parse.

Variable JSON_parse : string -> option JSON.

(** The body of the [try] block of [parseSynthesisResponse] *)
Definition parseSynthesisBody (response now : string) : Completion SynthesisGuideType :=
  match Json.matchObject response with
  | None => Throw (Error "No JSON found in response")
  | Some jsonText =>
      parsed ← TriageAnalyzer.parseJson JSON_parse jsonText;
      questionsV ← Json.get parsed "questions";
      match questionsV with
      | Some (JArray qs) =>
          if ((length qs <? 3) || (5 <? length qs))%nat
          then Throw (Error "Invalid question count")
          else
            let cleaned := cleanQuestions qs in
            if (length cleaned <? 3)%nat
            then Throw (Error "Not enough valid questions after cleaning")
            else
              Normal {| questions := strings (firstn 5 cleaned);
                        suggestedTone := validateTone (Json.member parsed "suggestedTone");
                        guideTimestamp := now |}
      | _ => Throw (Error "Invalid response structure: missing questions array")
      end
  end.

Definition parseSynthesisResponse (response : string) (language : ResponseLanguage)
    (now : string) : SynthesisGuideType :=
  match parseSynthesisBody response now with
  | Normal guide => guide
  | Throw _ => createFallbackGuide language now
  end.

End Parse.

End SynthesisGuide.

(* ====================================================================== *)
(** ** Provider adapters                                                   *)
(* ====================================================================== *)

(** [LLMCallOptions]: a field left out is [None]. *)
Record LLMCallOptions := mkOptions {
  temperature : option Q;
  maxTokens : option Z;
  timeoutMs : option Z
}.

Definition noOptions : LLMCallOptions := mkOptions None None None.

(** What one attempt sends to the backend.  [reqTimeoutMs] is the delay of
    the timer the request races against, [None] when there is no timer. *)
Record Request := mkRequest {
  reqModel : string;
  reqSystem : option string;
  reqUser : string;
  reqTemperature : option Q;
  reqMaxTokens : Z;
  reqTimeoutMs : option Z
}.

(** What an attempt through a vendor SDK observes: the race between the
    request and the timer is won by a response (carrying a text or none), by
    a rejection of the request, or by the timer. *)
Inductive SdkOutcome :=
| Resolved (text : option string)
| Rejected (e : JsError)
| TimedOut.

(** What an attempt through [fetch] observes: a response with status 2xx and
    its [message.content], a response with another status and its body, a
    rejection, or the abort of the request by the timer. *)
Inductive FetchOutcome :=
| FetchOk (content : option string)
| FetchStatus (status : Z) (body : string)
| FetchRejected (e : JsError)
| FetchAborted.

(** The answer to [GET /api/tags]: the names of the models, when the body has
    a [models] member. *)
Inductive TagsOutcome :=
| TagsOk (models : option (list string))
| TagsStatus (status : Z)
| TagsRejected (e : JsError).

(** The platform and the network an adapter runs against.  [sdk req k] and
    [chat req k] are the outcome of the [k]-th request of a call (from 0);
    [probe req] is the rejection, if any, of the request of a connection
    test; [validURL] is whether [new URL] accepts a string; [newClient key]
    is what the constructor of the vendor client throws for a key, if it
    throws. *)
Record Host := mkHost {
  validURL : string -> bool;
  sdk : Request -> nat -> SdkOutcome;
  probe : Request -> option JsError;
  chat : Request -> nat -> FetchOutcome;
  tags : TagsOutcome;
  newClient : string -> option JsError
}.

(** What a call did: how it completed, the delays it slept in order, and the
    number of requests it made. *)
Record Trace := mkTrace {
  result : Completion string;
  sleeps : list Z;
  attempts : nat
}.

Module Retry.

Definition maxRetries : Z := 3.

Section Loop.

Context {Obs : Type}.

(** The [try] block of one iteration *)
Variable attemptBody : Obs -> Completion string.

(** The [catch] block of one iteration: [Throw] leaves the call, [Normal d]
    sleeps [d] milliseconds and goes on to the next iteration. *)
Variable onFailure : Z -> JsError -> Completion Z.

Variable env : nat -> Obs.

(** [for (attempt = 1; attempt <= maxRetries; attempt++)], entered with
    [remaining] iterations left before the guard fails. *)
Fixpoint loop (remaining : nat) (attempt : Z) (k : nat) : Trace :=
  match remaining with
  | O => mkTrace (Throw (Error "API call failed: Maximum retries exceeded")) [] 0
  | S remaining' =>
      match attemptBody (env k) with
      | Normal text => mkTrace (Normal text) [] 1
      | Throw error =>
          match onFailure attempt error with
          | Throw e => mkTrace (Throw e) [] 1
          | Normal delay =>
              let rest := loop remaining' (attempt + 1) (S k) in
              mkTrace (result rest) (delay :: sleeps rest) (S (attempts rest))
          end
      end
  end.

Definition run : Trace := loop (Z.to_nat maxRetries) 1 0.

End Loop.

(** *** The redactions of [sanitizeError] *)

Fixpoint countWhile (p : ascii -> bool) (s : string) : nat :=
  match s with
  | EmptyString => O
  | String c s' => if p c then S (countWhile p s') else O
  end.

Fixpoint drop (n : nat) (s : string) : string :=
  match n, s with
  | O, _ => s
  | S n', String _ s' => drop n' s'
  | S _, EmptyString => EmptyString
  end.

(** [s.replace(/.../g, replacement)] for a pattern that matches no empty
    string: [matchAt s] is the length of the match that starts at the head of
    [s].  [skip] counts the characters of the current match still to pass. *)
Fixpoint replaceAll (matchAt : string -> option nat) (replacement : string)
    (skip : nat) (s : string) : string :=
  match s with
  | EmptyString => EmptyString
  | String c s' =>
      match skip with
      | S skip' => replaceAll matchAt replacement skip' s'
      | O =>
          match matchAt s with
          | Some (S len) => replacement ++ replaceAll matchAt replacement len s'
          | _ => String c (replaceAll matchAt replacement O s')
          end
      end
  end.

(** A prefix compared under the [i] flag; the patterns are in lower case. *)
Fixpoint prefixNoCase (p s : string) : bool :=
  match p, s with
  | EmptyString, _ => true
  | String a p', String b s' => Ascii.eqb a (JS.lowerChar b) && prefixNoCase p' s'
  | String _ _, EmptyString => false
  end.

(** [/PREFIX[class]+/] *)
Definition matchKey (prefix : string) (class : ascii -> bool) (s : string) : option nat :=
  if JS.startsWith s prefix then
    match countWhile class (drop (String.length prefix) s) with
    | O => None
    | n => Some (String.length prefix + n)%nat
    end
  else None.

Definition notSpace (c : ascii) : bool := negb (JS.isWhiteSpace c).

(** [/NAME:?\s*[^\s]+/i].  The greedy match takes the colon, the white space
    and a run of other characters; when no such run follows, the only match
    left is the name with its colon, the colon taken by [[^\s]+]. *)
Definition matchHeader (name : string) (s : string) : option nat :=
  if prefixNoCase name s then
    let r := drop (String.length name) s in
    let colon := match r with
                 | String c _ => if Ascii.eqb c ":" then 1%nat else O
                 | EmptyString => O
                 end in
    let r1 := drop colon r in
    let w := countWhile JS.isWhiteSpace r1 in
    match countWhile notSpace (drop w r1) with
    | O => match colon with
           | O => None
           | S _ => Some (String.length name + 1)%nat
           end
    | n => Some (String.length name + colon + w + n)%nat
    end
  else None.

(** [/bearer\s+[^\s]+/i] *)
Definition matchBearer (s : string) : option nat :=
  if prefixNoCase "bearer" s then
    let r := drop 6 s in
    let w := countWhile JS.isWhiteSpace r in
    match w, countWhile notSpace (drop w r) with
    | S _, S n => Some (6 + w + S n)%nat
    | _, _ => None
    end
  else None.

Definition isAlnum (c : ascii) : bool :=
  let n := N_of_ascii c in
  (((97 <=? n) && (n <=? 122)) || ((65 <=? n) && (n <=? 90)) || ((48 <=? n) && (n <=? 57)))%N.

(** [[a-zA-Z0-9-_]] and [[a-zA-Z0-9_-]] *)
Definition isKeyChar (c : ascii) : bool :=
  isAlnum c || Ascii.eqb c "-" || Ascii.eqb c "_".

Definition redactAuthorization (s : string) : string :=
  replaceAll (matchHeader "authorization") "authorization: [REDACTED]" 0 s.

End Retry.

Module AnthropicProvider.

(** [client] records whether [this.client] is set. *)
Record t := mk {
  apiKey : string;
  model : string;
  client : bool
}.

Definition new (apiKey model : string) : t := mk apiKey model false.

Definition initialize (h : Host) (p : t) : Completion t :=
  if negb (JS.nonEmpty (apiKey p)) || (String.length (JS.trim (apiKey p)) =? 0)%nat
  then Throw (Error "API key is required")
  else
    match newClient h (apiKey p) with
    | None => Normal (mk (apiKey p) (model p) true)
    | Some error =>
        let errorMessage :=
          if instanceofError error then message error else "Unknown error" in
        Throw (Error ("Failed to initialize Anthropic provider: " ++ errorMessage))
    end.

Definition sanitizeError (error : JsError) : string :=
  if instanceofError error then
    Retry.redactAuthorization
      (Retry.replaceAll (Retry.matchKey "sk-ant-" Retry.isKeyChar) "[API_KEY_REDACTED]" 0
         (message error))
  else "Unknown error".

Definition baseDelay : Z := 1000.

Definition attemptBody (o : SdkOutcome) : Completion string :=
  match o with
  | Resolved (Some text) => Normal text
  | Resolved None => Throw (Error "No text content in API response")
  | Rejected e => Throw e
  | TimedOut => Throw (Error "API request timeout")
  end.

(** The conditions of the [catch] block, each with its
    [error instanceof Error] guard *)
Definition authFailure (error : JsError) : bool :=
  instanceofError error && (JS.includes (message error) "401" || JS.includes (message error) "authentication").

Definition rateLimitFailure (error : JsError) : bool :=
  instanceofError error && (JS.includes (message error) "429" || JS.includes (message error) "rate limit").

Definition timeoutFailure (error : JsError) : bool :=
  instanceofError error && JS.includes (message error) "timeout".

Definition onFailure (attempt : Z) (error : JsError) : Completion Z :=
  let errorMessage := sanitizeError error in
  if authFailure error
  then Throw (Error "Invalid API key. Please check your Anthropic API key in settings.")
  else if rateLimitFailure error
  then
    if attempt =? Retry.maxRetries
    then Throw (Error "Rate limit exceeded. Please try again later.")
    else Normal (baseDelay * 2 ^ attempt * 2)
  else if timeoutFailure error
  then
    if attempt =? Retry.maxRetries
    then Throw (Error "API request timed out. Please check your connection and try again.")
    else Normal (baseDelay * 2 ^ (attempt - 1))
  else
    if attempt =? Retry.maxRetries
    then Throw (Error ("API call failed after " ++ JS.ofZ Retry.maxRetries
                         ++ " attempts: " ++ errorMessage))
    else Normal (baseDelay * 2 ^ (attempt - 1)).

Definition request (p : t) (systemPrompt userPrompt : string) (options : LLMCallOptions)
    : Request :=
  {| reqModel := model p;
     reqSystem := Some systemPrompt;
     reqUser := userPrompt;
     reqTemperature := Some (default (1 # 2)%Q (temperature options));
     reqMaxTokens := default 1000 (maxTokens options);
     reqTimeoutMs := Some (default 30000 (timeoutMs options)) |}.

Definition callAPI (h : Host) (p : t) (systemPrompt userPrompt : string)
    (options : LLMCallOptions) : Trace * t :=
  match (if client p then Normal p else initialize h p) with
  | Throw e => (mkTrace (Throw e) [] 0, p)
  | Normal p' =>
      (Retry.run attemptBody onFailure (sdk h (request p' systemPrompt userPrompt options)), p')
  end.

Definition testRequest (p : t) : Request :=
  {| reqModel := model p; reqSystem := None; reqUser := "Test";
     reqTemperature := Some 0%Q; reqMaxTokens := 10; reqTimeoutMs := None |}.

Definition testFailure (error : JsError) : JsError :=
  let errorMessage := sanitizeError error in
  let msg := message error in
  if authFailure error
  then Error "Invalid API key. Please check your Anthropic API key."
  else if rateLimitFailure error
  then Error "Rate limit exceeded. Please wait a moment and try again."
  else if instanceofError error
          && (JS.includes msg "network" || JS.includes msg "ENOTFOUND")
  then Error "Network error. Please check your internet connection."
  else Error ("Connection test failed: " ++ errorMessage).

Definition testConnection (h : Host) (p : t) : Completion bool * t :=
  match (if client p then Normal p else initialize h p) with
  | Throw e => (Throw (testFailure e), p)
  | Normal p' =>
      match probe h (testRequest p') with
      | None => (Normal true, p')
      | Some e => (Throw (testFailure e), p')
      end
  end.

Definition getAvailableModels (h : Host) (p : t) : list string * t :=
  ([ "claude-3-5-sonnet-20241022";
     "claude-3-5-sonnet-20240620";
     "claude-3-opus-20240229";
     "claude-3-sonnet-20240229";
     "claude-3-haiku-20240307" ], p).

Definition isInitialized (p : t) : bool := client p.

Definition getModel (p : t) : string := model p.

Definition setModel (m : string) (p : t) : t := mk (apiKey p) m (client p).

End AnthropicProvider.

Module OpenAIProvider.

Record t := mk {
  apiKey : string;
  model : string;
  client : bool
}.

Definition new (apiKey model : string) : t := mk apiKey model false.

Definition initialize (h : Host) (p : t) : Completion t :=
  if negb (JS.nonEmpty (apiKey p)) || (String.length (JS.trim (apiKey p)) =? 0)%nat
  then Throw (Error "API key is required")
  else
    match newClient h (apiKey p) with
    | None => Normal (mk (apiKey p) (model p) true)
    | Some error =>
        let errorMessage :=
          if instanceofError error then message error else "Unknown error" in
        Throw (Error ("Failed to initialize OpenAI provider: " ++ errorMessage))
    end.

Definition sanitizeError (error : JsError) : string :=
  if instanceofError error then
    Retry.replaceAll Retry.matchBearer "Bearer [REDACTED]" 0
      (Retry.redactAuthorization
         (Retry.replaceAll (Retry.matchKey "sk-" Retry.isAlnum) "[API_KEY_REDACTED]" 0
            (message error)))
  else "Unknown error".

Definition baseDelay : Z := 1000.

Definition isReasoningModel (p : t) : bool :=
  JS.startsWith (JS.toLowerCase (model p)) "gpt-5"
  || JS.startsWith (JS.toLowerCase (model p)) "o1"
  || JS.startsWith (JS.toLowerCase (model p)) "o3".

Definition attemptBody (o : SdkOutcome) : Completion string :=
  match o with
  | Resolved (Some text) =>
      if JS.nonEmpty text then Normal text
      else Throw (Error "No content in API response")
  | Resolved None => Throw (Error "No content in API response")
  | Rejected e => Throw e
  | TimedOut => Throw (Error "API request timeout")
  end.

(** The conditions of the [catch] block, each with its
    [error instanceof Error] guard *)
Definition authFailure (error : JsError) : bool :=
  instanceofError error && (JS.includes (message error) "401" || JS.includes (message error) "authentication"
     || JS.includes (message error) "invalid_api_key").

Definition rateLimitFailure (error : JsError) : bool :=
  instanceofError error && (JS.includes (message error) "429" || JS.includes (message error) "rate_limit").

Definition timeoutFailure (error : JsError) : bool :=
  instanceofError error && JS.includes (message error) "timeout".

Definition quotaFailure (error : JsError) : bool :=
  instanceofError error && JS.includes (message error) "insufficient_quota".

Definition onFailure (attempt : Z) (error : JsError) : Completion Z :=
  let errorMessage := sanitizeError error in
  if authFailure error
  then Throw (Error "Invalid API key. Please check your OpenAI API key in settings.")
  else if rateLimitFailure error
  then
    if attempt =? Retry.maxRetries
    then Throw (Error "Rate limit exceeded. Please try again later.")
    else Normal (baseDelay * 2 ^ attempt * 2)
  else if timeoutFailure error
  then
    if attempt =? Retry.maxRetries
    then Throw (Error "API request timed out. Please check your connection and try again.")
    else Normal (baseDelay * 2 ^ (attempt - 1))
  else if quotaFailure error
  then Throw (Error "OpenAI quota exceeded. Please check your billing settings.")
  else
    if attempt =? Retry.maxRetries
    then Throw (Error ("API call failed after " ++ JS.ofZ Retry.maxRetries
                         ++ " attempts: " ++ errorMessage))
    else Normal (baseDelay * 2 ^ (attempt - 1)).

Definition request (p : t) (systemPrompt userPrompt : string) (options : LLMCallOptions)
    : Request :=
  {| reqModel := model p;
     reqSystem := Some systemPrompt;
     reqUser := userPrompt;
     reqTemperature :=
       if isReasoningModel p then None
       else Some (default (1 # 2)%Q (temperature options));
     reqMaxTokens := default 1000 (maxTokens options);
     reqTimeoutMs := Some (default 30000 (timeoutMs options)) |}.

Definition callAPI (h : Host) (p : t) (systemPrompt userPrompt : string)
    (options : LLMCallOptions) : Trace * t :=
  match (if client p then Normal p else initialize h p) with
  | Throw e => (mkTrace (Throw e) [] 0, p)
  | Normal p' =>
      (Retry.run attemptBody onFailure (sdk h (request p' systemPrompt userPrompt options)), p')
  end.

Definition testRequest (p : t) : Request :=
  {| reqModel := model p; reqSystem := None; reqUser := "Test";
     reqTemperature := None; reqMaxTokens := 5; reqTimeoutMs := None |}.

Definition testFailure (error : JsError) : JsError :=
  let errorMessage := sanitizeError error in
  let msg := message error in
  if authFailure error
  then Error "Invalid API key. Please check your OpenAI API key."
  else if rateLimitFailure error
  then Error "Rate limit exceeded. Please wait a moment and try again."
  else if quotaFailure error
  then Error "OpenAI quota exceeded. Please check your billing settings."
  else if instanceofError error
          && (JS.includes msg "network" || JS.includes msg "ENOTFOUND")
  then Error "Network error. Please check your internet connection."
  else Error ("Connection test failed: " ++ errorMessage).

Definition testConnection (h : Host) (p : t) : Completion bool * t :=
  match (if client p then Normal p else initialize h p) with
  | Throw e => (Throw (testFailure e), p)
  | Normal p' =>
      match probe h (testRequest p') with
      | None => (Normal true, p')
      | Some e => (Throw (testFailure e), p')
      end
  end.

Definition getAvailableModels (h : Host) (p : t) : list string * t :=
  ([ "gpt-5.2"; "gpt-5"; "gpt-5-mini"; "gpt-4-turbo-preview"; "gpt-4"; "gpt-3.5-turbo" ], p).

Definition isInitialized (p : t) : bool := client p.

Definition getModel (p : t) : string := model p.

Definition setModel (m : string) (p : t) : t := mk (apiKey p) m (client p).

End OpenAIProvider.

Module GeminiProvider.

Record t := mk {
  apiKey : string;
  model : string;
  client : bool
}.

Definition new (apiKey model : string) : t := mk apiKey model false.

Definition initialize (h : Host) (p : t) : Completion t :=
  if negb (JS.nonEmpty (apiKey p)) || (String.length (JS.trim (apiKey p)) =? 0)%nat
  then Throw (Error "API key is required")
  else
    match newClient h (apiKey p) with
    | None => Normal (mk (apiKey p) (model p) true)
    | Some error =>
        let errorMessage :=
          if instanceofError error then message error else "Unknown error" in
        Throw (Error ("Failed to initialize Gemini provider: " ++ errorMessage))
    end.

Definition sanitizeError (error : JsError) : string :=
  if instanceofError error then
    Retry.replaceAll (Retry.matchHeader "x-goog-api-key") "x-goog-api-key: [REDACTED]" 0
      (Retry.redactAuthorization
         (Retry.replaceAll (Retry.matchKey "AIza" Retry.isKeyChar) "[API_KEY_REDACTED]" 0
            (message error)))
  else "Unknown error".

Definition baseDelay : Z := 1000.

Definition attemptBody (o : SdkOutcome) : Completion string :=
  match o with
  | Resolved (Some text) => Normal text
  | Resolved None => Throw (Error "No text content in API response")
  | Rejected e => Throw e
  | TimedOut => Throw (Error "API request timeout")
  end.

(** The conditions of the [catch] block, each with its
    [error instanceof Error] guard *)
Definition authFailure (error : JsError) : bool :=
  instanceofError error && (JS.includes (message error) "401" || JS.includes (message error) "403"
     || JS.includes (message error) "API_KEY_INVALID"
     || JS.includes (message error) "authentication").

Definition rateLimitFailure (error : JsError) : bool :=
  instanceofError error && (JS.includes (message error) "429" || JS.includes (message error) "RESOURCE_EXHAUSTED"
     || JS.includes (message error) "rate limit").

Definition timeoutFailure (error : JsError) : bool :=
  instanceofError error && JS.includes (message error) "timeout".

Definition quotaFailure (error : JsError) : bool :=
  instanceofError error
  && (JS.includes (message error) "quota" || JS.includes (message error) "QUOTA_EXCEEDED").

Definition safetyFailure (error : JsError) : bool :=
  instanceofError error
  && (JS.includes (message error) "SAFETY" || JS.includes (message error) "blocked").

Definition onFailure (attempt : Z) (error : JsError) : Completion Z :=
  let errorMessage := sanitizeError error in
  if authFailure error
  then Throw (Error "Invalid API key. Please check your Gemini API key in settings.")
  else if rateLimitFailure error
  then
    if attempt =? Retry.maxRetries
    then Throw (Error "Rate limit exceeded. Please try again later.")
    else Normal (baseDelay * 2 ^ attempt * 2)
  else if timeoutFailure error
  then
    if attempt =? Retry.maxRetries
    then Throw (Error "API request timed out. Please check your connection and try again.")
    else Normal (baseDelay * 2 ^ (attempt - 1))
  else if quotaFailure error
  then Throw (Error "Gemini quota exceeded. Please check your billing settings.")
  else if safetyFailure error
  then Throw (Error "Content was blocked by Gemini safety filters. Please try different input.")
  else
    if attempt =? Retry.maxRetries
    then Throw (Error ("API call failed after " ++ JS.ofZ Retry.maxRetries
                         ++ " attempts: " ++ errorMessage))
    else Normal (baseDelay * 2 ^ (attempt - 1)).

Definition request (p : t) (systemPrompt userPrompt : string) (options : LLMCallOptions)
    : Request :=
  {| reqModel := model p;
     reqSystem := None;
     reqUser := systemPrompt ++ JS.lf ++ JS.lf ++ userPrompt;
     reqTemperature := Some (default (1 # 2)%Q (temperature options));
     reqMaxTokens := default 1000 (maxTokens options);
     reqTimeoutMs := Some (default 30000 (timeoutMs options)) |}.

Definition callAPI (h : Host) (p : t) (systemPrompt userPrompt : string)
    (options : LLMCallOptions) : Trace * t :=
  match (if client p then Normal p else initialize h p) with
  | Throw e => (mkTrace (Throw e) [] 0, p)
  | Normal p' =>
      (Retry.run attemptBody onFailure (sdk h (request p' systemPrompt userPrompt options)), p')
  end.

Definition testRequest (p : t) : Request :=
  {| reqModel := model p; reqSystem := None; reqUser := "Test";
     reqTemperature := None; reqMaxTokens := 5; reqTimeoutMs := None |}.

Definition testFailure (error : JsError) : JsError :=
  let errorMessage := sanitizeError error in
  let msg := message error in
  if authFailure error
  then Error "Invalid API key. Please check your Gemini API key."
  else if rateLimitFailure error
  then Error "Rate limit exceeded. Please wait a moment and try again."
  else if quotaFailure error
  then Error "Gemini quota exceeded. Please check your billing settings."
  else if instanceofError error
          && (JS.includes msg "network" || JS.includes msg "ENOTFOUND")
  then Error "Network error. Please check your internet connection."
  else Error ("Connection test failed: " ++ errorMessage).

Definition testConnection (h : Host) (p : t) : Completion bool * t :=
  match (if client p then Normal p else initialize h p) with
  | Throw e => (Throw (testFailure e), p)
  | Normal p' =>
      match probe h (testRequest p') with
      | None => (Normal true, p')
      | Some e => (Throw (testFailure e), p')
      end
  end.

Definition getAvailableModels (h : Host) (p : t) : list string * t :=
  ([ "gemini-3-pro"; "gemini-3-flash"; "gemini-2.0-flash"; "gemini-1.5-pro";
     "gemini-1.5-flash"; "gemini-pro"; "gemini-pro-vision" ], p).

Definition isInitialized (p : t) : bool := client p.

Definition getModel (p : t) : string := model p.

Definition setModel (m : string) (p : t) : t := mk (apiKey p) m (client p).

End GeminiProvider.

Module OllamaProvider.

Record t := mk {
  endpoint : string;
  model : string;
  initialized : bool
}.

(** [endpoint.replace(/\/$/, '')] *)
Fixpoint stripTrailingSlash (s : string) : string :=
  match s with
  | EmptyString => EmptyString
  | String c EmptyString => if Ascii.eqb c "/" then EmptyString else s
  | String c s' => String c (stripTrailingSlash s')
  end.

Definition new (endpoint model : string) : t := mk (stripTrailingSlash endpoint) model false.

Definition initialize (h : Host) (p : t) : Completion t :=
  if negb (JS.nonEmpty (endpoint p)) || (String.length (JS.trim (endpoint p)) =? 0)%nat
  then Throw (Error "Endpoint is required")
  else if validURL h (endpoint p)
  then Normal (mk (endpoint p) (model p) true)
  else Throw (Error ("Invalid Ollama endpoint URL: " ++ endpoint p)).

Definition sanitizeError (error : JsError) : string :=
  if instanceofError error then message error else "Unknown error".

Definition baseDelay : Z := 2000.

(** The abort of [fetch] by the timer rejects with an error named
    [AbortError]; its message varies with the platform and is not read. *)
Definition abortError : JsError := mkJsError true "AbortError" "The operation was aborted.".

Definition attemptBody (p : t) (o : FetchOutcome) : Completion string :=
  match o with
  | FetchOk (Some content) =>
      if JS.nonEmpty content then Normal content
      else Throw (Error "No content in API response")
  | FetchOk None => Throw (Error "No content in API response")
  | FetchStatus status body =>
      if status =? 404
      then Throw (Error ("Model " ++ JS.dq ++ model p ++ JS.dq
                           ++ " not found. Pull it with: ollama pull " ++ model p))
      else Throw (Error ("Ollama API error (" ++ JS.ofZ status ++ "): " ++ body))
  | FetchRejected e => Throw e
  | FetchAborted => Throw abortError
  end.

(** The conditions of the [catch] block, each with its
    [error instanceof Error] guard *)
Definition timeoutFailure (error : JsError) : bool :=
  instanceofError error && String.eqb (name error) "AbortError".

Definition connectionFailure (error : JsError) : bool :=
  instanceofError error
  && (JS.includes (message error) "Failed to fetch"
      || JS.includes (message error) "NetworkError"
      || JS.includes (message error) "fetch failed").

Definition modelNotFound (error : JsError) : bool :=
  instanceofError error
  && (JS.includes (message error) "Model" && JS.includes (message error) "not found").

Definition onFailure (p : t) (attempt : Z) (error : JsError) : Completion Z :=
  let errorMessage := sanitizeError error in
  if timeoutFailure error
  then
    if attempt =? Retry.maxRetries
    then Throw (Error "Request timed out. Your local model may be too slow or overloaded.")
    else Normal (baseDelay * 2 ^ (attempt - 1))
  else if connectionFailure error
  then Throw (Error ("Cannot connect to Ollama server at " ++ endpoint p
                       ++ ". Is Ollama running?"))
  else if modelNotFound error
  then Throw error
  else
    if attempt =? Retry.maxRetries
    then Throw (Error ("API call failed after " ++ JS.ofZ Retry.maxRetries
                         ++ " attempts: " ++ errorMessage))
    else Normal (baseDelay * 2 ^ (attempt - 1)).

Definition request (p : t) (systemPrompt userPrompt : string) (options : LLMCallOptions)
    : Request :=
  {| reqModel := model p;
     reqSystem := Some systemPrompt;
     reqUser := userPrompt;
     reqTemperature := Some (default (1 # 2)%Q (temperature options));
     reqMaxTokens := default 1000 (maxTokens options);
     reqTimeoutMs := Some (default 60000 (timeoutMs options)) |}.

Definition callAPI (h : Host) (p : t) (systemPrompt userPrompt : string)
    (options : LLMCallOptions) : Trace * t :=
  match (if initialized p then Normal p else initialize h p) with
  | Throw e => (mkTrace (Throw e) [] 0, p)
  | Normal p' =>
      (Retry.run (attemptBody p') (onFailure p')
         (chat h (request p' systemPrompt userPrompt options)), p')
  end.

Definition testBody (h : Host) (p : t) : Completion bool :=
  match tags h with
  | TagsRejected e => Throw e
  | TagsStatus status =>
      Throw (Error ("Ollama server returned error: " ++ JS.ofZ status))
  | TagsOk None => Throw (Error "Invalid response from Ollama server")
  | TagsOk (Some names) =>
      if existsb (fun m => String.eqb m (model p) || JS.startsWith m (model p)) names
      then Normal true
      else
        let availableModels := JS.join ", " names in
        Throw (Error ("Model " ++ JS.dq ++ model p ++ JS.dq ++ " not found. Available models: "
                        ++ (if JS.nonEmpty availableModels then availableModels else "none")
                        ++ ". Pull with: ollama pull " ++ model p))
  end.

Definition testFailure (p : t) (error : JsError) : JsError :=
  let errorMessage := sanitizeError error in
  if connectionFailure error
  then Error ("Cannot connect to Ollama server at " ++ endpoint p
                ++ ". Please ensure Ollama is running.")
  else if modelNotFound error
  then error
  else Error ("Connection test failed: " ++ errorMessage).

Definition testConnection (h : Host) (p : t) : Completion bool * t :=
  match (if initialized p then Normal p else initialize h p) with
  | Throw e => (Throw (testFailure p e), p)
  | Normal p' =>
      match testBody h p' with
      | Normal b => (Normal b, p')
      | Throw e => (Throw (testFailure p' e), p')
      end
  end.

Definition getFallbackModels : list string :=
  [ "llama2"; "llama2:13b"; "mistral"; "mixtral"; "codellama"; "phi" ].

Definition getAvailableModels (h : Host) (p : t) : list string * t :=
  match (if initialized p then Normal p else initialize h p) with
  | Throw _ => (getFallbackModels, p)
  | Normal p' =>
      match tags h with
      | TagsOk (Some names) => (names, p')
      | _ => (getFallbackModels, p')
      end
  end.

Definition isInitialized (p : t) : bool := initialized p.

Definition getModel (p : t) : string := model p.

Definition setModel (m : string) (p : t) : t := mk (endpoint p) m (initialized p).

End OllamaProvider.

(* ====================================================================== *)
(** ** ILLMProvider and the LLMClient facade                               *)
(* ====================================================================== *)

(** The interface every adapter implements.  A method that can change the
    adapter returns the adapter it leaves behind. *)
Class ILLMProvider (P : Type) := {
  initialize : Host -> P -> Completion P;
  callAPI : Host -> P -> string -> string -> LLMCallOptions -> Trace * P;
  testConnection : Host -> P -> Completion bool * P;
  getAvailableModels : Host -> P -> list string * P;
  isInitialized : P -> bool;
  getModel : P -> string;
  setModel : string -> P -> P
}.

#[global] Instance Anthropic_ILLMProvider : ILLMProvider AnthropicProvider.t := {
  initialize := AnthropicProvider.initialize;
  callAPI := AnthropicProvider.callAPI;
  testConnection := AnthropicProvider.testConnection;
  getAvailableModels := AnthropicProvider.getAvailableModels;
  isInitialized := AnthropicProvider.isInitialized;
  getModel := AnthropicProvider.getModel;
  setModel := AnthropicProvider.setModel
}.

#[global] Instance OpenAI_ILLMProvider : ILLMProvider OpenAIProvider.t := {
  initialize := OpenAIProvider.initialize;
  callAPI := OpenAIProvider.callAPI;
  testConnection := OpenAIProvider.testConnection;
  getAvailableModels := OpenAIProvider.getAvailableModels;
  isInitialized := OpenAIProvider.isInitialized;
  getModel := OpenAIProvider.getModel;
  setModel := OpenAIProvider.setModel
}.

#[global] Instance Gemini_ILLMProvider : ILLMProvider GeminiProvider.t := {
  initialize := GeminiProvider.initialize;
  callAPI := GeminiProvider.callAPI;
  testConnection := GeminiProvider.testConnection;
  getAvailableModels := GeminiProvider.getAvailableModels;
  isInitialized := GeminiProvider.isInitialized;
  getModel := GeminiProvider.getModel;
  setModel := GeminiProvider.setModel
}.

#[global] Instance Ollama_ILLMProvider : ILLMProvider OllamaProvider.t := {
  initialize := OllamaProvider.initialize;
  callAPI := OllamaProvider.callAPI;
  testConnection := OllamaProvider.testConnection;
  getAvailableModels := OllamaProvider.getAvailableModels;
  isInitialized := OllamaProvider.isInitialized;
  getModel := OllamaProvider.getModel;
  setModel := OllamaProvider.setModel
}.

(** [ProviderConfig]; an optional field left out is [None]. *)
Module ProviderConfig.
Record t := mk {
  apiKey : option string;
  model : string;
  endpoint : option string
}.
End ProviderConfig.

(** An [LLMClient]: its one field, [provider], is an object of some class
    that implements [ILLMProvider]. *)
Record LLMClient := mkLLMClient {
  providerClass : Type;
  providerImpl : ILLMProvider providerClass;
  provider : providerClass
}.
Arguments mkLLMClient {providerClass providerImpl} provider.

Module LLMClient.

(** The legacy constructor: an Anthropic adapter *)
Definition new (apiKey model : string) : LLMClient :=
  mkLLMClient (AnthropicProvider.new apiKey model).

(** The truthiness of an optional string: absent and empty are falsy. *)
Definition present (s : option string) : option string :=
  match s with
  | Some v => if JS.nonEmpty v then Some v else None
  | None => None
  end.

Definition createFromConfig (providerType : string) (config : ProviderConfig.t)
    : Completion LLMClient :=
  let tag := JS.toLowerCase providerType in
  if String.eqb tag "anthropic" then
    match present (ProviderConfig.apiKey config) with
    | None => Throw (Error "Anthropic provider requires API key")
    | Some key => Normal (mkLLMClient (AnthropicProvider.new key (ProviderConfig.model config)))
    end
  else if String.eqb tag "openai" then
    match present (ProviderConfig.apiKey config) with
    | None => Throw (Error "OpenAI provider requires API key")
    | Some key => Normal (mkLLMClient (OpenAIProvider.new key (ProviderConfig.model config)))
    end
  else if String.eqb tag "gemini" then
    match present (ProviderConfig.apiKey config) with
    | None => Throw (Error "Gemini provider requires API key")
    | Some key => Normal (mkLLMClient (GeminiProvider.new key (ProviderConfig.model config)))
    end
  else if String.eqb tag "ollama" then
    match present (ProviderConfig.endpoint config) with
    | None => Throw (Error "Ollama provider requires endpoint")
    | Some url => Normal (mkLLMClient (OllamaProvider.new url (ProviderConfig.model config)))
    end
  else Throw (Error ("Unknown provider type: " ++ providerType)).

(** The delegation methods: each calls the method of the same name on
    [this.provider]; the ones that can change the adapter put the adapter
    they get back in its place. *)
Definition withProvider (c : LLMClient) (p : providerClass c) : LLMClient :=
  @mkLLMClient (providerClass c) (providerImpl c) p.

Definition initialize (h : Host) (c : LLMClient) : Completion LLMClient :=
  match @initialize _ (providerImpl c) h (provider c) with
  | Normal p => Normal (withProvider c p)
  | Throw e => Throw e
  end.

Definition callAPI (h : Host) (c : LLMClient) (systemPrompt userPrompt : string)
    (options : LLMCallOptions) : Trace * LLMClient :=
  let '(tr, p) := @callAPI _ (providerImpl c) h (provider c) systemPrompt userPrompt options in
  (tr, withProvider c p).

Definition testConnection (h : Host) (c : LLMClient) : Completion bool * LLMClient :=
  let '(r, p) := @testConnection _ (providerImpl c) h (provider c) in
  (r, withProvider c p).

Definition getAvailableModels (h : Host) (c : LLMClient) : list string * LLMClient :=
  let '(ms, p) := @getAvailableModels _ (providerImpl c) h (provider c) in
  (ms, withProvider c p).

Definition isInitialized (c : LLMClient) : bool :=
  @isInitialized _ (providerImpl c) (provider c).

Definition getModel (c : LLMClient) : string :=
  @getModel _ (providerImpl c) (provider c).

Definition setModel (m : string) (c : LLMClient) : LLMClient :=
  withProvider c (@setModel _ (providerImpl c) m (provider c)).

End LLMClient.

(* ====================================================================== *)
(** ** The analyzers and the plugin's choice of a client                   *)
(* ====================================================================== *)

(** A prompt is written below with a grave accent where the source has a
    double quote; [quoted] puts the double quotes back.  The Japanese words of
    the prompts are kept as the bytes of their UTF-8 encoding. *)
Fixpoint quoted (s : string) : string :=
  match s with
  | EmptyString => EmptyString
  | String c s' => String (if Ascii.eqb c "`" then ascii_of_N 34 else c) (quoted s')
  end.

(** What a call of an analyzer did: how it completed, the traces of the calls
    it made to the provider, in order, and the analyzer it leaves behind. *)
Record Analysis (A T : Type) := mkAnalysis {
  outcome : Completion A;
  providerCalls : list Trace;
  analyzer : T
}.
Arguments mkAnalysis {A T} outcome providerCalls analyzer.
Arguments outcome {A T} _.
Arguments providerCalls {A T} _.
Arguments analyzer {A T} _.

(** The public methods of the class [TriageAnalyzer], which holds a client. *)
Module TriageAnalysis.

Record t := mk {
  llmClient : LLMClient;
  temperature : Q
}.

(** The constructor; the temperature defaults to 0.3. *)
Definition new (llmClient : LLMClient) (temperature : option Q) : t :=
  mk llmClient (default (3 # 10)%Q temperature).

Definition getTriageSystemPrompt (language : ResponseLanguage) : string :=
  let languageInstruction :=
    match language with
    | japanese => JS.lf ++ JS.lf ++ "IMPORTANT: Respond in Japanese (日本語). All explanations, reasons, and the core question must be in Japanese."
    | english => JS.lf ++ JS.lf ++ "IMPORTANT: Respond in English."
    end in
  quoted "You are an objective evaluator for a creative writing project.
Your task is to evaluate raw journal entries to determine if they have potential to be transformed into universal, transferable creative works.

Evaluate the entry against these 4 criteria:

1. **HAS_SPECIFICS**: Does it contain concrete situations, experiences, or observations (not just abstract feelings)?
   - Pass: Specific events, moments, scenarios
   - Fail: Only vague emotions or generalizations

2. **CAN_BE_CORE_PHRASE**: Can it be condensed into one essential question (under 40 characters)?
   - Pass: Has a clear, focused theme
   - Fail: Too scattered or unfocused

3. **IS_TRANSFERABLE**: Is it universally relatable (not overly personal or niche)?
   - Pass: Others could relate to similar experiences
   - Fail: Too specific to author's unique circumstances

4. **IS_NON_HARMFUL**: Is it constructive and safe for readers (not harmful or triggering)?
   - Pass: Reflective, growth-oriented
   - Fail: Harmful, destructive, or excessively dark

For each criterion, provide:
- pass: true/false
- reason: Brief explanation (1-2 sentences, ~30 chars)

Also provide:
- coreQuestion: The essential question distilled from the entry (max 40 chars)
- score: Count of passed checks (0-4)
- recommendation: `adopt` (score=4), `review` (score=2-3), or `reject` (score=0-1)

Respond ONLY with JSON in this exact format:
{
  `checks`: {
    `hasSpecifics`: { `pass`: true, `reason`: `...` },
    `canBeCorePhrase`: { `pass`: true, `reason`: `...` },
    `isTransferable`: { `pass`: true, `reason`: `...` },
    `isNonHarmful`: { `pass`: true, `reason`: `...` }
  },
  `coreQuestion`: `...`,
  `score`: 4,
  `recommendation`: `adopt`
}" ++ languageInstruction.

(** [analyzeEntry(content, language)]; [now] is the reading of the clock that
    stamps the result. *)
Definition analyzeEntry (JSON_parse : string -> option JSON) (h : Host) (a : t)
    (content : string) (language : ResponseLanguage) (now : string)
    : Analysis TriageResult t :=
  if negb (JS.nonEmpty content) || (String.length (JS.trim content) =? 0)%nat
  then mkAnalysis (Throw (Error "Content cannot be empty")) [] a
  else
    let userPrompt := "Evaluate this journal entry:" ++ JS.lf ++ JS.lf ++ content in
    let systemPrompt := getTriageSystemPrompt language in
    let '(tr, client) :=
      LLMClient.callAPI h (llmClient a) systemPrompt userPrompt
        (mkOptions (Some (temperature a)) (Some 1000) (Some 30000)) in
    let a' := mk client (temperature a) in
    match result tr with
    | Normal response =>
        mkAnalysis
          (Normal (TriageAnalyzer.parseTriageResponse JSON_parse response content now))
          [tr] a'
    | Throw error =>
        let errorMessage :=
          if instanceofError error then message error else "Unknown error" in
        mkAnalysis (Throw (Error ("Triage analysis failed: " ++ errorMessage))) [tr] a'
    end.

(** [setTemperature]; a temperature is a rational here, so the case of [NaN],
    which the two comparisons let through, does not arise. *)
Definition setTemperature (temperature : Q) (a : t) : Completion t :=
  if negb (Qle_bool 0 temperature) || negb (Qle_bool temperature 1)
  then Throw (Error "Temperature must be between 0.0 and 1.0")
  else Normal (mk (llmClient a) temperature).

Definition getTemperature (a : t) : Q := temperature a.

End TriageAnalysis.

(** The public methods of the class [SynthesisGuide], which holds a client. *)
Module SynthesisGeneration.

Record t := mk {
  llmClient : LLMClient;
  temperature : Q
}.

(** The constructor; the temperature defaults to 0.7. *)
Definition new (llmClient : LLMClient) (temperature : option Q) : t :=
  mk llmClient (default (7 # 10)%Q temperature).

Definition getSynthesisSystemPrompt (language : ResponseLanguage) : string :=
  let languageInstruction :=
    match language with
    | japanese => JS.lf ++ JS.lf ++ "IMPORTANT: Generate ALL questions in Japanese (日本語). The suggestedTone should also be in Japanese."
    | english => JS.lf ++ JS.lf ++ "IMPORTANT: Generate ALL questions in English."
    end in
  quoted "You are a creative writing coach helping transform personal journal entries into universal, transferable creative works.

Your task is to generate 3-5 deepening questions that help the author:
1. Move from personal experience to universal insight
2. Explore the `why` and `how`, not just the `what`
3. Discover patterns and transferable wisdom
4. Transform weakness into creative strength

Guidelines for questions:
- Focus on universal aspects (not overly personal details)
- Encourage reflection on patterns and meanings
- Help extract transferable insights
- Prompt deeper `why/how` exploration
- Keep questions clear and thought-provoking

Generate exactly 3-5 questions. Do NOT number them.

Respond with JSON in this exact format:
{
  `questions`: [
    `Question 1 text here?`,
    `Question 2 text here?`,
    `Question 3 text here?`
  ],
  `suggestedTone`: `reflective` or `analytical` or `exploratory`
}" ++ languageInstruction.

Definition buildUserPrompt (content : string) (triageResult : TriageResult) : string :=
  let parts :=
    [ "Generate synthesis questions for this entry:";
      EmptyString;
      "Core Question: " ++ coreQuestion triageResult;
      EmptyString;
      "Entry Content:";
      content;
      EmptyString;
      "Context from triage:" ] in
  let parts :=
    if pass (hasSpecifics (checks triageResult))
    then (parts ++ ["- Contains concrete specifics"])%list else parts in
  let parts :=
    if pass (isTransferable (checks triageResult))
    then (parts ++ ["- Has universal relevance"])%list else parts in
  JS.join JS.lf parts.

(** [generateQuestions(content, triageResult, language)]; [now] is the reading
    of the clock that stamps the guide. *)
Definition generateQuestions (JSON_parse : string -> option JSON) (h : Host) (a : t)
    (content : string) (triageResult : TriageResult) (language : ResponseLanguage)
    (now : string) : Analysis SynthesisGuideType t :=
  if negb (JS.nonEmpty content) || (String.length (JS.trim content) =? 0)%nat
  then mkAnalysis (Throw (Error "Content cannot be empty")) [] a
  else
    let userPrompt := buildUserPrompt content triageResult in
    let systemPrompt := getSynthesisSystemPrompt language in
    let '(tr, client) :=
      LLMClient.callAPI h (llmClient a) systemPrompt userPrompt
        (mkOptions (Some (temperature a)) (Some 500) (Some 20000)) in
    let a' := mk client (temperature a) in
    match result tr with
    | Normal response =>
        mkAnalysis
          (Normal (SynthesisGuide.parseSynthesisResponse JSON_parse response language now))
          [tr] a'
    | Throw error =>
        let errorMessage :=
          if instanceofError error then message error else "Unknown error" in
        mkAnalysis (Throw (Error ("Synthesis generation failed: " ++ errorMessage))) [tr] a'
    end.

Definition setTemperature (temperature : Q) (a : t) : Completion t :=
  if negb (Qle_bool 0 temperature) || negb (Qle_bool temperature 1)
  then Throw (Error "Temperature must be between 0.0 and 1.0")
  else Normal (mk (llmClient a) temperature).

Definition getTemperature (a : t) : Q := temperature a.

Definition getFallbackQuestions (language : ResponseLanguage) : list string :=
  SynthesisGuide.getFallbackQuestions language.

End SynthesisGeneration.

(** [WeaklogSettings]; an optional field left out is [None]. *)
Module WeaklogSettings.
Record t := mk {
  apiKey : string;
  defaultCooldownDays : Z;
  weaklogFolderPath : string;
  model : string;
  triageTemperature : Q;
  synthesisTemperature : Q;
  responseLanguage : ResponseLanguage;
  llmProvider : string;
  anthropicApiKey : option string;
  openaiApiKey : option string;
  geminiApiKey : option string;
  ollamaEndpoint : option string
}.
End WeaklogSettings.

Module WeaklogPlugin.

(** [a || b] on optional strings: [a] when it is truthy, [b] otherwise. *)
Definition orElse (a b : option string) : option string :=
  match LLMClient.present a with
  | Some v => Some v
  | None => b
  end.

(** [getLLMClient()]; [env] is the value of the environment variable
    [WEAKLOG_API_KEY], [None] when there is no [process] or no such
    variable. *)
Definition getLLMClient (h : Host) (env : option string) (settings : WeaklogSettings.t)
    : Completion LLMClient :=
  let provider := WeaklogSettings.llmProvider settings in
  let envKey := LLMClient.present env in
  llmClient ←
    (if String.eqb provider "anthropic" then
       let apiKey :=
         orElse envKey (orElse (WeaklogSettings.anthropicApiKey settings)
                               (Some (WeaklogSettings.apiKey settings))) in
       match LLMClient.present apiKey with
       | None =>
           Throw (Error "Anthropic API key not configured. Please set WEAKLOG_API_KEY environment variable or configure in settings.")
       | Some key =>
           LLMClient.createFromConfig "anthropic"
             (ProviderConfig.mk (Some key) (WeaklogSettings.model settings) None)
       end
     else if String.eqb provider "openai" then
       let apiKey := orElse envKey (WeaklogSettings.openaiApiKey settings) in
       match LLMClient.present apiKey with
       | None =>
           Throw (Error "OpenAI API key not configured. Please set WEAKLOG_API_KEY environment variable or configure in settings.")
       | Some key =>
           LLMClient.createFromConfig "openai"
             (ProviderConfig.mk (Some key) (WeaklogSettings.model settings) None)
       end
     else if String.eqb provider "gemini" then
       let apiKey := orElse envKey (WeaklogSettings.geminiApiKey settings) in
       match LLMClient.present apiKey with
       | None =>
           Throw (Error "Gemini API key not configured. Please set WEAKLOG_API_KEY environment variable or configure in settings.")
       | Some key =>
           LLMClient.createFromConfig "gemini"
             (ProviderConfig.mk (Some key) (WeaklogSettings.model settings) None)
       end
     else if String.eqb provider "ollama" then
       let endpoint :=
         default "http://localhost:11434"
           (LLMClient.present (WeaklogSettings.ollamaEndpoint settings)) in
       LLMClient.createFromConfig "ollama"
         (ProviderConfig.mk None (WeaklogSettings.model settings) (Some endpoint))
     else Throw (Error ("Unknown LLM provider: " ++ provider)));
  LLMClient.initialize h llmClient.

End WeaklogPlugin.

(* ====================================================================== *)
(** ** Dates                                                               *)
(* ====================================================================== *)

(** A [Date] is its time value: milliseconds since the epoch, [None] for an
    invalid date. *)
Module JsDate.

Definition msPerDay : Z := 86400000.

(** [TimeClip]: a time value is at most 8.64e15 milliseconds from the epoch. *)
Definition timeClip (t : Z) : option Z :=
  if Z.abs t <=? 8640000000000000 then Some t else None.

(** The civil date of a day number counted from the epoch: year, month
    (1-12), day of the month, in the proleptic Gregorian calendar. *)
Definition civilFromDays (days : Z) : Z * Z * Z :=
  let z := days + 719468 in
  let era := z / 146097 in
  let doe := z - era * 146097 in
  let yoe := (doe - doe / 1460 + doe / 36524 - doe / 146096) / 365 in
  let y := yoe + era * 400 in
  let doy := doe - (365 * yoe + yoe / 4 - yoe / 100) in
  let mp := (5 * doy + 2) / 153 in
  let d := doy - (153 * mp + 2) / 5 + 1 in
  let m := if mp <? 10 then mp + 3 else mp - 9 in
  (if m <=? 2 then y + 1 else y, m, d).

(** The day number of a civil date *)
Definition daysFromCivil (y m d : Z) : Z :=
  let y' := if m <=? 2 then y - 1 else y in
  let era := y' / 400 in
  let yoe := y' - era * 400 in
  let doy := (153 * (if 2 <? m then m - 3 else m + 9) + 2) / 5 + d - 1 in
  let doe := yoe * 365 + yoe / 4 - yoe / 100 + doy in
  era * 146097 + doe - 719468.

Definition pad (width : nat) (n : Z) : string :=
  JS.padStart width "0" (JS.ofN (Z.to_N n)).

(** [toISOString] of a valid time value: [YYYY-MM-DDTHH:mm:ss.sssZ], the year
    written with a sign and six digits outside 0-9999. *)
Definition isoOfTime (t : Z) : string :=
  let '(y, m, d) := civilFromDays (t / msPerDay) in
  let ms := t mod msPerDay in
  let year :=
    if (0 <=? y) && (y <=? 9999) then pad 4 y
    else (if y <? 0 then "-" else "+") ++ pad 6 (Z.abs y) in
  year ++ "-" ++ pad 2 m ++ "-" ++ pad 2 d ++ "T"
    ++ pad 2 (ms / 3600000) ++ ":" ++ pad 2 (ms / 60000 mod 60) ++ ":"
    ++ pad 2 (ms / 1000 mod 60) ++ "." ++ pad 3 (ms mod 1000) ++ "Z".

(** [date.toISOString()]: an invalid date throws a [RangeError]. *)
Definition toISOString (date : option Z) : Completion string :=
  match date with
  | Some t => Normal (isoOfTime t)
  | None => Throw (mkJsError true "RangeError" "Invalid time value")
  end.

(** Reading back the format [toISOString] writes for the years 0-9999, and
    nothing else: the least a [Date.parse] does. *)
Fixpoint digitsValue (s : string) (acc : Z) : option Z :=
  match s with
  | EmptyString => Some acc
  | String c s' =>
      if JS.isDigit c then digitsValue s' (acc * 10 + (Z.of_N (N_of_ascii c) - 48))
      else None
  end.

Definition field (start len : nat) (s : string) : option Z :=
  if (String.length (String.substring start len s) =? len)%nat
  then digitsValue (String.substring start len s) 0
  else None.

Definition parseISO (s : string) : option Z :=
  if negb ((String.length s =? 24)%nat
           && String.eqb (String.substring 4 1 s) "-"
           && String.eqb (String.substring 7 1 s) "-"
           && String.eqb (String.substring 10 1 s) "T"
           && String.eqb (String.substring 13 1 s) ":"
           && String.eqb (String.substring 16 1 s) ":"
           && String.eqb (String.substring 19 1 s) "."
           && String.eqb (String.substring 23 1 s) "Z")
  then None
  else
    match field 0 4 s, field 5 2 s, field 8 2 s, field 11 2 s, field 14 2 s,
          field 17 2 s, field 20 3 s with
    | Some y, Some m, Some d, Some hh, Some mm, Some ss, Some ms =>
        if (1 <=? m) && (m <=? 12) && (1 <=? d)
           && (d <=? daysFromCivil (if m =? 12 then y + 1 else y)
                                   (if m =? 12 then 1 else m + 1) 1
                     - daysFromCivil y m 1)
           && (hh <=? 23) && (mm <=? 59) && (ss <=? 59)
        then Some (daysFromCivil y m d * msPerDay
                   + hh * 3600000 + mm * 60000 + ss * 1000 + ms)
        else None
    | _, _, _, _, _, _, _ => None
    end.

End JsDate.

(** The functions of the platform that depend on its locale and on its
    parsers: [dateParse] is [Date.parse] ([None] for [NaN]); [localDate t] is
    the local year, month (1-12) and day of the month of a time value;
    [addLocalDays t n] is the time value of [d.setDate(d.getDate() + n)] for a
    date [d] of time value [t]; [normalizePath] is Obsidian's. *)
Record Platform := mkPlatform {
  dateParse : string -> option Z;
  localDate : Z -> Z * Z * Z;
  addLocalDays : Z -> Z -> Z;
  normalizePath : string -> string
}.

(** A platform whose local time is UTC, that parses the ISO format only, and
    is given paths that are already normal. *)
Definition utcPlatform : Platform :=
  {| dateParse := JsDate.parseISO;
     localDate := fun t => JsDate.civilFromDays (t / JsDate.msPerDay);
     addLocalDays := fun t n => t + n * JsDate.msPerDay;
     normalizePath := fun p => p |}.

(* ====================================================================== *)
(** ** The vault, the clock and the console                                *)
(* ====================================================================== *)

Record CooldownEntry := mkEntry {
  weaklogId : string;
  filePath : string;
  createdAt : string;
  cooldownDays : Z;
  readyAt : string
}.

Record CooldownData := mkData {
  entries : list CooldownEntry;
  lastChecked : string
}.

(** The content of a file of a vault whose index is typed: the JSON text of a
    cooldown index whose entries have the five members of [CooldownEntry],
    each of its type, as the manager itself writes it, kept as the
    [CooldownData] that [JSON.parse] reads from it and [JSON.stringify]
    writes to it; or a text that [JSON.parse] refuses (a note, a damaged
    index).  A text that parses to anything else is not a [FileBody]: the
    index of any content is the matter of [UntypedCooldownManager]. *)
Inductive FileBody :=
| IndexJson (data : CooldownData)
| Text (content : string).

(** The state the managers run in: the files of the vault by path, whether
    the vault accepts writes, the readings of the clock in milliseconds
    ([clock k] is the [k]-th reading) with the number of readings taken, and
    the lines written to the console, the latest first. *)
Record World := mkWorld {
  files : gmap string FileBody;
  writable : bool;
  clock : nat -> Z;
  reads : nat;
  console : list string
}.

(** An asynchronous operation of a manager: it runs in a world, completes
    normally or abruptly, and leaves a world. *)
Definition IO (A : Type) : Type := World -> Completion A * World.

#[global] Instance IO_ret : MRet IO := fun A a w => (Normal a, w).

#[global] Instance IO_bind : MBind IO :=
  fun A B k m w =>
    match m w with
    | (Normal a, w') => k a w'
    | (Throw e, w') => (Throw e, w')
    end.

Module Io.

Definition throw {A : Type} (e : JsError) : IO A := fun w => (Throw e, w).

(** [try { body } catch (error) { handler }] *)
Definition tryCatch {A : Type} (body : IO A) (handler : JsError -> IO A) : IO A :=
  fun w =>
    match body w with
    | (Normal a, w') => (Normal a, w')
    | (Throw e, w') => handler e w'
    end.

(** Lifting a completion that touches nothing *)
Definition lift {A : Type} (c : Completion A) : IO A := fun w => (c, w).

(** [new Date()]: the next reading of the clock *)
Definition newDate : IO Z :=
  fun w =>
    (Normal (clock w (reads w)),
     mkWorld (files w) (writable w) (clock w) (S (reads w)) (console w)).

(** [console.log], [console.warn], [console.error] *)
Definition log (line : string) : IO unit :=
  fun w =>
    (Normal tt, mkWorld (files w) (writable w) (clock w) (reads w) (line :: console w)).

(** [vault.adapter.exists(path)] *)
Definition pathExists (path : string) : IO bool :=
  fun w => (Normal (bool_decide (is_Some (files w !! path))), w).

(** [vault.adapter.read(path)]; the text of the errors of the adapter is the
    platform's and is not read by the managers. *)
Definition read (path : string) : IO FileBody :=
  fun w =>
    match files w !! path with
    | Some body => (Normal body, w)
    | None => (Throw (Error ("ENOENT: no such file or directory, open " ++ path)), w)
    end.

(** [vault.adapter.write(path, data)] *)
Definition write (path : string) (body : FileBody) : IO unit :=
  fun w =>
    if writable w
    then (Normal tt,
          mkWorld (<[path := body]> (files w)) (writable w) (clock w) (reads w) (console w))
    else (Throw (Error ("EACCES: permission denied, open " ++ path)), w).

(** [new Date().toISOString()] *)
Definition timestamp : IO string :=
  t ← newDate; lift (JsDate.toISOString (Some t)).

(** [vault.create(path, data)]: a path that is taken is refused.  The folder
    of the path is taken to exist: the plugin creates its folders when it
    loads. *)
Definition create (path : string) (body : FileBody) : IO unit :=
  fun w =>
    match files w !! path with
    | Some _ => (Throw (Error "File already exists."), w)
    | None => write path body w
    end.

(** [fileManager.renameFile(file, newPath)]: the file leaves its path for the
    new one, which must be free.  The links that other notes hold to the
    file, and that Obsidian rewrites, are not part of the model: the content
    of a note is one value. *)
Definition rename (oldPath newPath : string) : IO unit :=
  fun w =>
    match files w !! oldPath with
    | None => (Throw (Error ("ENOENT: no such file or directory, rename " ++ oldPath)), w)
    | Some body =>
        match files w !! newPath with
        | Some _ => (Throw (Error "Destination file already exists!"), w)
        | None =>
            if writable w
            then (Normal tt,
                  mkWorld (<[newPath := body]> (delete oldPath (files w)))
                    (writable w) (clock w) (reads w) (console w))
            else (Throw (Error ("EACCES: permission denied, rename " ++ oldPath)), w)
        end
    end.

End Io.

(* ====================================================================== *)
(** ** FileManager: identifier generation                                  *)
(* ====================================================================== *)

(** A [TFile]: its path in the vault and its name without the extension *)
Record TFile := mkTFile {
  path : string;
  basename : string
}.

Module Vault.

(** The part of [s] after the last [c], when [c] occurs *)
Fixpoint afterLast (c : ascii) (s : string) : option string :=
  match s with
  | EmptyString => None
  | String x s' =>
      match afterLast c s' with
      | Some r => Some r
      | None => if Ascii.eqb x c then Some s' else None
      end
  end.

(** The part of [s] before the last [c], when [c] occurs *)
Fixpoint beforeLast (c : ascii) (s : string) : option string :=
  match s with
  | EmptyString => None
  | String x s' =>
      match beforeLast c s' with
      | Some r => Some (String x r)
      | None => if Ascii.eqb x c then Some EmptyString else None
      end
  end.

Definition fileName (p : string) : string := default p (afterLast "/" p).

Definition extension (p : string) : string := default EmptyString (afterLast "." (fileName p)).

Definition toTFile (p : string) : TFile :=
  mkTFile p (default (fileName p) (beforeLast "." (fileName p))).

(** [vault.getMarkdownFiles()]: the files of extension [md], whatever their
    folder. *)
Definition getMarkdownFiles : IO (list TFile) :=
  fun w =>
    (Normal (List.map toTFile
               (List.filter (fun p => String.eqb (extension p) "md")
                  (List.map fst (map_to_list (files w))))), w).

(** [vault.getAbstractFileByPath(path)]: the file at the path, [null]
    ([None]) when there is none. *)
Definition getAbstractFileByPath (p : string) : IO (option TFile) :=
  fun w =>
    (Normal (if bool_decide (is_Some (files w !! p)) then Some (toTFile p) else None), w).

End Vault.

(** [WeaklogStatus] *)
Inductive WeaklogStatus :=
| raw | cooling | readyForTriage | triaged | synthesized | published.

(** The string a status is in the source *)
Definition statusName (status : WeaklogStatus) : string :=
  match status with
  | raw => "raw"
  | cooling => "cooling"
  | readyForTriage => "ready-for-triage"
  | triaged => "triaged"
  | synthesized => "synthesized"
  | published => "published"
  end.

Module FileManager.

(** [basename.match(/_(\d{3})$/)] and [parseInt] of its group: the value of
    the last three characters when they are digits that follow an
    underscore. *)
Definition sequenceNumber (b : string) : option Z :=
  match String.substring (String.length b - 4) 4 b with
  | String u (String x (String y (String z EmptyString))) =>
      if Ascii.eqb u "_" && JS.isDigit x && JS.isDigit y && JS.isDigit z
      then Some ((Z.of_N (N_of_ascii x) - 48) * 100
                 + (Z.of_N (N_of_ascii y) - 48) * 10
                 + (Z.of_N (N_of_ascii z) - 48))
      else None
  | _ => None
  end.

(** [Math.max(...numbers)] of a list that is not empty *)
Definition maxOf (numbers : list Z) : Z :=
  match numbers with
  | [] => 0
  | n :: rest => fold_left Z.max rest n
  end.

Section WithSettings.

Variable pf : Platform.

(** [settings.weaklogFolderPath] *)
Variable weaklogFolderPath : string.

Definition rawFolder : string := weaklogFolderPath ++ "/01_Raw".

Definition idOf (dateStr : string) (num : Z) : string :=
  dateStr ++ "_" ++ JS.padStart 3 "0" (JS.ofZ num).

(** The [while (attempt < maxAttempts)] loop, entered with [remaining]
    iterations left before the guard fails. *)
Fixpoint findFree (dateStr : string) (nextNum : Z) (remaining : nat) (attempt : Z)
    (id : string) : IO string :=
  match remaining with
  | O => Io.throw (Error "Failed to generate unique weaklog ID after 100 attempts")
  | S remaining' =>
      let testPath := normalizePath pf (rawFolder ++ "/" ++ id ++ ".md") in
      found ← Io.pathExists testPath;
      if negb found then mret id
      else
        let attempt' := attempt + 1 in
        let newNum := nextNum + attempt' in
        findFree dateStr nextNum remaining' attempt' (idOf dateStr newNum)
  end.

Definition generateWeaklogId : IO string :=
  now ← Io.newDate;
  let '(year, month, day) := localDate pf now in
  let dateStr :=
    JS.ofZ year ++ "-" ++ JS.padStart 2 "0" (JS.ofZ month)
      ++ "-" ++ JS.padStart 2 "0" (JS.ofZ day) in
  all ← Vault.getMarkdownFiles;
  let todays :=
    List.filter (fun f => JS.startsWith (path f) rawFolder
                          && JS.startsWith (basename f) dateStr) all in
  let numbers :=
    List.filter (fun n => 0 <? n)
      (List.map (fun f => default 0 (sequenceNumber (basename f))) todays) in
  let nextNum := match numbers with
                 | [] => 1
                 | _ => maxOf numbers + 1
                 end in
  findFree dateStr nextNum 100 0 (idOf dateStr nextNum).

(** The front matter [createRawLog] writes before the content *)
Definition rawFrontmatter (id createdAt : string) (cooldownDays : Z) : string :=
  JS.join JS.lf
    [ "---";
      "weaklog_id: " ++ id;
      "created: " ++ createdAt;
      "cooldown_days: " ++ JS.ofZ cooldownDays;
      "status: raw";
      "---";
      EmptyString ].

(** [createRawLog(content, cooldownDays)], for a whole number of days *)
Definition createRawLog (content : string) (cooldownDays : Z) : IO TFile :=
  id ← generateWeaklogId;
  createdAt ← Io.timestamp;
  let folderPath := weaklogFolderPath ++ "/01_Raw" in
  let filePath := normalizePath pf (folderPath ++ "/" ++ id ++ ".md") in
  let fileContent := rawFrontmatter id createdAt cooldownDays ++ content in
  Io.tryCatch
    (Io.create filePath (Text fileContent);;
     Io.log ("[Weaklog] Created raw log: " ++ filePath);;
     mret (Vault.toTFile filePath))
    (fun error =>
       let errorMessage :=
         if instanceofError error then message error else "Unknown error" in
       Io.log "[Weaklog] Failed to create raw log:";;
       Io.throw (Error ("Failed to create raw log: " ++ errorMessage))).

(** [folderMap] *)
Definition folderMap (status : WeaklogStatus) : string :=
  match status with
  | raw => "01_Raw"
  | cooling => "02_Cooling"
  | readyForTriage => "02_Cooling"
  | triaged => "03_Triaged"
  | synthesized => "04_Synthesized"
  | published => "05_Published"
  end.

(** What Obsidian's [processFrontMatter] makes of the content of a note when
    the callback assigns the given fields to its front matter; it throws on a
    front matter it cannot read. *)
Variable assignFrontMatter : list (string * string) -> FileBody -> Completion FileBody.

(** [fileManager.processFrontMatter(file, fm => Object.assign(fm, updates))] *)
Definition processFrontMatter (file : TFile) (updates : list (string * string)) : IO unit :=
  body ← Io.read (path file);
  body' ← Io.lift (assignFrontMatter updates body);
  Io.write (path file) body'.

(** [updateFrontmatter(file, updates)], for updates whose values are strings *)
Definition updateFrontmatter (file : TFile) (updates : list (string * string)) : IO unit :=
  Io.tryCatch
    (processFrontMatter file updates;;
     Io.log ("[Weaklog] Updated frontmatter for " ++ path file))
    (fun error =>
       let errorMessage :=
         if instanceofError error then message error else "Unknown error" in
       Io.log "[Weaklog] Failed to update frontmatter:";;
       Io.throw (Error ("Failed to update frontmatter: " ++ errorMessage))).

(** [moveFile(file, targetStatus)]; every status has a folder, so the check
    of [targetFolder] never fails. *)
Definition moveFile (file : TFile) (targetStatus : WeaklogStatus) : IO TFile :=
  let targetFolder := folderMap targetStatus in
  let newPath :=
    normalizePath pf (weaklogFolderPath ++ "/" ++ targetFolder ++ "/" ++ basename file ++ ".md") in
  Io.tryCatch
    (updateFrontmatter file [("status", statusName targetStatus)];;
     targetExists ← Io.pathExists newPath;
     if targetExists : bool
     then Io.throw (Error ("Target file already exists: " ++ newPath))
     else
       Io.rename (path file) newPath;;
       Io.log ("[Weaklog] Moved " ++ path file ++ " to " ++ newPath);;
       movedFile ← Vault.getAbstractFileByPath newPath;
       match movedFile with
       | Some moved => mret moved
       | None => Io.throw (Error "Failed to get moved file reference")
       end)
    (fun error =>
       let errorMessage :=
         if instanceofError error then message error else "Unknown error" in
       Io.log "[Weaklog] Failed to move file:";;
       Io.throw (Error ("Failed to move file: " ++ errorMessage))).

(** [getFilesByStatus(status)] *)
Definition getFilesByStatus (status : WeaklogStatus) : IO (list TFile) :=
  let folder := folderMap status in
  let folderPath := weaklogFolderPath ++ "/" ++ folder in
  all ← Vault.getMarkdownFiles;
  mret (List.filter (fun f => JS.startsWith (path f) folderPath
                              && negb (JS.includes (path f) "/.archived/")) all).

End WithSettings.

End FileManager.

(* ====================================================================== *)
(** ** CooldownManager on a typed index                                    *)
(* ====================================================================== *)

Module CooldownManager.

Section WithSettings.

Variable pf : Platform.

Variable weaklogFolderPath : string.

Definition cooldownFilePath : string :=
  normalizePath pf (weaklogFolderPath ++ "/02_Cooling/.cooldown.json").

Definition backupPath : string :=
  JS.replaceFirst ".json" ".backup.json" cooldownFilePath.

Definition emptyData : IO CooldownData :=
  ts ← Io.timestamp; mret (mkData [] ts).

(** [loadCooldownData()] on a vault whose index is typed: the index parses
    to the data it holds, which pass the check of [entries]; any other file
    is a text that makes [JSON.parse] throw, and the [catch] returns the
    empty index.  [UntypedCooldownManager.loadCooldownData] is the function
    on a file of any content, and [typed_manager_refines_untyped] relates
    the two. *)
Definition loadCooldownData : IO CooldownData :=
  Io.tryCatch
    (found ← Io.pathExists cooldownFilePath;
     if negb found then
       Io.log "[Weaklog] No cooldown file found, returning empty data";;
       emptyData
     else
       content ← Io.read cooldownFilePath;
       match content with
       | IndexJson data => mret data
       | Text _ => Io.throw (SyntaxError "Unexpected token in JSON")
       end)
    (fun error =>
       Io.log "[Weaklog] Failed to load cooldown data:";;
       emptyData).

Definition saveCooldownData (data : CooldownData) : IO unit :=
  Io.tryCatch
    (found ← Io.pathExists cooldownFilePath;
     (if found : bool then
        content ← Io.read cooldownFilePath;
        Io.write backupPath content;;
        Io.log "[Weaklog] Created cooldown backup"
      else (mret tt : IO unit));;
     Io.write cooldownFilePath (IndexJson data);;
     Io.log "[Weaklog] Saved cooldown data")
    (fun error =>
       let errorMessage :=
         if instanceofError error then message error else "Unknown error" in
       Io.log "[Weaklog] Failed to save cooldown data:";;
       Io.throw (Error ("Failed to save cooldown data: " ++ errorMessage))).

Definition registerEntry (file : TFile) (days : Z) : IO unit :=
  data ← loadCooldownData;
  created ← Io.timestamp;
  createdDate ← Io.newDate;
  let readyDate := JsDate.timeClip (addLocalDays pf createdDate days) in
  ready ← Io.lift (JsDate.toISOString readyDate);
  let entry :=
    {| weaklogId := basename file;
       filePath := path file;
       createdAt := created;
       cooldownDays := days;
       readyAt := ready |} in
  let kept :=
    List.filter (fun e => negb (String.eqb (weaklogId e) (basename file))) (entries data) in
  checked ← Io.timestamp;
  saveCooldownData (mkData (kept ++ [entry]) checked);;
  Io.log ("[Weaklog] Registered cooldown for " ++ basename file).

Definition unregisterEntry (id : string) : IO unit :=
  data ← loadCooldownData;
  let originalLength := length (entries data) in
  let kept := List.filter (fun e => negb (String.eqb (weaklogId e) id)) (entries data) in
  checked ← Io.timestamp;
  saveCooldownData (mkData kept checked);;
  if (length kept <? originalLength)%nat
  then Io.log ("[Weaklog] Unregistered cooldown for " ++ id)
  else Io.log ("[Weaklog] Entry " ++ id ++ " not found in cooldown data").

(** [new Date(entry.readyAt) <= now]: a comparison with [NaN] is false. *)
Definition isReady (now : Z) (entry : CooldownEntry) : bool :=
  match dateParse pf (readyAt entry) with
  | Some t => t <=? now
  | None => false
  end.

Definition getReadyEntries : IO (list CooldownEntry) :=
  data ← loadCooldownData;
  now ← Io.newDate;
  mret (List.filter (isReady now) (entries data)).

Definition getAllEntries : IO (list CooldownEntry) :=
  data ← loadCooldownData;
  mret (entries data).

Definition getEntryCount : IO Z :=
  data ← loadCooldownData;
  mret (Z.of_nat (length (entries data))).

Definition clearAllEntries : IO unit :=
  checked ← Io.timestamp;
  saveCooldownData (mkData [] checked);;
  Io.log "[Weaklog] Cleared all cooldown entries".

(** The entries of the index as it is persisted in a world *)
Definition persisted (w : World) : list CooldownEntry :=
  match files w !! cooldownFilePath with
  | Some (IndexJson data) => entries data
  | _ => []
  end.

End WithSettings.

End CooldownManager.

(* ====================================================================== *)
(** ** CooldownManager over an index of any content                        *)
(* ====================================================================== *)

(** [CooldownManager] above reads the index as the [CooldownData] that the
    type annotation of [JSON.parse(content) as CooldownData] promises.
    [JSON.parse] checks no type: whatever value the text of the index
    denotes, once it has an array [entries], is what the manager computes
    with.  [UntypedCooldownManager] is the manager on these values. *)

(** What the JavaScript engine does with a number of a JSON text, which it
    holds as the double nearest to the decimal [m * 10^e], and with a value
    it prints: [numberToString m e] is [String(x)] and [numberToTime m e] the
    time value of [new Date(x)] ([None] for an invalid date) for that double
    [x]; [stringify] is [JSON.stringify]. *)
Record Engine := mkEngine {
  numberToString : Z -> Z -> string;
  numberToTime : Z -> Z -> option Z;
  stringify : JSON -> string
}.

Module JsValue.

(** [Array.isArray(v)] for a value that may be [undefined] *)
Definition isArray (v : option JSON) : bool :=
  match v with
  | Some (JArray _) => true
  | _ => false
  end.

(** [v !== s] for a string [s] *)
Definition differsFrom (v : option JSON) (s : string) : bool :=
  match v with
  | Some (JString t) => negb (String.eqb t s)
  | _ => true
  end.

Fixpoint removeMember (k : string) (ms : list (string * JSON)) : list (string * JSON) :=
  match ms with
  | [] => []
  | (k', x) :: rest =>
      if String.eqb k' k then removeMember k rest else (k', x) :: removeMember k rest
  end.

Fixpoint setMembers (k : string) (v : JSON) (ms : list (string * JSON))
    : list (string * JSON) :=
  match ms with
  | [] => [(k, v)]
  | (k', x) :: rest =>
      if String.eqb k' k then (k, v) :: removeMember k rest
      else (k', x) :: setMembers k v rest
  end.

(** [o.k = v] for an object [o]: a property the object has keeps its place,
    a new one comes last. *)
Definition setMember (k : string) (v : JSON) (o : JSON) : JSON :=
  match o with
  | JObject ms => JObject (setMembers k v ms)
  | _ => o
  end.

(** [array.filter(p)] for a callback that may throw: the elements are tried
    in order and the first throw ends the call. *)
Fixpoint filterC {A : Type} (p : A -> Completion bool) (l : list A) : Completion (list A) :=
  match l with
  | [] => Normal []
  | x :: rest =>
      match p x with
      | Throw e => Throw e
      | Normal b =>
          match filterC p rest with
          | Throw e => Throw e
          | Normal kept => Normal (if b then x :: kept else kept)
          end
      end
  end.

(** [JSON.stringify] of a string: the quotation mark, the reverse solidus and
    the control characters are escaped. *)
Definition hexDigit (n : N) : ascii :=
  ascii_of_N (if (n <? 10)%N then 48 + n else 87 + n).

Definition backslash : string := String (ascii_of_N 92) EmptyString.

Definition escapeJSON (c : ascii) : string :=
  let n := N_of_ascii c in
  if (n =? 34)%N then backslash ++ JS.dq
  else if (n =? 92)%N then backslash ++ backslash
  else if (n =? 8)%N then backslash ++ "b"
  else if (n =? 9)%N then backslash ++ "t"
  else if (n =? 10)%N then backslash ++ "n"
  else if (n =? 12)%N then backslash ++ "f"
  else if (n =? 13)%N then backslash ++ "r"
  else if (n <? 32)%N
  then backslash ++ "u00"
         ++ String (hexDigit (n / 16)) (String (hexDigit (n mod 16)) EmptyString)
  else String c EmptyString.

Fixpoint escapeAll (s : string) : string :=
  match s with
  | EmptyString => EmptyString
  | String c s' => escapeJSON c ++ escapeAll s'
  end.

Definition quoteJSON (s : string) : string := JS.dq ++ escapeAll s ++ JS.dq.

Section WithEngine.

Variable engine : Engine.

(** [String(v)].  An array is the strings of its elements joined by commas,
    [null] counting as the empty string; an object is [[object Object]]. *)
Fixpoint toString (v : JSON) : string :=
  match v with
  | JNull => "null"
  | JBool b => if b then "true" else "false"
  | JNumber m e => numberToString engine m e
  | JString s => s
  | JArray items =>
      JS.join ","
        (List.map (fun x => match x with
                            | JNull => EmptyString
                            | _ => toString x
                            end) items)
  | JObject _ => "[object Object]"
  end.

(** [String(v)] for a value that may be [undefined] *)
Definition toStringU (v : option JSON) : string :=
  match v with
  | None => "undefined"
  | Some w => toString w
  end.

(** The time value of [new Date(v)], [None] for an invalid date.  A string
    is parsed; [null], a boolean and a number are converted to a number of
    milliseconds; an array or an object is converted to its string, which is
    parsed; [undefined] gives an invalid date. *)
Definition dateOf (pf : Platform) (v : option JSON) : option Z :=
  match v with
  | None => None
  | Some JNull => Some 0
  | Some (JBool b) => Some (if b then 1 else 0)
  | Some (JNumber m e) => numberToTime engine m e
  | Some (JString s) => dateParse pf s
  | Some w => dateParse pf (toString w)
  end.

End WithEngine.

End JsValue.

(** [JSON.stringify(v)] with no indentation, for a value whose numbers are
    whole and whose objects have keys that are distinct and are not
    numbers: the members are printed in their order. *)
Fixpoint printJson (v : JSON) : string :=
  match v with
  | JNull => "null"
  | JBool b => if b then "true" else "false"
  | JNumber m e => JS.ofZ (m * 10 ^ e)
  | JString s => JsValue.quoteJSON s
  | JArray items => "[" ++ JS.join "," (List.map printJson items) ++ "]"
  | JObject ms =>
      "{" ++ JS.join ","
               (List.map (fun kv => match kv with
                                    | (k, x) => JsValue.quoteJSON k ++ ":" ++ printJson x
                                    end) ms)
          ++ "}"
  end.

(** The engine on the decimals [m * 10^e] with [0 <= e] that denote a whole
    number below [10^21] in magnitude: such a number prints as its digits,
    and it is a time value when [TimeClip] accepts it. *)
Definition wholeNumberEngine : Engine :=
  {| numberToString := fun m e => JS.ofZ (m * 10 ^ e);
     numberToTime := fun m e => JsDate.timeClip (m * 10 ^ e);
     stringify := printJson |}.

(** The content of a file as the manager meets it: the value that
    [JSON.parse] reads from its text, or a text that [JSON.parse] refuses. *)
Inductive JsonBody :=
| Parsed (value : JSON)
| Unparsed (content : string).

(** The state the manager runs in, as [World] but for the content of the
    files. *)
Record JsonWorld := mkJsonWorld {
  jfiles : gmap string JsonBody;
  jwritable : bool;
  jclock : nat -> Z;
  jreads : nat;
  jconsole : list string
}.

Definition JIO (A : Type) : Type := JsonWorld -> Completion A * JsonWorld.

#[global] Instance JIO_ret : MRet JIO := fun A a w => (Normal a, w).

#[global] Instance JIO_bind : MBind JIO :=
  fun A B k m w =>
    match m w with
    | (Normal a, w') => k a w'
    | (Throw e, w') => (Throw e, w')
    end.

(** The operations of [Io] on a [JsonWorld] *)
Module Jio.

Definition throw {A : Type} (e : JsError) : JIO A := fun w => (Throw e, w).

Definition tryCatch {A : Type} (body : JIO A) (handler : JsError -> JIO A) : JIO A :=
  fun w =>
    match body w with
    | (Normal a, w') => (Normal a, w')
    | (Throw e, w') => handler e w'
    end.

Definition lift {A : Type} (c : Completion A) : JIO A := fun w => (c, w).

Definition newDate : JIO Z :=
  fun w =>
    (Normal (jclock w (jreads w)),
     mkJsonWorld (jfiles w) (jwritable w) (jclock w) (S (jreads w)) (jconsole w)).

Definition log (line : string) : JIO unit :=
  fun w =>
    (Normal tt,
     mkJsonWorld (jfiles w) (jwritable w) (jclock w) (jreads w) (line :: jconsole w)).

Definition pathExists (path : string) : JIO bool :=
  fun w => (Normal (bool_decide (is_Some (jfiles w !! path))), w).

Definition read (path : string) : JIO JsonBody :=
  fun w =>
    match jfiles w !! path with
    | Some body => (Normal body, w)
    | None => (Throw (Error ("ENOENT: no such file or directory, open " ++ path)), w)
    end.

Definition write (path : string) (body : JsonBody) : JIO unit :=
  fun w =>
    if jwritable w
    then (Normal tt,
          mkJsonWorld (<[path := body]> (jfiles w)) (jwritable w) (jclock w) (jreads w)
            (jconsole w))
    else (Throw (Error ("EACCES: permission denied, open " ++ path)), w).

Definition timestamp : JIO string :=
  t ← newDate; lift (JsDate.toISOString (Some t)).

End Jio.

Module UntypedCooldownManager.

Section WithSettings.

Variable pf : Platform.

Variable engine : Engine.

Variable weaklogFolderPath : string.

Definition cooldownFilePath : string :=
  CooldownManager.cooldownFilePath pf weaklogFolderPath.

Definition backupPath : string := CooldownManager.backupPath pf weaklogFolderPath.

(** [{ entries: [], lastChecked: new Date().toISOString() }] *)
Definition emptyData : JIO JSON :=
  ts ← Jio.timestamp;
  mret (JObject [("entries", JArray []); ("lastChecked", JString ts)]).

(** [JSON.parse(content)] *)
Definition parseBody (content : JsonBody) : Completion JSON :=
  match content with
  | Parsed value => Normal value
  | Unparsed _ => Throw (SyntaxError "Unexpected token in JSON")
  end.

(** [data.entries] for the data of an index, an object whose [entries] is an
    array *)
Definition entriesOf (data : JSON) : list JSON :=
  match Json.member data "entries" with
  | Some (JArray items) => items
  | _ => []
  end.

(** [loadCooldownData()].  Reading [data.entries] throws for [null], and the
    [catch] returns the empty index.  For an array, [data.entries] is the
    method of that name, which is no array: the test sends it where it sends
    the [undefined] that the model reads. *)
Definition loadCooldownData : JIO JSON :=
  Jio.tryCatch
    (found ← Jio.pathExists cooldownFilePath;
     if negb found then
       Jio.log "[Weaklog] No cooldown file found, returning empty data";;
       emptyData
     else
       content ← Jio.read cooldownFilePath;
       data ← Jio.lift (parseBody content);
       dataEntries ← Jio.lift (Json.get data "entries");
       if negb (Json.truthyU dataEntries) || negb (JsValue.isArray dataEntries)
       then
         Jio.log "[Weaklog] Invalid cooldown data structure, resetting";;
         emptyData
       else mret data)
    (fun error =>
       Jio.log "[Weaklog] Failed to load cooldown data:";;
       emptyData).

(** [saveCooldownData(data)].  The text [JSON.stringify(data, null, 2)] is a
    text that [JSON.parse] reads back as [data]: what the manager saves is
    made of values it parsed, of strings and of whole numbers. *)
Definition saveCooldownData (data : JSON) : JIO unit :=
  Jio.tryCatch
    (found ← Jio.pathExists cooldownFilePath;
     (if found : bool then
        content ← Jio.read cooldownFilePath;
        Jio.write backupPath content;;
        Jio.log "[Weaklog] Created cooldown backup"
      else (mret tt : JIO unit));;
     Jio.write cooldownFilePath (Parsed data);;
     Jio.log "[Weaklog] Saved cooldown data")
    (fun error =>
       let errorMessage :=
         if instanceofError error then message error else "Unknown error" in
       Jio.log "[Weaklog] Failed to save cooldown data:";;
       Jio.throw (Error ("Failed to save cooldown data: " ++ errorMessage))).

(** [e.weaklogId !== id] *)
Definition otherId (id : string) (e : JSON) : Completion bool :=
  v ← Json.get e "weaklogId"; Normal (JsValue.differsFrom v id).

(** The data with its [entries] and its [lastChecked] assigned *)
Definition updated (data : JSON) (newEntries : list JSON) (checked : string) : JSON :=
  JsValue.setMember "lastChecked" (JString checked)
    (JsValue.setMember "entries" (JArray newEntries) data).

Definition registerEntry (file : TFile) (days : Z) : JIO unit :=
  data ← loadCooldownData;
  created ← Jio.timestamp;
  createdDate ← Jio.newDate;
  let readyDate := JsDate.timeClip (addLocalDays pf createdDate days) in
  ready ← Jio.lift (JsDate.toISOString readyDate);
  let entry :=
    JObject [("weaklogId", JString (basename file));
             ("filePath", JString (path file));
             ("createdAt", JString created);
             ("cooldownDays", JNumber days 0);
             ("readyAt", JString ready)] in
  kept ← Jio.lift (JsValue.filterC (otherId (basename file)) (entriesOf data));
  checked ← Jio.timestamp;
  saveCooldownData (updated data (kept ++ [entry]) checked);;
  Jio.log ("[Weaklog] Registered cooldown for " ++ basename file).

Definition unregisterEntry (id : string) : JIO unit :=
  data ← loadCooldownData;
  let originalLength := length (entriesOf data) in
  kept ← Jio.lift (JsValue.filterC (otherId id) (entriesOf data));
  checked ← Jio.timestamp;
  saveCooldownData (updated data kept checked);;
  if (length kept <? originalLength)%nat
  then Jio.log ("[Weaklog] Unregistered cooldown for " ++ id)
  else Jio.log ("[Weaklog] Entry " ++ id ++ " not found in cooldown data").

(** [new Date(entry.readyAt) <= now]: a comparison with an invalid date is
    false. *)
Definition isReady (now : Z) (entry : JSON) : Completion bool :=
  entryReadyAt ← Json.get entry "readyAt";
  Normal (match JsValue.dateOf engine pf entryReadyAt with
          | Some t => t <=? now
          | None => false
          end).

Definition getReadyEntries : JIO (list JSON) :=
  data ← loadCooldownData;
  now ← Jio.newDate;
  Jio.lift (JsValue.filterC (isReady now) (entriesOf data)).

Definition getAllEntries : JIO (list JSON) :=
  data ← loadCooldownData;
  mret (entriesOf data).

Definition getEntryCount : JIO Z :=
  data ← loadCooldownData;
  mret (Z.of_nat (length (entriesOf data))).

Definition clearAllEntries : JIO unit :=
  checked ← Jio.timestamp;
  saveCooldownData (JObject [("entries", JArray []); ("lastChecked", JString checked)]);;
  Jio.log "[Weaklog] Cleared all cooldown entries".

(** [normalizePath(v)]: Obsidian's function calls the methods of a string on
    its argument, so a value that is not a string throws. *)
Definition normalizePathOf (v : option JSON) : Completion string :=
  match v with
  | Some (JString p) => Normal (normalizePath pf p)
  | _ => Throw (TypeError "path.replace is not a function")
  end.

(** The [for] loop of [validateAndCleanData] over the entries left to see,
    with the entries kept so far *)
Fixpoint validateEntries (todo validEntries : list JSON) : JIO (list JSON) :=
  match todo with
  | [] => mret validEntries
  | entry :: rest =>
      entryId ← Jio.lift (Json.get entry "weaklogId");
      let entryPath := Json.member entry "filePath" in
      let entryReadyAt := Json.member entry "readyAt" in
      if negb (Json.truthyU entryId) || negb (Json.truthyU entryPath)
         || negb (Json.truthyU entryReadyAt)
      then
        Jio.log ("[Weaklog] Removing invalid entry: " ++ stringify engine entry);;
        validateEntries rest validEntries
      else
        match dateParse pf (JsValue.toStringU engine entryReadyAt) with
        | None =>
            Jio.log ("[Weaklog] Removing entry with invalid date: "
                       ++ JsValue.toStringU engine entryId);;
            validateEntries rest validEntries
        | Some _ =>
            normalPath ← Jio.lift (normalizePathOf entryPath);
            fileExists ← Jio.pathExists normalPath;
            if negb fileExists then
              Jio.log ("[Weaklog] Removing entry for missing file: "
                         ++ JsValue.toStringU engine entryId);;
              validateEntries rest validEntries
            else validateEntries rest (validEntries ++ [entry])
        end
  end.

Definition validateAndCleanData : JIO Z :=
  data ← loadCooldownData;
  let originalLength := Z.of_nat (length (entriesOf data)) in
  validEntries ← validateEntries (entriesOf data) [];
  checked ← Jio.timestamp;
  saveCooldownData (updated data validEntries checked);;
  let removed := originalLength - Z.of_nat (length validEntries) in
  (if 0 <? removed
   then Jio.log ("[Weaklog] Cleaned " ++ JS.ofZ removed ++ " invalid cooldown entries")
   else (mret tt : JIO unit));;
  mret removed.

(** The entries of the index as it is persisted in a world: those that
    [loadCooldownData] finds *)
Definition persisted (w : JsonWorld) : list JSON :=
  match jfiles w !! cooldownFilePath with
  | Some (Parsed data) => entriesOf data
  | _ => []
  end.

End WithSettings.

End UntypedCooldownManager.

(* ====================================================================== *)
(** ** RawLogModal: the submission of a new entry                          *)
(* ====================================================================== *)

(** A [Notice]: its text and the time it stays, in milliseconds *)
Record Notice := mkNotice {
  noticeText : string;
  noticeDuration : Z
}.

Module RawLogModal.

(** The value of a digit or letter as a digit of some radix *)
Definition digitValue (c : ascii) : option Z :=
  let n := Z.of_N (N_of_ascii c) in
  if (48 <=? n) && (n <=? 57) then Some (n - 48)
  else if (97 <=? n) && (n <=? 122) then Some (n - 87)
  else if (65 <=? n) && (n <=? 90) then Some (n - 55)
  else None.

(** The value of the longest run of digits of the radix that begins [s];
    [seen] tells whether a digit has been read. *)
Fixpoint digitsPrefix (radix : Z) (s : string) (acc : Z) (seen : bool) : option Z :=
  let stop := if seen then Some acc else None in
  match s with
  | EmptyString => stop
  | String c s' =>
      match digitValue c with
      | Some d => if d <? radix then digitsPrefix radix s' (acc * radix + d) true else stop
      | None => stop
      end
  end.

(** [parseInt(s)] with no radix given; [None] is [NaN].  The result is the
    integer the digits denote, which the number returned equals up to
    2^53. *)
Definition parseInt (s : string) : option Z :=
  let t := JS.trimStart s in
  let '(sign, t) :=
    match t with
    | String c rest =>
        if Ascii.eqb c "-" then (-1, rest)
        else if Ascii.eqb c "+" then (1, rest)
        else (1, t)
    | EmptyString => (1, t)
    end in
  let '(radix, t) :=
    if JS.startsWith t "0x" || JS.startsWith t "0X"
    then (16, String.substring 2 (String.length t) t)
    else (10, t) in
  match digitsPrefix radix t 0 false with
  | Some n => Some (sign * n)
  | None => None
  end.

(** [validateInput(content, cooldownDays)]: [inr days] when it returns [true],
    the number being then a whole number of days, and otherwise [inl] of the
    notice it shows before it returns [false]. *)
Definition validateInput (content : string) (cooldownDays : option Z) : Notice + Z :=
  if (String.length content =? 0)%nat
  then inl (mkNotice "⚠️ Content cannot be empty" 3000)
  else if (String.length content <? 10)%nat
  then inl (mkNotice "⚠️ Content must be at least 10 characters" 3000)
  else
    match cooldownDays with
    | None => inl (mkNotice "⚠️ Cooldown days must be between 1 and 365" 3000)
    | Some days =>
        if (days <? 1) || (365 <? days)
        then inl (mkNotice "⚠️ Cooldown days must be between 1 and 365" 3000)
        else inr days
    end.

Section WithManagers.

Variable pf : Platform.
Variable weaklogFolderPath : string.
Variable assignFrontMatter : list (string * string) -> FileBody -> Completion FileBody.

(** [handleSubmit()].  [contentValue] and [cooldownValue] are the values of
    the text area and of the days field, [None] for an element that is
    missing; the result is the notice the user is shown.  What the method
    does to the modal itself (the button, the closing) is left out. *)
Definition handleSubmit (contentValue cooldownValue : option string) : IO Notice :=
  let content :=
    match contentValue with
    | Some value => JS.trim value
    | None => EmptyString
    end in
  let cooldownDays :=
    RawLogModal.parseInt
      (match cooldownValue with
       | Some value => if JS.nonEmpty value then value else "7"
       | None => "7"
       end) in
  match validateInput content cooldownDays with
  | inl notice => mret notice
  | inr days =>
      Io.tryCatch
        (Io.log "[Weaklog] Creating raw log entry";;
         file ← FileManager.createRawLog pf weaklogFolderPath content days;
         Io.log "[Weaklog] Moving to cooling folder";;
         coolingFile ←
           FileManager.moveFile pf weaklogFolderPath assignFrontMatter file cooling;
         Io.log "[Weaklog] Registering cooldown";;
         CooldownManager.registerEntry pf weaklogFolderPath coolingFile days;;
         Io.log ("[Weaklog] Raw log workflow complete: " ++ basename file);;
         mret (mkNotice ("✓ Raw log created: " ++ basename file) 3000))
        (fun error =>
           let errorMessage :=
             if instanceofError error then message error else "Unknown error" in
           Io.log "[Weaklog] Failed to create raw log:";;
           mret (mkNotice ("❌ Failed to create log: " ++ errorMessage) 5000))
  end.

End WithManagers.

End RawLogModal.

(* ====================================================================== *)
(** ** The vocabulary of the properties                                    *)
(* ====================================================================== *)

(** The failures the specification lists for the triage response: no JSON
    object in the text, a JSON object that does not parse, or a parsed value
    whose [checks] or [coreQuestion] is missing (or otherwise falsy). *)
Definition triageParseFailure (JSON_parse : string -> option JSON) (response : string) : Prop :=
  Json.matchObject response = None \/
  (exists jsonText, Json.matchObject response = Some jsonText /\
                    JSON_parse jsonText = None) \/
  (exists jsonText parsed,
      Json.matchObject response = Some jsonText /\
      JSON_parse jsonText = Some parsed /\
      (Json.truthyU (Json.member parsed "checks") = false \/
       Json.truthyU (Json.member parsed "coreQuestion") = false)).

(** The questions as the specification words them: of every string of the
    array the list marker and the surrounding white space are removed, and
    what is left empty is dropped; an element that is not a string is
    dropped too. *)
Fixpoint specQuestions (qs : list JSON) : list string :=
  match qs with
  | [] => []
  | JString s :: rest =>
      match JS.trim (SynthesisGuide.stripListMarker s) with
      | EmptyString => specQuestions rest
      | q => q :: specQuestions rest
      end
  | _ :: rest => specQuestions rest
  end.

(** Whether every character of a string is a decimal digit *)
Fixpoint allDigits (s : string) : bool :=
  match s with
  | EmptyString => true
  | String c s' => JS.isDigit c && allDigits s'
  end.

(** What is left of a text after its leading digits *)
Fixpoint afterDigits (s : string) : string :=
  match s with
  | EmptyString => EmptyString
  | String c s' => if JS.isDigit c then afterDigits s' else s
  end.

(** A text begins with a list marker: a run of digits and a dot, or a dash. *)
Definition leadingMarker (q : string) : bool :=
  match q with
  | EmptyString => false
  | String c rest =>
      (JS.isDigit c && JS.startsWith (afterDigits rest) ".") || Ascii.eqb c "-"
  end.

(** A text and what is left of it once its leading list marker and the white
    space after the marker are removed. *)
Inductive StripsTo : string -> string -> Prop :=
| strips_number (ds rest : string) :
    ds <> EmptyString -> allDigits ds = true ->
    StripsTo (ds ++ "." ++ rest) (JS.trimStart rest)
| strips_dash (rest : string) :
    StripsTo ("-" ++ rest) (JS.trimStart rest)
| strips_nothing (q : string) :
    leadingMarker q = false -> StripsTo q q.

(** The elements of a [questions] array and the questions made of them: each
    string without its leading list marker and trimmed, in order; what is
    not a string and what comes out empty is dropped. *)
Inductive Cleaned : list JSON -> list string -> Prop :=
| cleaned_nil : Cleaned [] []
| cleaned_keep (s t : string) (rest : list JSON) (out : list string) :
    StripsTo s t -> JS.trim t <> EmptyString -> Cleaned rest out ->
    Cleaned (JString s :: rest) (JS.trim t :: out)
| cleaned_empty (s t : string) (rest : list JSON) (out : list string) :
    StripsTo s t -> JS.trim t = EmptyString -> Cleaned rest out ->
    Cleaned (JString s :: rest) out
| cleaned_other (q : JSON) (rest : list JSON) (out : list string) :
    (forall s, q <> JString s) -> Cleaned rest out -> Cleaned (q :: rest) out.

(** The shape the [catch] blocks of the three SDK adapters share: an auth
    failure leaves the call; a rate-limit failure leaves it at the last
    attempt and otherwise waits [base * 2^attempt * 2]; a timeout does the
    same with [base * 2^(attempt-1)]; every other failure either leaves the
    call or, before the last attempt, waits [base * 2^(attempt-1)]. *)
Record SdkShape (onFailure : Z -> JsError -> Completion Z)
    (auth rate timeout : JsError -> bool) (base : Z) : Prop := {
  shape_auth : forall a e, auth e = true -> exists x, onFailure a e = Throw x;
  shape_rate : forall a e, auth e = false -> rate e = true ->
    onFailure a e =
      if a =? 3 then Throw (Error "Rate limit exceeded. Please try again later.")
      else Normal (base * 2 ^ a * 2);
  shape_timeout : forall a e, auth e = false -> rate e = false -> timeout e = true ->
    onFailure a e =
      if a =? 3
      then Throw (Error "API request timed out. Please check your connection and try again.")
      else Normal (base * 2 ^ (a - 1));
  shape_rest : forall a e, auth e = false -> rate e = false ->
    (exists x, onFailure a e = Throw x) \/
    (a <> 3 /\ onFailure a e = Normal (base * 2 ^ (a - 1)))
}.

(** The delay a failure is retried after, by its class and its attempt *)
Definition backoff (base : Z) (rateLimited : bool) (attempt : Z) : Z :=
  if rateLimited then base * 2 ^ attempt * 2 else base * 2 ^ (attempt - 1).

(** The retry policy of an SDK adapter, over the completions [outcome i] of
    the [try] block of the successive requests of a call and the trace [tr]
    of the call: between one and three requests, one sleep between two
    requests; an auth failure of the first request ends the call at once,
    with no sleep; no sleep follows an auth failure, and each sleep lasts what
    the class of the failure before it asks, [base * 2^attempt * 2] for a
    rate limit and [base * 2^(attempt-1)] otherwise; a rate-limit or timeout
    failure of the first or second request is retried; two rate-limit
    failures followed by a success yield the text after the two doubled
    delays. *)
Definition sdkPolicy (auth rate timeout : JsError -> bool) (base : Z)
    (outcome : nat -> Completion string) (tr : Trace) : Prop :=
  (1 <= attempts tr <= 3)%nat /\
  (length (sleeps tr) + 1 = attempts tr)%nat /\
  (forall e, outcome 0%nat = Throw e -> auth e = true ->
     exists x, tr = mkTrace (Throw x) [] 1) /\
  (forall i d, sleeps tr !! i = Some d ->
     exists e, outcome i = Throw e /\ auth e = false /\
               d = backoff base (rate e) (Z.of_nat i + 1)) /\
  (forall i e, (i < 2)%nat -> (i <= length (sleeps tr))%nat ->
     outcome i = Throw e -> auth e = false -> rate e = true \/ timeout e = true ->
     sleeps tr !! i = Some (backoff base (rate e) (Z.of_nat i + 1))) /\
  (forall e1 e2 text,
     outcome 0%nat = Throw e1 -> auth e1 = false -> rate e1 = true ->
     outcome 1%nat = Throw e2 -> auth e2 = false -> rate e2 = true ->
     outcome 2%nat = Normal text ->
     tr = mkTrace (Normal text) [base * 2 ^ 1 * 2; base * 2 ^ 2 * 2] 3).

(** The retry policy of the Ollama adapter, which has no auth and no
    rate-limit class: every sleep lasts [2000 * 2^(attempt-1)]; a timeout (an
    aborted request) of the first or second request is retried, and so is any
    failure that is neither a refused connection nor a missing model. *)
Definition ollamaPolicy (timeout connection notFound : JsError -> bool)
    (outcome : nat -> Completion string) (tr : Trace) : Prop :=
  (1 <= attempts tr <= 3)%nat /\
  (length (sleeps tr) + 1 = attempts tr)%nat /\
  (forall i d, sleeps tr !! i = Some d -> d = backoff 2000 false (Z.of_nat i + 1)) /\
  (forall i e, (i < 2)%nat -> (i <= length (sleeps tr))%nat ->
     outcome i = Throw e ->
     timeout e = true \/ (connection e = false /\ notFound e = false) ->
     sleeps tr !! i = Some (backoff 2000 false (Z.of_nat i + 1))).

(** A policy holds of an adapter's [callAPI]: no call makes more than three
    requests, and the trace of a call on an adapter that is initialized, or
    that its own [initialize] accepts, obeys the policy over the completions
    of its requests. *)
Definition runsPolicy {P : Type}
    (call : Host -> P -> string -> string -> LLMCallOptions -> Trace * P)
    (ready : Host -> P -> bool)
    (outcome : Host -> P -> string -> string -> LLMCallOptions -> nat -> Completion string)
    (policy : (nat -> Completion string) -> Trace -> Prop) : Prop :=
  forall h p systemPrompt userPrompt options,
    (attempts (fst (call h p systemPrompt userPrompt options)) <= 3)%nat /\
    (ready h p = true ->
     policy (outcome h p systemPrompt userPrompt options)
            (fst (call h p systemPrompt userPrompt options))).

(** Whether the error a call ended with states the number of requests the
    call made *)
Definition namesAttemptCount (tr : Trace) : bool :=
  match result tr with
  | Throw e => JS.includes (message e) (JS.ofZ (Z.of_nat (attempts tr)))
  | Normal _ => false
  end.

(** What a call that exhausts its retries raises, by the class of the failure
    of its third request: for a failure outside the named classes, an error
    whose message states the three attempts and carries the sanitized message
    of the failure; for a rate limit and for a timeout, a fixed message. *)
Definition exhaustionPolicy (other rate timeout : JsError -> bool)
    (sanitize : JsError -> string) (rateMessage timeoutMessage : option string)
    (outcome : nat -> Completion string) (tr : Trace) : Prop :=
  forall e, attempts tr = 3%nat -> outcome 2%nat = Throw e ->
    (other e = true ->
       result tr = Throw (Error ("API call failed after 3 attempts: " ++ sanitize e)) /\
       namesAttemptCount tr = true) /\
    (rate e = true ->
       exists m, rateMessage = Some m /\ result tr = Throw (Error m) /\
                 namesAttemptCount tr = false) /\
    (timeout e = true ->
       exists m, timeoutMessage = Some m /\ result tr = Throw (Error m) /\
                 namesAttemptCount tr = false).

(** The classes of the failures of each adapter, as the order of the
    conditions of its [catch] block settles them: a failure is of the first
    class whose condition it meets, and of the class [other] when it meets
    none. *)
Module AnthropicClass.
Definition rate (e : JsError) : bool :=
  negb (AnthropicProvider.authFailure e) && AnthropicProvider.rateLimitFailure e.
Definition timeout (e : JsError) : bool :=
  negb (AnthropicProvider.authFailure e) && negb (AnthropicProvider.rateLimitFailure e)
  && AnthropicProvider.timeoutFailure e.
Definition other (e : JsError) : bool :=
  negb (AnthropicProvider.authFailure e) && negb (AnthropicProvider.rateLimitFailure e)
  && negb (AnthropicProvider.timeoutFailure e).
End AnthropicClass.

Module OpenAIClass.
Definition rate (e : JsError) : bool :=
  negb (OpenAIProvider.authFailure e) && OpenAIProvider.rateLimitFailure e.
Definition timeout (e : JsError) : bool :=
  negb (OpenAIProvider.authFailure e) && negb (OpenAIProvider.rateLimitFailure e)
  && OpenAIProvider.timeoutFailure e.
Definition other (e : JsError) : bool :=
  negb (OpenAIProvider.authFailure e) && negb (OpenAIProvider.rateLimitFailure e)
  && negb (OpenAIProvider.timeoutFailure e) && negb (OpenAIProvider.quotaFailure e).
End OpenAIClass.

Module GeminiClass.
Definition rate (e : JsError) : bool :=
  negb (GeminiProvider.authFailure e) && GeminiProvider.rateLimitFailure e.
Definition timeout (e : JsError) : bool :=
  negb (GeminiProvider.authFailure e) && negb (GeminiProvider.rateLimitFailure e)
  && GeminiProvider.timeoutFailure e.
Definition other (e : JsError) : bool :=
  negb (GeminiProvider.authFailure e) && negb (GeminiProvider.rateLimitFailure e)
  && negb (GeminiProvider.timeoutFailure e) && negb (GeminiProvider.quotaFailure e)
  && negb (GeminiProvider.safetyFailure e).
End GeminiClass.

Module OllamaClass.
Definition other (e : JsError) : bool :=
  negb (OllamaProvider.timeoutFailure e) && negb (OllamaProvider.connectionFailure e)
  && negb (OllamaProvider.modelNotFound e).
End OllamaClass.

(** Two worlds hold the same vault. *)
Definition sameVault (w w' : World) : Prop :=
  files w' = files w /\ writable w' = writable w /\ clock w' = clock w.

(** The entries [unregisterEntry] keeps *)
Definition without (id : string) (es : list CooldownEntry) : list CooldownEntry :=
  List.filter (fun e => negb (String.eqb (weaklogId e) id)) es.

(** Running the operations of [IO] *)
Ltac io_run :=
  cbv beta iota zeta delta
    [mbind mret IO_bind IO_ret Io.tryCatch Io.pathExists Io.read Io.write Io.log
     Io.throw Io.timestamp Io.newDate Io.lift CooldownManager.emptyData
     JsDate.toISOString files writable clock reads console].

(** A letter [a] to [z] *)
Definition lowerLetter (c : ascii) : bool :=
  let n := N_of_ascii c in ((97 <=? n) && (n <=? 122))%N.

(** [a] is the character [b] or, when [b] is a letter [a] to [z], its
    capital. *)
Definition sameLetter (a b : ascii) : bool :=
  Ascii.eqb a b || (lowerLetter b && (N_of_ascii a =? N_of_ascii b - 32)%N).

(** A text is the tag but for the case of its letters; the tag is written in
    lower case. *)
Fixpoint sameButCase (s tag : string) : bool :=
  match s, tag with
  | EmptyString, EmptyString => true
  | String a s', String b tag' => sameLetter a b && sameButCase s' tag'
  | _, _ => false
  end.

(** The first of some optional texts that is set and not empty *)
Fixpoint firstKey (candidates : list (option string)) : option string :=
  match candidates with
  | [] => None
  | Some (String c s) :: _ => Some (String c s)
  | _ :: rest => firstKey rest
  end.

(** Whether a match of [/PREFIX[class]+/] starts at some position of [s] *)
Fixpoint exposesKey (prefix : string) (class : ascii -> bool) (s : string) : bool :=
  match Retry.matchKey prefix class s with
  | Some _ => true
  | None =>
      match s with
      | EmptyString => false
      | String _ s' => exposesKey prefix class s'
      end
  end.

(** Patterns of fixed length, one condition per character, used to follow a
    key pattern through the redactions. *)
Module Pattern.

(** The text [s] begins with characters that meet the conditions [ps] in
    order. *)
Fixpoint heads (ps : list (ascii -> bool)) (s : string) : bool :=
  match ps with
  | [] => true
  | p :: ps' =>
      match s with
      | EmptyString => false
      | String c s' => p c && heads ps' s'
      end
  end.

(** Some position of [s] begins such a run. *)
Fixpoint occurs (ps : list (ascii -> bool)) (s : string) : bool :=
  heads ps s
  || match s with
     | EmptyString => false
     | String _ s' => occurs ps s'
     end.

(** The characters of [r] meet the conditions [ps] as far as [r] goes: what
    follows [r] may complete a run. *)
Fixpoint mayHead (ps : list (ascii -> bool)) (r : string) : bool :=
  match ps, r with
  | [], _ => true
  | _ :: _, EmptyString => true
  | p :: ps', String c r' => p c && mayHead ps' r'
  end.

(** No position of [r] can begin a run, whatever follows [r]. *)
Fixpoint clear (ps : list (ascii -> bool)) (r : string) : bool :=
  match r with
  | EmptyString => true
  | String _ r' => negb (mayHead ps r) && clear ps r'
  end.

Definition allAscii : list ascii := List.map ascii_of_nat (seq 0 256).

(** A run that begins before the replacement [r] cannot go on into it, unless
    by its last condition alone, which every character [h] admits meets. *)
Fixpoint compatible (h : ascii -> bool) (r : string) (ps : list (ascii -> bool)) : bool :=
  match ps with
  | [] => true
  | p :: ps' =>
      (negb (mayHead ps r)
       || (match ps' with [] => true | _ => false end
           && forallb (fun c => implb (h c) (p c)) allAscii))
      && compatible h r ps'
  end.

(** The conditions of [/PREFIX[class]+/], up to the first character of the
    class *)
Definition ofKey (prefix : string) (class : ascii -> bool) : list (ascii -> bool) :=
  (List.map Ascii.eqb (list_ascii_of_string prefix) ++ [class])%list.

End Pattern.

(** The time a call spent asleep between its requests, in milliseconds *)
Definition totalSleep (tr : Trace) : Z := fold_right Z.add 0 (sleeps tr).

(** A text does not begin with white space. *)
Definition noLeadingSpace (s : string) : Prop :=
  match s with
  | EmptyString => True
  | String c _ => JS.isWhiteSpace c = false
  end.

(** The path [moveFile] moves a file to *)
Definition targetPath (pf : Platform) (folder : string) (file : TFile)
    (status : WeaklogStatus) : string :=
  normalizePath pf
    (folder ++ "/" ++ FileManager.folderMap status ++ "/" ++ basename file ++ ".md").

(** [null] *)
Definition isNull (v : JSON) : bool :=
  match v with
  | JNull => true
  | _ => false
  end.

(** The entries that [unregisterEntry] keeps, of entries none of which is
    [null]: those whose [weaklogId] is not the string [id] *)
Definition withoutId (id : string) (es : list JSON) : list JSON :=
  List.filter (fun e => JsValue.differsFrom (Json.member e "weaklogId") id) es.

(** The data of an index: an object whose [entries] is an array *)
Definition indexData (data : JSON) : Prop :=
  exists ms items, data = JObject ms /\ Json.lookupMember "entries" ms = Some (JArray items).

(** The checks of [validateAndCleanData] that look at an entry alone: its
    [weaklogId], [filePath] and [readyAt] are truthy, and its [readyAt], as
    a string, parses as a date. *)
Definition wellFormed (pf : Platform) (engine : Engine) (e : JSON) : bool :=
  Json.truthyU (Json.member e "weaklogId")
  && Json.truthyU (Json.member e "filePath")
  && Json.truthyU (Json.member e "readyAt")
  && bool_decide (is_Some (dateParse pf
                             (JsValue.toStringU engine (Json.member e "readyAt")))).

Definition isString (v : option JSON) : bool :=
  match v with
  | Some (JString _) => true
  | _ => false
  end.

(** An entry on which [validateAndCleanData] throws: [null], or an entry
    that passes these checks with a [filePath] that is not a string. *)
Definition faultyEntry (pf : Platform) (engine : Engine) (e : JSON) : bool :=
  isNull e || (wellFormed pf engine e && negb (isString (Json.member e "filePath"))).

(** Whether [validateAndCleanData] keeps an entry in a world: the entry
    passes these checks, its [filePath] is a string, and the file of that
    path exists. *)
Definition validEntry (pf : Platform) (engine : Engine) (w : JsonWorld) (e : JSON) : bool :=
  wellFormed pf engine e
  && match Json.member e "filePath" with
     | Some (JString p) => bool_decide (is_Some (jfiles w !! normalizePath pf p))
     | _ => false
     end.

(** *** The typed index among the indexes

    A [World] is a [JsonWorld] whose index, when it parses, holds entries of
    the type [CooldownEntry]; [refines] says that an operation of the typed
    manager does in a world what the operation on values does in its
    encoding. *)
Definition encodeEntry (entry : CooldownEntry) : JSON :=
  JObject [("weaklogId", JString (weaklogId entry));
           ("filePath", JString (filePath entry));
           ("createdAt", JString (createdAt entry));
           ("cooldownDays", JNumber (cooldownDays entry) 0);
           ("readyAt", JString (readyAt entry))].

Definition encodeData (data : CooldownData) : JSON :=
  JObject [("entries", JArray (List.map encodeEntry (entries data)));
           ("lastChecked", JString (lastChecked data))].

Definition encodeBody (body : FileBody) : JsonBody :=
  match body with
  | IndexJson data => Parsed (encodeData data)
  | Text content => Unparsed content
  end.

Definition encodeWorld (w : World) : JsonWorld :=
  mkJsonWorld (encodeBody <$> files w) (writable w) (clock w) (reads w) (console w).

Definition refines {A B : Type} (f : A -> B) (typed : IO A) (untyped : JIO B) : Prop :=
  forall w,
    untyped (encodeWorld w)
    = (match fst (typed w) with
       | Normal a => Normal (f a)
       | Throw e => Throw e
       end,
       encodeWorld (snd (typed w))).

(** Running the operations of [JIO] *)
Ltac jio_run :=
  cbv beta iota zeta delta
    [mbind mret JIO_bind JIO_ret Jio.tryCatch Jio.pathExists Jio.read Jio.write Jio.log
     Jio.throw Jio.timestamp Jio.newDate Jio.lift UntypedCooldownManager.emptyData
     JsDate.toISOString jfiles jwritable jclock jreads jconsole].

(* ====================================================================== *)
(** * Properties                                                           *)
(* ====================================================================== *)

(** ** Running the models on sample inputs *)

Example parse_object :
  JsonParser.parse (JsonParser.text "{'a': [1, 2.50, -3e2], 'b': {'c': null, 'd': 'x\nA'}, 'a': true}")
  = Some (JObject [("a", JArray [JNumber 1 0; JNumber 250 (-2); JNumber (-3) 2]);
                   ("b", JObject [("c", JNull); ("d", JString (String "x" (String (ascii_of_N 10) "A")))]);
                   ("a", JBool true)]).
Proof. vm_compute. reflexivity. Qed.

Example parse_rejects_trailing_comma : JsonParser.parse "[1, 2,]" = None.
Proof. vm_compute. reflexivity. Qed.

Example parse_rejects_leading_zero : JsonParser.parse "01" = None.
Proof. vm_compute. reflexivity. Qed.

Example match_object_greedy :
  Json.matchObject "Here: {'a': {}} and } more" = Some "{'a': {}} and }".
Proof. vm_compute. reflexivity. Qed.

Example member_last_wins :
  Json.member (JObject [("a", JNull); ("a", JBool true)]) "a" = Some (JBool true).
Proof. reflexivity. Qed.

Example triage_all_true :
  let r := TriageAnalyzer.parseTriageResponse JsonParser.parse
             (JsonParser.text
                "Sure! {'checks': {'hasSpecifics': {'pass': true, 'reason': 'a'},
                 'canBeCorePhrase': {'pass': true, 'reason': 'b'},
                 'isTransferable': {'pass': true, 'reason': 'c'},
                 'isNonHarmful': {'pass': true, 'reason': 'd'}},
                 'score': 0, 'recommendation': 'reject',
                 'coreQuestion': 'Why do I avoid conflict?'}")
             "I keep avoiding hard conversations" "2026-01-27T00:00:00.000Z" in
  score r = 4%nat /\ recommendation r = adopt /\ coreQuestion r = "Why do I avoid conflict?".
Proof. vm_compute. auto. Qed.

Example triage_unparseable :
  let r := TriageAnalyzer.parseTriageResponse JsonParser.parse
             "I could not evaluate this entry."
             "I keep avoiding hard conversations at work because I fear conflict"
             "2026-01-27T00:00:00.000Z" in
  score r = 1%nat /\ recommendation r = review /\
  coreQuestion r = "I keep avoiding hard conversations at...".
Proof. vm_compute. auto. Qed.

Example synthesis_two_questions :
  let g := SynthesisGuide.parseSynthesisResponse JsonParser.parse
             (JsonParser.text "{'questions': ['What changed?', 'Why now?'], 'suggestedTone': 'analytical'}")
             english "2026-01-27T00:00:00.000Z" in
  questions g = SynthesisGuide.getFallbackQuestions english /\
  length (questions g) = 4%nat /\ suggestedTone g = "reflective".
Proof. vm_compute. auto. Qed.

Example synthesis_markers_removed :
  let g := SynthesisGuide.parseSynthesisResponse JsonParser.parse
             (JsonParser.text
                "Here you go: {'questions': ['1. What changed?', '- Why now?', 7, '   ', '12.How so? '], 'suggestedTone': 'Exploratory'}")
             english "2026-01-27T00:00:00.000Z" in
  questions g = ["What changed?"; "Why now?"; "How so?"] /\
  suggestedTone g = "exploratory".
Proof. vm_compute. auto. Qed.

Example sdk_rate_limits_then_success :
  let h := mkHost (fun _ => true)
             (fun _ k => nth k [Rejected (Error "429 Too Many Requests");
                                Rejected (Error "429 Too Many Requests")]
                           (Resolved (Some "pong")))
             (fun _ => None) (fun _ _ => FetchAborted) (TagsOk None) (fun _ => None) in
  fst (OpenAIProvider.callAPI h (OpenAIProvider.new "sk-test" "gpt-4") "system" "user" noOptions)
  = mkTrace (Normal "pong") [4000; 8000] 3.
Proof. vm_compute. reflexivity. Qed.

Example sdk_auth_failure_is_immediate :
  let h := mkHost (fun _ => true)
             (fun _ _ => Rejected (Error "401 Unauthorized"))
             (fun _ => None) (fun _ _ => FetchAborted) (TagsOk None) (fun _ => None) in
  fst (GeminiProvider.callAPI h (GeminiProvider.new "AIzaTest" "gemini-pro") "system" "user"
         noOptions)
  = mkTrace (Throw (Error "Invalid API key. Please check your Gemini API key in settings."))
      [] 1.
Proof. vm_compute. reflexivity. Qed.

Example sdk_timeouts_then_success :
  let h := mkHost (fun _ => true)
             (fun _ k => nth k [TimedOut; TimedOut] (Resolved (Some "pong")))
             (fun _ => None) (fun _ _ => FetchAborted) (TagsOk None) (fun _ => None) in
  fst (AnthropicProvider.callAPI h (AnthropicProvider.new "sk-ant-test" "claude-3-opus-20240229")
         "system" "user" noOptions)
  = mkTrace (Normal "pong") [1000; 2000] 3.
Proof. vm_compute. reflexivity. Qed.

Example sdk_network_failures_exhausted :
  let h := mkHost (fun _ => true)
             (fun _ _ => Rejected (Error "socket hang up, key sk-ant-abc123"))
             (fun _ => None) (fun _ _ => FetchAborted) (TagsOk None) (fun _ => None) in
  fst (AnthropicProvider.callAPI h (AnthropicProvider.new "sk-ant-test" "claude-3-opus-20240229")
         "system" "user" noOptions)
  = mkTrace
      (Throw (Error "API call failed after 3 attempts: socket hang up, key [API_KEY_REDACTED]"))
      [1000; 2000] 3.
Proof. vm_compute. reflexivity. Qed.

Example blank_key_makes_no_request :
  let h := mkHost (fun _ => true) (fun _ _ => Resolved (Some "pong"))
             (fun _ => None) (fun _ _ => FetchAborted) (TagsOk None) (fun _ => None) in
  fst (AnthropicProvider.callAPI h (AnthropicProvider.new "   " "claude-3-opus-20240229")
         "system" "user" noOptions)
  = mkTrace (Throw (Error "API key is required")) [] 0.
Proof. vm_compute. reflexivity. Qed.

Example createFromConfig_ignores_case :
  LLMClient.createFromConfig "OpenAI" (ProviderConfig.mk (Some "sk-test") "gpt-4" None)
  = Normal (mkLLMClient (OpenAIProvider.new "sk-test" "gpt-4")) /\
  LLMClient.createFromConfig "OLLAMA"
    (ProviderConfig.mk None "llama2" (Some "http://localhost:11434/"))
  = Normal (mkLLMClient (OllamaProvider.mk "http://localhost:11434" "llama2" false)) /\
  LLMClient.createFromConfig "llamacpp" (ProviderConfig.mk None "llama2" None)
  = Throw (Error "Unknown provider type: llamacpp") /\
  LLMClient.createFromConfig "gemini" (ProviderConfig.mk None "gemini-pro" None)
  = Throw (Error "Gemini provider requires API key").
Proof. repeat split; reflexivity. Qed.

Example generateWeaklogId_next_in_raw :
  let w := mkWorld {[ "Weaklog/01_Raw/2026-01-27_001.md" := Text "a";
                      "Weaklog/01_Raw/2026-01-27_007.md" := Text "b";
                      "Weaklog/01_Raw/2026-01-26_009.md" := Text "c" ]}
             true (fun _ => 1769472000000) 0 [] in
  fst (FileManager.generateWeaklogId utcPlatform "Weaklog" w) = Normal "2026-01-27_008".
Proof. vm_compute. reflexivity. Qed.

Example getReadyEntries_skips_unparsable :
  let due := mkEntry "2026-01-20_001" "Weaklog/02_Cooling/2026-01-20_001.md"
               "2026-01-20T00:00:00.000Z" 7 "2026-01-27T00:00:00.000Z" in
  let odd := mkEntry "2026-01-20_002" "Weaklog/02_Cooling/2026-01-20_002.md"
               "2026-01-20T00:00:00.000Z" 7 "next week" in
  let later := mkEntry "2026-01-27_001" "Weaklog/02_Cooling/2026-01-27_001.md"
                 "2026-01-27T00:00:00.000Z" 7 "2026-02-03T00:00:00.000Z" in
  let w := mkWorld {[ "Weaklog/02_Cooling/.cooldown.json" :=
                        IndexJson (mkData [odd; due; later] "2026-01-27T00:00:00.000Z") ]}
             true (fun _ => 1769472000000) 0 [] in
  fst (CooldownManager.getReadyEntries utcPlatform "Weaklog" w) = Normal [due].
Proof. vm_compute. reflexivity. Qed.

Example unregisterEntry_twice :
  let e := mkEntry "2026-01-20_001" "Weaklog/02_Cooling/2026-01-20_001.md"
             "2026-01-20T00:00:00.000Z" 7 "2026-01-27T00:00:00.000Z" in
  let w := mkWorld {[ "Weaklog/02_Cooling/.cooldown.json" :=
                        IndexJson (mkData [e] "2026-01-20T00:00:00.000Z") ]}
             true (fun _ => 1769472000000) 0 [] in
  let once := CooldownManager.unregisterEntry utcPlatform "Weaklog" "2026-01-20_001" w in
  let twice :=
    CooldownManager.unregisterEntry utcPlatform "Weaklog" "2026-01-20_001" (snd once) in
  fst once = Normal tt /\ fst twice = Normal tt /\
  CooldownManager.persisted utcPlatform "Weaklog" (snd once) = [] /\
  CooldownManager.persisted utcPlatform "Weaklog" (snd twice) = [] /\
  hd_error (console (snd once)) = Some "[Weaklog] Unregistered cooldown for 2026-01-20_001" /\
  hd_error (console (snd twice))
  = Some "[Weaklog] Entry 2026-01-20_001 not found in cooldown data" /\
  files (snd twice) !! "Weaklog/02_Cooling/.cooldown.backup.json"
  = Some (IndexJson (mkData [] "2026-01-27T00:00:00.000Z")).
Proof. vm_compute. repeat split; reflexivity. Qed.

(* ====================================================================== *)
(** ** TriageAnalyzer: score, recommendation and fallback                  *)
(* ====================================================================== *)

Section TriageFacts.

Variable JSON_parse : string -> option JSON.

Lemma passed_le_4 (c : Checks) : (TriageAnalyzer.passed c <= 4)%nat.
Proof.
  unfold TriageAnalyzer.passed, TriageAnalyzer.values.
  etransitivity; [apply List.filter_length_le | simpl; lia].
Qed.

(** What the [try] block returns when it completes normally: the score is
    recounted from the checks it built and the recommendation is computed
    from that score. *)
Lemma parseTriageBody_normal (response now : string) (r : TriageResult) :
  TriageAnalyzer.parseTriageBody JSON_parse response now = Normal r ->
  score r = TriageAnalyzer.passed (checks r) /\
  recommendation r = TriageAnalyzer.calculateRecommendation (score r) /\
  timestamp r = now /\
  (String.length (coreQuestion r) <= 40)%nat.
Proof.
  unfold TriageAnalyzer.parseTriageBody.
  destruct (Json.matchObject response) as [jsonText|]; [|discriminate].
  unfold TriageAnalyzer.parseJson.
  destruct (JSON_parse jsonText) as [parsed|]; [|discriminate].
  cbn [mbind Completion_bind].
  destruct (Json.get parsed "checks") as [checksV|]; cbn [mbind Completion_bind];
    [|discriminate].
  destruct (negb (Json.truthyU checksV)); [discriminate|].
  destruct (Json.get parsed "coreQuestion") as [coreV|]; cbn [mbind Completion_bind];
    [|discriminate].
  destruct (negb (Json.truthyU coreV)); [discriminate|].
  destruct coreV as [[| | | q | |]|]; try discriminate.
  intros [= <-]; cbn [score checks recommendation timestamp coreQuestion].
  repeat split; try reflexivity.
  unfold JS.substring0.
  generalize 40%nat as n; revert q.
  induction q as [|c q IH]; intros [|n]; simpl; try lia.
  specialize (IH n); lia.
Qed.

Lemma parseTriageResponse_cases (response content now : string) :
  (exists r, TriageAnalyzer.parseTriageBody JSON_parse response now = Normal r /\
             TriageAnalyzer.parseTriageResponse JSON_parse response content now = r) \/
  (exists e, TriageAnalyzer.parseTriageBody JSON_parse response now = Throw e /\
             TriageAnalyzer.parseTriageResponse JSON_parse response content now
             = TriageAnalyzer.createFallbackResult content now).
Proof.
  unfold TriageAnalyzer.parseTriageResponse.
  destruct (TriageAnalyzer.parseTriageBody JSON_parse response now) as [r|e];
    [left|right]; eauto.
Qed.

End TriageFacts.

Lemma calculateRecommendation_adopt (n : nat) :
  TriageAnalyzer.calculateRecommendation n = adopt <-> n = 4%nat.
Proof.
  unfold TriageAnalyzer.calculateRecommendation.
  destruct (Nat.eqb_spec n 4); [tauto|].
  destruct (2 <=? n)%nat; split; (discriminate || tauto).
Qed.

Lemma calculateRecommendation_review (n : nat) :
  (n <= 4)%nat ->
  TriageAnalyzer.calculateRecommendation n = review <-> (n = 2 \/ n = 3)%nat.
Proof.
  intros Hn. unfold TriageAnalyzer.calculateRecommendation.
  destruct (Nat.eqb_spec n 4); [split; [discriminate|lia]|].
  destruct (Nat.leb_spec 2 n); split; (discriminate || lia || auto).
Qed.

Lemma calculateRecommendation_reject (n : nat) :
  TriageAnalyzer.calculateRecommendation n = reject <-> (n = 0 \/ n = 1)%nat.
Proof.
  unfold TriageAnalyzer.calculateRecommendation.
  destruct (Nat.eqb_spec n 4); [split; [discriminate|lia]|].
  destruct (Nat.leb_spec 2 n); split; (discriminate || lia || auto).
Qed.

(** C1, as the claim states it, fails on the fallback: a response with no
    JSON object in it yields score 1 with recommendation [review], although
    the claim derives [reject] from a score of 1. *)
Lemma triage_fallback_recommendation_not_derived :
  let r := TriageAnalyzer.parseTriageResponse JsonParser.parse
             "I could not evaluate this entry."
             "I keep avoiding hard conversations at work because I fear conflict"
             "2026-01-27T00:00:00.000Z" in
  score r = TriageAnalyzer.passed (checks r) /\
  score r = 1%nat /\
  recommendation r = review /\
  ~ (recommendation r = reject <-> (score r = 0 \/ score r = 1)%nat).
Proof.
  vm_compute. repeat split; try reflexivity.
  intros [_ H]. discriminate H. right; reflexivity.
Qed.

(** C1 (amended).  In every result of [parseTriageResponse] the score is the
    number of [true] values among the four checks.  When the response is
    parsed, the recommendation is computed from that recounted score: [adopt]
    iff it is 4, [review] iff it is 2 or 3, [reject] iff it is 0 or 1; the
    result is built from the checks alone, so a score or recommendation that
    the response supplies has no part in it.  When parsing fails the result is
    the fallback, whose score is 1 and whose recommendation is [review]. *)
Theorem triage_score_counts_checks
    (JSON_parse : string -> option JSON) (response content now : string) :
  let r := TriageAnalyzer.parseTriageResponse JSON_parse response content now in
  score r = TriageAnalyzer.passed (checks r) /\
  match TriageAnalyzer.parseTriageBody JSON_parse response now with
  | Normal _ =>
      recommendation r = TriageAnalyzer.calculateRecommendation (TriageAnalyzer.passed (checks r)) /\
      (recommendation r = adopt <-> score r = 4%nat) /\
      (recommendation r = review <-> (score r = 2 \/ score r = 3)%nat) /\
      (recommendation r = reject <-> (score r = 0 \/ score r = 1)%nat)
  | Throw _ =>
      r = TriageAnalyzer.createFallbackResult content now /\
      score r = 1%nat /\ recommendation r = review
  end.
Proof.
  intros r; subst r.
  destruct (parseTriageResponse_cases JSON_parse response content now)
    as [(r & Hbody & ->)|(e & Hbody & ->)]; rewrite Hbody.
  - destruct (parseTriageBody_normal _ _ _ _ Hbody) as (Hs & Hr & _ & _).
    split; [exact Hs|].
    rewrite Hr, <- Hs.
    split; [reflexivity|].
    split; [apply calculateRecommendation_adopt|].
    split; [apply calculateRecommendation_review; rewrite Hs; apply passed_le_4|].
    apply calculateRecommendation_reject.
  - repeat split; reflexivity.
Qed.

Lemma triageParseFailure_throws
    (JSON_parse : string -> option JSON) (response now : string) :
  triageParseFailure JSON_parse response ->
  exists e, TriageAnalyzer.parseTriageBody JSON_parse response now = Throw e.
Proof.
  unfold TriageAnalyzer.parseTriageBody, TriageAnalyzer.parseJson.
  intros [H|[(j & Hm & Hp)|(j & v & Hm & Hp & Hf)]].
  - rewrite H; eauto.
  - rewrite Hm, Hp; cbn [mbind Completion_bind]; eauto.
  - rewrite Hm, Hp; cbn [mbind Completion_bind].
    destruct v; cbn [Json.get mbind Completion_bind]; eauto;
      (destruct (Json.truthyU (Json.member _ "checks")) eqn:Hc; cbn [negb]; eauto;
       destruct Hf as [Hf|Hf]; [congruence|];
       rewrite Hf; cbn [negb]; eauto).
Qed.

(** C2.  [parseTriageResponse] is a total function: whatever the response, it
    returns a result and raises nothing.  On each of the listed failures the
    result is the fixed fallback: recommendation [review], score 1, three
    failed checks with the reason for a failed analysis, one passed check
    [Assumed safe], and as core question the first 37 characters of the
    content followed by three dots. *)
Theorem triage_failure_returns_fallback
    (JSON_parse : string -> option JSON) (response content now : string) :
  triageParseFailure JSON_parse response ->
  TriageAnalyzer.parseTriageResponse JSON_parse response content now =
  {| checks :=
       {| hasSpecifics := mkCheck false "Analysis failed - please review";
          canBeCorePhrase := mkCheck false "Analysis failed - please review";
          isTransferable := mkCheck false "Analysis failed - please review";
          isNonHarmful := mkCheck true "Assumed safe" |};
     score := 1;
     recommendation := review;
     coreQuestion := String.substring 0 37 content ++ "...";
     timestamp := now |}.
Proof.
  intros Hfail.
  destruct (triageParseFailure_throws JSON_parse response now Hfail) as [e He].
  unfold TriageAnalyzer.parseTriageResponse. rewrite He. reflexivity.
Qed.

Lemma triage_failure_returns_fallback_witness :
  triageParseFailure JsonParser.parse
    (JsonParser.text "{'checks': {}, 'coreQuestion': 'Why?'") /\
  TriageAnalyzer.parseTriageResponse JsonParser.parse
    (JsonParser.text "{'checks': {}, 'coreQuestion': 'Why?'")
    "I keep avoiding hard conversations at work because I fear conflict"
    "2026-01-27T00:00:00.000Z"
  = {| checks :=
         {| hasSpecifics := mkCheck false "Analysis failed - please review";
            canBeCorePhrase := mkCheck false "Analysis failed - please review";
            isTransferable := mkCheck false "Analysis failed - please review";
            isNonHarmful := mkCheck true "Assumed safe" |};
       score := 1;
       recommendation := review;
       coreQuestion := "I keep avoiding hard conversations at...";
       timestamp := "2026-01-27T00:00:00.000Z" |}.
Proof.
  assert (H : triageParseFailure JsonParser.parse
                (JsonParser.text "{'checks': {}, 'coreQuestion': 'Why?'")).
  { right; left. eexists. split; [vm_compute; reflexivity|]. vm_compute. reflexivity. }
  split; [exact H|].
  exact (triage_failure_returns_fallback JsonParser.parse _
           "I keep avoiding hard conversations at work because I fear conflict"
           "2026-01-27T00:00:00.000Z" H).
Defined.

(* ====================================================================== *)
(** ** SynthesisGuide: the number and the cleaning of the questions        *)
(* ====================================================================== *)

Lemma dropDigits_app (ds rest : string) :
  allDigits ds = true ->
  SynthesisGuide.dropDigits (ds ++ String "." rest) = String "." rest.
Proof.
  induction ds as [|c ds IH]; [reflexivity|].
  intros H. cbn [allDigits] in H. apply andb_prop in H as [Hc Hds].
  change (String c ds ++ String "." rest) with (String c (ds ++ String "." rest)).
  cbn [SynthesisGuide.dropDigits]. rewrite Hc. exact (IH Hds).
Qed.

(** A leading number with its dot goes, with the white space after it. *)
Lemma stripListMarker_numbered (ds rest : string) :
  ds <> EmptyString -> allDigits ds = true ->
  SynthesisGuide.stripListMarker (ds ++ String "." rest) = JS.trimStart rest.
Proof.
  destruct ds as [|c ds]; [congruence|]. intros _ H.
  cbn [allDigits] in H. apply andb_prop in H as [Hc Hds].
  change (String c ds ++ String "." rest) with (String c (ds ++ String "." rest)).
  cbn [SynthesisGuide.stripListMarker]. rewrite Hc.
  rewrite dropDigits_app by exact Hds. reflexivity.
Qed.

(** A leading dash goes, with the white space after it. *)
Lemma stripListMarker_dash (rest : string) :
  SynthesisGuide.stripListMarker (String "-" rest) = JS.trimStart rest.
Proof. reflexivity. Qed.

(** Anything else is left as it is. *)
Lemma stripListMarker_plain (c : ascii) (rest : string) :
  JS.isDigit c = false -> c <> "-"%char ->
  SynthesisGuide.stripListMarker (String c rest) = String c rest.
Proof.
  intros Hd Hc. cbn [SynthesisGuide.stripListMarker]. rewrite Hd.
  destruct (Ascii.eqb_spec c "-"); [contradiction|reflexivity].
Qed.

Lemma keepQuestion_Some (q : option string) :
  SynthesisGuide.keepQuestion q = true -> exists s, q = Some s /\ s <> EmptyString.
Proof.
  destruct q as [[|c s]|]; simpl; try discriminate.
  intros _. eexists; split; [reflexivity|discriminate].
Qed.

Lemma strings_cleanQuestions (qs : list JSON) :
  SynthesisGuide.strings (SynthesisGuide.cleanQuestions qs) = specQuestions qs.
Proof.
  unfold SynthesisGuide.cleanQuestions.
  induction qs as [|q qs IH]; [reflexivity|].
  destruct q; cbn [List.map List.filter SynthesisGuide.cleanQuestion
                   SynthesisGuide.keepQuestion specQuestions]; try exact IH.
  destruct (JS.trim (SynthesisGuide.stripListMarker s)) as [|c t];
    cbn [JS.nonEmpty andb String.length Nat.ltb Nat.leb SynthesisGuide.strings];
    [exact IH | f_equal; exact IH].
Qed.

Lemma strings_length_cleanQuestions (qs : list JSON) :
  length (SynthesisGuide.strings (SynthesisGuide.cleanQuestions qs))
  = length (SynthesisGuide.cleanQuestions qs).
Proof.
  unfold SynthesisGuide.cleanQuestions.
  induction qs as [|q qs IH]; [reflexivity|].
  cbn [List.map List.filter].
  destruct (SynthesisGuide.keepQuestion (SynthesisGuide.cleanQuestion q)) eqn:Hk;
    [|exact IH].
  destruct (keepQuestion_Some _ Hk) as (s & -> & _).
  cbn [SynthesisGuide.strings length]. f_equal; exact IH.
Qed.

Lemma specQuestions_sound (qs : list JSON) :
  Forall (fun q => q <> EmptyString /\
                   exists s, In (JString s) qs /\
                             q = JS.trim (SynthesisGuide.stripListMarker s))
         (specQuestions qs).
Proof.
  induction qs as [|x qs IH]; [constructor|].
  assert (Hweak : Forall (fun q => q <> EmptyString /\
                    exists s, In (JString s) (x :: qs) /\
                              q = JS.trim (SynthesisGuide.stripListMarker s))
                         (specQuestions qs)).
  { eapply Forall_impl; [exact IH|].
    intros q (Hne & s & Hin & ->). split; [exact Hne|].
    exists s; split; [right; exact Hin|reflexivity]. }
  destruct x; cbn [specQuestions]; try exact Hweak.
  destruct (JS.trim (SynthesisGuide.stripListMarker s)) as [|c t] eqn:Ht;
    [exact Hweak|].
  constructor; [|exact Hweak].
  split; [discriminate|]. exists s; split; [left; reflexivity|]. symmetry; exact Ht.
Qed.

Section SynthesisFacts.

Variable JSON_parse : string -> option JSON.

Lemma parseSynthesisBody_normal (response now : string) (g : SynthesisGuideType) :
  SynthesisGuide.parseSynthesisBody JSON_parse response now = Normal g ->
  exists jsonText parsed qs,
    Json.matchObject response = Some jsonText /\
    JSON_parse jsonText = Some parsed /\
    Json.member parsed "questions" = Some (JArray qs) /\
    (3 <= length qs <= 5)%nat /\
    (3 <= length (specQuestions qs))%nat /\
    questions g = specQuestions qs /\
    suggestedTone g = SynthesisGuide.validateTone (Json.member parsed "suggestedTone").
Proof.
  unfold SynthesisGuide.parseSynthesisBody, TriageAnalyzer.parseJson.
  destruct (Json.matchObject response) as [jsonText|]; [|discriminate].
  destruct (JSON_parse jsonText) as [parsed|] eqn:Hp;
    cbn [mbind Completion_bind]; [|discriminate].
  destruct (Json.get parsed "questions") as [questionsV|] eqn:Hget;
    cbn [mbind Completion_bind]; [|discriminate].
  assert (Hmem : questionsV = Json.member parsed "questions").
  { destruct parsed; cbn [Json.get] in Hget; congruence. }
  destruct questionsV as [[| | | | qs |]|]; try discriminate.
  destruct (Nat.ltb_spec (length qs) 3) as [|Hlo]; [discriminate|].
  destruct (Nat.ltb_spec 5 (length qs)) as [|Hhi]; [discriminate|].
  cbn [orb].
  destruct (Nat.ltb_spec (length (SynthesisGuide.cleanQuestions qs)) 3) as [|Hc];
    [discriminate|].
  intros [= <-]. cbn [questions suggestedTone].
  assert (Hlen : (length (SynthesisGuide.cleanQuestions qs) <= 5)%nat).
  { unfold SynthesisGuide.cleanQuestions.
    etransitivity; [apply List.filter_length_le|]. rewrite List.length_map. exact Hhi. }
  rewrite List.firstn_all2 by exact Hlen.
  exists jsonText, parsed, qs.
  rewrite <- strings_cleanQuestions, strings_length_cleanQuestions.
  repeat split; auto.
Qed.

End SynthesisFacts.

(** The relations above describe what the code computes. *)
Lemma afterDigits_dropDigits (s : string) : SynthesisGuide.dropDigits s = afterDigits s.
Proof. induction s as [|c s IH]; cbn; [reflexivity|]. rewrite IH. reflexivity. Qed.

Lemma afterDigits_app (ds rest : string) :
  allDigits ds = true -> afterDigits (ds ++ String "." rest) = String "." rest.
Proof.
  intros H. rewrite <- afterDigits_dropDigits. apply dropDigits_app, H.
Qed.

Lemma StripsTo_stripListMarker (s t : string) :
  StripsTo s t -> t = SynthesisGuide.stripListMarker s.
Proof.
  intros [ds rest Hne Hds|rest|q Hq].
  - symmetry. apply stripListMarker_numbered; assumption.
  - reflexivity.
  - destruct q as [|c rest]; [reflexivity|].
    cbn [leadingMarker] in Hq. cbn [SynthesisGuide.stripListMarker].
    apply orb_false_iff in Hq as [Hd Hc]. rewrite Hc.
    destruct (JS.isDigit c); [|reflexivity].
    cbn [andb] in Hd. rewrite afterDigits_dropDigits.
    destruct (afterDigits rest) as [|d after]; [reflexivity|].
    cbn [JS.startsWith] in Hd. rewrite andb_true_r in Hd.
    rewrite Ascii.eqb_sym, Hd. reflexivity.
Qed.

Lemma digits_split (s : string) :
  exists ds, allDigits ds = true /\ s = ds ++ afterDigits s.
Proof.
  induction s as [|c s (ds & Hds & Hs)]; [exists EmptyString; split; reflexivity|].
  cbn [afterDigits]. destruct (JS.isDigit c) eqn:Hc.
  - exists (String c ds). split; [cbn [allDigits]; rewrite Hc; exact Hds|].
    change (String c ds ++ afterDigits s) with (String c (ds ++ afterDigits s)).
    f_equal. exact Hs.
  - exists EmptyString. split; reflexivity.
Qed.

Lemma stripListMarker_StripsTo (s : string) :
  StripsTo s (SynthesisGuide.stripListMarker s).
Proof.
  destruct (leadingMarker s) eqn:Hm.
  - destruct s as [|c rest]; [discriminate|].
    cbn [leadingMarker] in Hm. cbn [SynthesisGuide.stripListMarker].
    destruct (JS.isDigit c) eqn:Hc.
    + cbn [andb orb] in Hm. rewrite afterDigits_dropDigits.
      destruct (digits_split rest) as (ds & Hds & Hrest).
      destruct (afterDigits rest) as [|d after] eqn:Ha.
      * destruct (Ascii.eqb_spec c "-") as [->|]; discriminate.
      * cbn [JS.startsWith] in Hm. rewrite andb_true_r in Hm.
        destruct (Ascii.eqb_spec d ".") as [->|Hd].
        -- rewrite Hrest.
           change (String c (ds ++ String "." after))
             with (String c ds ++ "." ++ after).
           apply strips_number; [discriminate|].
           cbn [allDigits]. rewrite Hc. exact Hds.
        -- cbn [orb] in Hm.
           destruct (Ascii.eqb_spec "."%char d) as [E|_]; [symmetry in E; contradiction|].
           cbn [orb] in Hm.
           destruct (Ascii.eqb_spec c "-") as [->|]; discriminate.
    + cbn [andb orb] in Hm. apply Ascii.eqb_eq in Hm. subst c.
      apply (strips_dash rest).
  - assert (SynthesisGuide.stripListMarker s = s) as ->.
    { symmetry. apply StripsTo_stripListMarker, strips_nothing, Hm. }
    apply strips_nothing, Hm.
Qed.

Lemma Cleaned_specQuestions (qs : list JSON) (out : list string) :
  Cleaned qs out -> out = specQuestions qs.
Proof.
  induction 1 as [|s t rest out Hs Ht _ IH|s t rest out Hs Ht _ IH|q rest out Hq _ IH].
  - reflexivity.
  - cbn [specQuestions]. rewrite <- (StripsTo_stripListMarker _ _ Hs).
    destruct (JS.trim t); [contradiction|]. f_equal. exact IH.
  - cbn [specQuestions]. rewrite <- (StripsTo_stripListMarker _ _ Hs), Ht. exact IH.
  - destruct q; cbn [specQuestions]; try exact IH. destruct (Hq s eq_refl).
Qed.

Lemma specQuestions_Cleaned (qs : list JSON) : Cleaned qs (specQuestions qs).
Proof.
  induction qs as [|q qs IH]; [constructor|].
  destruct q; cbn [specQuestions]; try (apply cleaned_other; [discriminate|exact IH]).
  destruct (JS.trim (SynthesisGuide.stripListMarker s)) as [|c t] eqn:Ht.
  - eapply cleaned_empty; [apply stripListMarker_StripsTo|exact Ht|exact IH].
  - rewrite <- Ht. apply cleaned_keep; [apply stripListMarker_StripsTo| |exact IH].
    rewrite Ht. discriminate.
Qed.

Section SynthesisRuns.

Variable JSON_parse : string -> option JSON.

(** The body of the [try] block on a response that holds an object with an
    array [questions] of 3 to 5 elements *)
Lemma parseSynthesisBody_run (response now jsonText : string) (parsed : JSON)
    (qs : list JSON) :
  Json.matchObject response = Some jsonText ->
  JSON_parse jsonText = Some parsed ->
  Json.member parsed "questions" = Some (JArray qs) ->
  (3 <= length qs <= 5)%nat ->
  SynthesisGuide.parseSynthesisBody JSON_parse response now
  = if (3 <=? length (specQuestions qs))%nat
    then Normal {| questions := specQuestions qs;
                   suggestedTone :=
                     SynthesisGuide.validateTone (Json.member parsed "suggestedTone");
                   guideTimestamp := now |}
    else Throw (Error "Not enough valid questions after cleaning").
Proof.
  intros Hm Hp Hq Hn.
  unfold SynthesisGuide.parseSynthesisBody, TriageAnalyzer.parseJson.
  rewrite Hm, Hp. cbn [mbind Completion_bind].
  assert (Hget : Json.get parsed "questions" = Normal (Some (JArray qs))).
  { destruct parsed; cbn [Json.get Json.member] in *; congruence. }
  rewrite Hget. cbn [mbind Completion_bind].
  destruct (Nat.ltb_spec (length qs) 3); [lia|].
  destruct (Nat.ltb_spec 5 (length qs)); [lia|]. cbn [orb].
  rewrite <- (strings_length_cleanQuestions qs), strings_cleanQuestions.
  destruct (Nat.ltb_spec (length (specQuestions qs)) 3) as [Hlt|Hge];
    destruct (Nat.leb_spec 3 (length (specQuestions qs))); try lia; [reflexivity|].
  rewrite List.firstn_all2.
  - rewrite strings_cleanQuestions. reflexivity.
  - rewrite <- strings_length_cleanQuestions, strings_cleanQuestions.
    assert (Hle : (length (specQuestions qs) <= length qs)%nat).
    { clear. induction qs as [|x qs IH]; [reflexivity|].
      destruct x; cbn [specQuestions length]; try lia.
      destruct (JS.trim (SynthesisGuide.stripListMarker s)); cbn [length]; lia. }
    lia.
Qed.

End SynthesisRuns.

(** C3.  Whatever the response and the language, the guide that
    [parseSynthesisResponse] returns has between 3 and 5 questions, and the
    function raises nothing.  When the response holds an object that parses
    and has an array [questions] of 3 to 5 elements, take of each string of
    the array what is left once one leading list marker (a run of digits
    with its dot, or a dash) and the white space after it are removed, trim
    it, and drop what is empty or is not a string: when at least 3
    questions are left the guide has exactly these, in order; when fewer
    are left, and for every other response, the guide is the fallback of
    the language, exactly 4 fixed questions with the tone [reflective]. *)
Theorem synthesis_questions_between_3_and_5
    (JSON_parse : string -> option JSON) (response : string)
    (language : ResponseLanguage) (now : string) :
  let g := SynthesisGuide.parseSynthesisResponse JSON_parse response language now in
  let fallback :=
    questions g = SynthesisGuide.getFallbackQuestions language /\
    length (questions g) = 4%nat /\
    suggestedTone g = "reflective" in
  (3 <= length (questions g) <= 5)%nat /\
  (forall jsonText parsed qs out,
     Json.matchObject response = Some jsonText ->
     JSON_parse jsonText = Some parsed ->
     Json.member parsed "questions" = Some (JArray qs) ->
     (3 <= length qs <= 5)%nat ->
     Cleaned qs out ->
     if (3 <=? length out)%nat then questions g = out else fallback) /\
  ((forall jsonText parsed qs,
      Json.matchObject response = Some jsonText ->
      JSON_parse jsonText = Some parsed ->
      Json.member parsed "questions" = Some (JArray qs) ->
      ~ (3 <= length qs <= 5)%nat) ->
   fallback).
Proof.
  intros g fallback.
  assert (Hfb : forall e,
            SynthesisGuide.parseSynthesisBody JSON_parse response now = Throw e -> fallback).
  { intros e He. subst fallback g. unfold SynthesisGuide.parseSynthesisResponse.
    rewrite He. cbn [SynthesisGuide.createFallbackGuide questions suggestedTone].
    destruct language; repeat split; reflexivity. }
  split; [|split].
  - subst g. unfold SynthesisGuide.parseSynthesisResponse.
    destruct (SynthesisGuide.parseSynthesisBody JSON_parse response now) as [g|e] eqn:Hbody.
    + destruct (parseSynthesisBody_normal _ _ _ _ Hbody)
        as (jsonText & parsed & qs & _ & _ & _ & Hn & Hs & Hg & _).
      assert (Hle : (length (specQuestions qs) <= length qs)%nat).
      { clear. induction qs as [|x qs IH]; [reflexivity|].
        destruct x; cbn [specQuestions length]; try lia.
        destruct (JS.trim (SynthesisGuide.stripListMarker s)); cbn [length]; lia. }
      rewrite Hg. lia.
    + cbn [SynthesisGuide.createFallbackGuide questions].
      destruct language; cbn [SynthesisGuide.getFallbackQuestions length]; lia.
  - intros jsonText parsed qs out Hm Hp Hq Hn Hout.
    apply Cleaned_specQuestions in Hout. subst out.
    pose proof (parseSynthesisBody_run JSON_parse response now _ _ _ Hm Hp Hq Hn) as Hrun.
    destruct (3 <=? length (specQuestions qs))%nat.
    + subst g. unfold SynthesisGuide.parseSynthesisResponse. rewrite Hrun. reflexivity.
    + exact (Hfb _ Hrun).
  - intros Hnone.
    destruct (SynthesisGuide.parseSynthesisBody JSON_parse response now) as [g'|e] eqn:Hbody;
      [|exact (Hfb _ eq_refl)].
    destruct (parseSynthesisBody_normal _ _ _ _ Hbody)
      as (jsonText & parsed & qs & Hm & Hp & Hq & Hn & _).
    destruct (Hnone _ _ _ Hm Hp Hq Hn).
Qed.

(** C3, as the claim states it, fails: the markers are not all stripped.
    One marker is removed, once, and only of the two forms above: of
    [- 1. Why now?] the dash goes and [1. Why now?] stays, with its number,
    and [2) What next?] keeps its marker. *)
Example synthesis_marker_left_in_place :
  let g := SynthesisGuide.parseSynthesisResponse JsonParser.parse
             (JsonParser.text
                "{'questions': ['- 1. Why now?', '2) What next?', 'Who else?']}")
             english "2026-01-27T00:00:00.000Z" in
  questions g = ["1. Why now?"; "2) What next?"; "Who else?"] /\
  existsb leadingMarker (questions g) = true.
Proof. vm_compute. auto. Qed.

(* ====================================================================== *)
(** ** Provider adapters: the retry loop                                   *)
(* ====================================================================== *)

Section LoopFacts.

Context {Obs : Type}.
Variable attemptBody : Obs -> Completion string.
Variable onFailure : Z -> JsError -> Completion Z.
Variable env : nat -> Obs.

(** The loop makes at most as many requests as it has iterations, and sleeps
    at most once per request. *)
Lemma loop_attempts_le (remaining : nat) (attempt : Z) (k : nat) :
  (attempts (Retry.loop attemptBody onFailure env remaining attempt k) <= remaining)%nat /\
  (length (sleeps (Retry.loop attemptBody onFailure env remaining attempt k))
   <= attempts (Retry.loop attemptBody onFailure env remaining attempt k))%nat.
Proof.
  revert attempt k.
  induction remaining as [|remaining IH]; intros attempt k; cbn [Retry.loop].
  - cbn. lia.
  - destruct (attemptBody (env k)) as [text|error]; [cbn; lia|].
    destruct (onFailure attempt error) as [delay|e]; [|cbn; lia].
    specialize (IH (attempt + 1) (S k)). cbn [attempts sleeps length]. lia.
Qed.

(** Every delay the loop sleeps follows a failed request, and is the delay the
    [catch] block chose for that failure at that attempt. *)
Lemma loop_sleep_inv (remaining : nat) (attempt : Z) (k i : nat) (d : Z) :
  sleeps (Retry.loop attemptBody onFailure env remaining attempt k) !! i = Some d ->
  exists e, attemptBody (env (k + i)%nat) = Throw e /\
            onFailure (attempt + Z.of_nat i) e = Normal d.
Proof.
  revert attempt k i.
  induction remaining as [|remaining IH]; intros attempt k i; cbn [Retry.loop].
  - cbn. discriminate.
  - destruct (attemptBody (env k)) as [text|error] eqn:Hbody; [cbn; discriminate|].
    destruct (onFailure attempt error) as [delay|e] eqn:Hfail; [|cbn; discriminate].
    cbn [sleeps]. destruct i as [|i]; cbn [lookup list_lookup].
    + intros [= <-]. exists error.
      rewrite Nat.add_0_r, Z.add_0_r. auto.
    + intros H. destruct (IH _ _ _ H) as (e & He & Hd).
      exists e. rewrite Nat.add_succ_r. split; [exact He|].
      rewrite <- Hd. f_equal. lia.
Qed.

(** The three iterations of [run], written out *)
Lemma run_unfold :
  Retry.run attemptBody onFailure env =
  match attemptBody (env 0%nat) with
  | Normal text => mkTrace (Normal text) [] 1
  | Throw e1 =>
      match onFailure 1 e1 with
      | Throw x => mkTrace (Throw x) [] 1
      | Normal d1 =>
          match attemptBody (env 1%nat) with
          | Normal text => mkTrace (Normal text) [d1] 2
          | Throw e2 =>
              match onFailure 2 e2 with
              | Throw x => mkTrace (Throw x) [d1] 2
              | Normal d2 =>
                  match attemptBody (env 2%nat) with
                  | Normal text => mkTrace (Normal text) [d1; d2] 3
                  | Throw e3 =>
                      match onFailure 3 e3 with
                      | Throw x => mkTrace (Throw x) [d1; d2] 3
                      | Normal d3 =>
                          mkTrace (Throw (Error "API call failed: Maximum retries exceeded"))
                                  [d1; d2; d3] 3
                      end
                  end
              end
          end
      end
  end.
Proof.
  unfold Retry.run. change (Z.to_nat Retry.maxRetries) with 3%nat.
  cbn [Retry.loop].
  destruct (attemptBody (env 0%nat)); [reflexivity|].
  destruct (onFailure 1 e); [|reflexivity].
  change (1 + 1) with 2.
  destruct (attemptBody (env 1%nat)); [reflexivity|].
  destruct (onFailure 2 e0); [|reflexivity].
  change (2 + 1) with 3.
  destruct (attemptBody (env 2%nat)); [reflexivity|].
  destruct (onFailure 3 e1); reflexivity.
Qed.

End LoopFacts.

Lemma Anthropic_shape :
  SdkShape AnthropicProvider.onFailure AnthropicProvider.authFailure
    AnthropicProvider.rateLimitFailure AnthropicProvider.timeoutFailure 1000.
Proof.
  split; intros a e; unfold AnthropicProvider.onFailure, AnthropicProvider.baseDelay,
    Retry.maxRetries.
  - intros ->. eauto.
  - intros -> ->. reflexivity.
  - intros -> -> ->. reflexivity.
  - intros -> ->.
    destruct (AnthropicProvider.timeoutFailure e), (Z.eqb_spec a 3); eauto.
Qed.

Lemma OpenAI_shape :
  SdkShape OpenAIProvider.onFailure OpenAIProvider.authFailure
    OpenAIProvider.rateLimitFailure OpenAIProvider.timeoutFailure 1000.
Proof.
  split; intros a e; unfold OpenAIProvider.onFailure, OpenAIProvider.baseDelay,
    Retry.maxRetries.
  - intros ->. eauto.
  - intros -> ->. reflexivity.
  - intros -> -> ->. reflexivity.
  - intros -> ->.
    destruct (OpenAIProvider.timeoutFailure e), (OpenAIProvider.quotaFailure e),
      (Z.eqb_spec a 3); eauto.
Qed.

Lemma Gemini_shape :
  SdkShape GeminiProvider.onFailure GeminiProvider.authFailure
    GeminiProvider.rateLimitFailure GeminiProvider.timeoutFailure 1000.
Proof.
  split; intros a e; unfold GeminiProvider.onFailure, GeminiProvider.baseDelay,
    Retry.maxRetries.
  - intros ->. eauto.
  - intros -> ->. reflexivity.
  - intros -> -> ->. reflexivity.
  - intros -> ->.
    destruct (GeminiProvider.timeoutFailure e), (GeminiProvider.quotaFailure e),
      (GeminiProvider.safetyFailure e), (Z.eqb_spec a 3); eauto.
Qed.

Section ShapeFacts.

Variable onFailure : Z -> JsError -> Completion Z.
Variables auth rate timeout : JsError -> bool.
Variable base : Z.
Hypothesis shape : SdkShape onFailure auth rate timeout base.

Lemma shape_last (e : JsError) : exists x, onFailure 3 e = Throw x.
Proof.
  destruct (auth e) eqn:Ha; [exact (shape_auth _ _ _ _ _ shape 3 e Ha)|].
  destruct (rate e) eqn:Hr.
  - rewrite (shape_rate _ _ _ _ _ shape 3 e Ha Hr). cbn. eauto.
  - destruct (shape_rest _ _ _ _ _ shape 3 e Ha Hr) as [H|[H _]]; [exact H|congruence].
Qed.

Lemma shape_delay (a : Z) (e : JsError) (d : Z) :
  onFailure a e = Normal d ->
  auth e = false /\ a <> 3 /\ d = backoff base (rate e) a.
Proof.
  intros H. unfold backoff.
  destruct (auth e) eqn:Ha.
  { destruct (shape_auth _ _ _ _ _ shape a e Ha) as [x Hx]. congruence. }
  destruct (rate e) eqn:Hr.
  - rewrite (shape_rate _ _ _ _ _ shape a e Ha Hr) in H.
    destruct (Z.eqb_spec a 3); [discriminate|]. injection H as <-. auto.
  - destruct (shape_rest _ _ _ _ _ shape a e Ha Hr) as [[x Hx]|[Hne Hd]]; [congruence|].
    rewrite Hd in H. injection H as <-. auto.
Qed.

Lemma shape_retried (a : Z) (e : JsError) :
  a <> 3 -> auth e = false -> rate e = true \/ timeout e = true ->
  onFailure a e = Normal (backoff base (rate e) a).
Proof.
  intros Hne Ha Hc. unfold backoff.
  apply Z.eqb_neq in Hne.
  destruct (rate e) eqn:Hr.
  - rewrite (shape_rate _ _ _ _ _ shape a e Ha Hr), Hne. reflexivity.
  - destruct Hc as [Hc|Hc]; [discriminate|].
    rewrite (shape_timeout _ _ _ _ _ shape a e Ha Hr Hc), Hne. reflexivity.
Qed.

End ShapeFacts.

Lemma run_sdkPolicy (attemptBody : SdkOutcome -> Completion string)
    (onFailure : Z -> JsError -> Completion Z)
    (auth rate timeout : JsError -> bool) (base : Z) (env : nat -> SdkOutcome) :
  SdkShape onFailure auth rate timeout base ->
  sdkPolicy auth rate timeout base (fun i => attemptBody (env i))
    (Retry.run attemptBody onFailure env).
Proof.
  intros shape.
  pose proof (shape_last _ _ _ _ _ shape) as Hlast.
  pose proof (shape_delay _ _ _ _ _ shape) as Hdelay.
  pose proof (shape_retried _ _ _ _ _ shape) as Hretry.
  pose proof (loop_sleep_inv attemptBody onFailure env 3 1 0) as Hinv.
  change (Retry.loop attemptBody onFailure env 3 1 0)
    with (Retry.run attemptBody onFailure env) in Hinv.
  unfold sdkPolicy. split; [|split; [|split; [|split; [|split]]]].
  - rewrite run_unfold.
    repeat match goal with
           | |- context [match ?c with Normal _ => _ | Throw _ => _ end] => destruct c
           end; cbn; lia.
  - rewrite run_unfold.
    destruct (attemptBody (env 0%nat)) as [|e1]; [reflexivity|].
    destruct (onFailure 1 e1); [|reflexivity].
    destruct (attemptBody (env 1%nat)) as [|e2]; [reflexivity|].
    destruct (onFailure 2 e2); [|reflexivity].
    destruct (attemptBody (env 2%nat)) as [|e3]; [reflexivity|].
    destruct (Hlast e3) as [x ->]. reflexivity.
  - intros e He Ha. rewrite run_unfold, He.
    destruct (shape_auth _ _ _ _ _ shape 1 e Ha) as [x ->]. eauto.
  - intros i d Hd. destruct (Hinv i d Hd) as (e & He & Hf).
    exists e. destruct (Hdelay _ _ _ Hf) as (Ha & _ & ->).
    repeat split; auto. f_equal; lia.
  - intros i e Hi Hlen He Ha Hc. cbn beta in He. revert Hlen. rewrite run_unfold.
    destruct i as [|[|i]]; [| |lia]; cbn [Z.of_nat]; rewrite ?He.
    + rewrite (Hretry 1 e) by (auto; lia). intros _.
      repeat match goal with
             | |- context [match ?c with Normal _ => _ | Throw _ => _ end] => destruct c
             end; reflexivity.
    + destruct (attemptBody (env 0%nat)) as [|e1]; [cbn; lia|].
      destruct (onFailure 1 e1); [|cbn; lia].
      rewrite (Hretry 2 e) by (auto; lia). intros _.
      repeat match goal with
             | |- context [match ?c with Normal _ => _ | Throw _ => _ end] => destruct c
             end; reflexivity.
  - intros e1 e2 text H1 Ha1 Hr1 H2 Ha2 Hr2 H3.
    rewrite run_unfold, H1, H2, H3.
    rewrite (shape_rate _ _ _ _ _ shape 1 e1 Ha1 Hr1),
            (shape_rate _ _ _ _ _ shape 2 e2 Ha2 Hr2).
    reflexivity.
Qed.

Lemma Ollama_onFailure_last (p : OllamaProvider.t) (e : JsError) :
  exists x, OllamaProvider.onFailure p 3 e = Throw x.
Proof.
  unfold OllamaProvider.onFailure.
  destruct (OllamaProvider.timeoutFailure e), (OllamaProvider.connectionFailure e),
    (OllamaProvider.modelNotFound e); cbn; eauto.
Qed.

Lemma Ollama_onFailure_delay (p : OllamaProvider.t) (a : Z) (e : JsError) (d : Z) :
  OllamaProvider.onFailure p a e = Normal d -> a <> 3 /\ d = backoff 2000 false a.
Proof.
  unfold OllamaProvider.onFailure, OllamaProvider.baseDelay, Retry.maxRetries, backoff.
  destruct (OllamaProvider.timeoutFailure e), (OllamaProvider.connectionFailure e),
    (OllamaProvider.modelNotFound e), (Z.eqb_spec a 3);
    try discriminate; intros [= <-]; auto.
Qed.

Lemma Ollama_onFailure_retried (p : OllamaProvider.t) (a : Z) (e : JsError) :
  a <> 3 ->
  OllamaProvider.timeoutFailure e = true \/
  (OllamaProvider.connectionFailure e = false /\ OllamaProvider.modelNotFound e = false) ->
  OllamaProvider.onFailure p a e = Normal (backoff 2000 false a).
Proof.
  intros Hne%Z.eqb_neq Hc.
  unfold OllamaProvider.onFailure, OllamaProvider.baseDelay, Retry.maxRetries, backoff.
  rewrite Hne.
  destruct Hc as [->|[-> ->]]; [reflexivity|].
  destruct (OllamaProvider.timeoutFailure e); reflexivity.
Qed.

Lemma run_ollamaPolicy (p : OllamaProvider.t) (env : nat -> FetchOutcome) :
  ollamaPolicy OllamaProvider.timeoutFailure OllamaProvider.connectionFailure
    OllamaProvider.modelNotFound
    (fun i => OllamaProvider.attemptBody p (env i))
    (Retry.run (OllamaProvider.attemptBody p) (OllamaProvider.onFailure p) env).
Proof.
  pose proof (loop_sleep_inv (OllamaProvider.attemptBody p) (OllamaProvider.onFailure p)
                env 3 1 0) as Hinv.
  change (Retry.loop (OllamaProvider.attemptBody p) (OllamaProvider.onFailure p) env 3 1 0)
    with (Retry.run (OllamaProvider.attemptBody p) (OllamaProvider.onFailure p) env) in Hinv.
  unfold ollamaPolicy. split; [|split; [|split]].
  - rewrite run_unfold.
    repeat match goal with
           | |- context [match ?c with Normal _ => _ | Throw _ => _ end] => destruct c
           end; cbn; lia.
  - rewrite run_unfold.
    destruct (OllamaProvider.attemptBody p (env 0%nat)) as [|e1]; [reflexivity|].
    destruct (OllamaProvider.onFailure p 1 e1); [|reflexivity].
    destruct (OllamaProvider.attemptBody p (env 1%nat)) as [|e2]; [reflexivity|].
    destruct (OllamaProvider.onFailure p 2 e2); [|reflexivity].
    destruct (OllamaProvider.attemptBody p (env 2%nat)) as [|e3]; [reflexivity|].
    destruct (Ollama_onFailure_last p e3) as [x ->]. reflexivity.
  - intros i d Hd. destruct (Hinv i d Hd) as (e & _ & Hf).
    destruct (Ollama_onFailure_delay _ _ _ _ Hf) as (_ & ->). f_equal; lia.
  - intros i e Hi Hlen He Hc. cbn beta in He. revert Hlen. rewrite run_unfold.
    destruct i as [|[|i]]; [| |lia]; cbn [Z.of_nat]; rewrite ?He.
    + rewrite (Ollama_onFailure_retried p 1 e) by (auto; lia). intros _.
      repeat match goal with
             | |- context [match ?c with Normal _ => _ | Throw _ => _ end] => destruct c
             end; reflexivity.
    + destruct (OllamaProvider.attemptBody p (env 0%nat)) as [|e1]; [cbn; lia|].
      destruct (OllamaProvider.onFailure p 1 e1); [|cbn; lia].
      rewrite (Ollama_onFailure_retried p 2 e) by (auto; lia). intros _.
      repeat match goal with
             | |- context [match ?c with Normal _ => _ | Throw _ => _ end] => destruct c
             end; reflexivity.
Qed.

Lemma run_attempts_le {Obs : Type} (attemptBody : Obs -> Completion string)
    (onFailure : Z -> JsError -> Completion Z) (env : nat -> Obs) :
  (attempts (Retry.run attemptBody onFailure env) <= 3)%nat.
Proof. exact (proj1 (loop_attempts_le attemptBody onFailure env 3 1 0)). Qed.

(** The trace of a call is the run of the loop over the requests of the
    call, once the adapter is initialized or its [initialize] succeeds;
    otherwise the call makes no request. *)
Lemma Anthropic_callAPI_run h p sp up o :
  (attempts (fst (AnthropicProvider.callAPI h p sp up o)) <= 3)%nat /\
  (AnthropicProvider.client p || completes (AnthropicProvider.initialize h p) = true ->
   fst (AnthropicProvider.callAPI h p sp up o)
   = Retry.run AnthropicProvider.attemptBody AnthropicProvider.onFailure
       (sdk h (AnthropicProvider.request p sp up o))).
Proof.
  destruct p as [key model ready].
  pose proof (run_attempts_le AnthropicProvider.attemptBody AnthropicProvider.onFailure
                (sdk h (AnthropicProvider.request (AnthropicProvider.mk key model true) sp up o)))
    as Hle.
  unfold AnthropicProvider.callAPI, AnthropicProvider.initialize.
  cbn [AnthropicProvider.client AnthropicProvider.apiKey AnthropicProvider.model].
  destruct ready; cbn [orb fst]; [split; [exact Hle|reflexivity]|].
  destruct (negb (JS.nonEmpty key) || (String.length (JS.trim key) =? 0)%nat);
    [|destruct (newClient h key)];
    cbn [fst attempts completes]; split; (lia || discriminate || exact Hle || reflexivity).
Qed.

Lemma OpenAI_callAPI_run h p sp up o :
  (attempts (fst (OpenAIProvider.callAPI h p sp up o)) <= 3)%nat /\
  (OpenAIProvider.client p || completes (OpenAIProvider.initialize h p) = true ->
   fst (OpenAIProvider.callAPI h p sp up o)
   = Retry.run OpenAIProvider.attemptBody OpenAIProvider.onFailure
       (sdk h (OpenAIProvider.request p sp up o))).
Proof.
  destruct p as [key model ready].
  pose proof (run_attempts_le OpenAIProvider.attemptBody OpenAIProvider.onFailure
                (sdk h (OpenAIProvider.request (OpenAIProvider.mk key model true) sp up o)))
    as Hle.
  unfold OpenAIProvider.callAPI, OpenAIProvider.initialize.
  cbn [OpenAIProvider.client OpenAIProvider.apiKey OpenAIProvider.model].
  destruct ready; cbn [orb fst]; [split; [exact Hle|reflexivity]|].
  destruct (negb (JS.nonEmpty key) || (String.length (JS.trim key) =? 0)%nat);
    [|destruct (newClient h key)];
    cbn [fst attempts completes]; split; (lia || discriminate || exact Hle || reflexivity).
Qed.

Lemma Gemini_callAPI_run h p sp up o :
  (attempts (fst (GeminiProvider.callAPI h p sp up o)) <= 3)%nat /\
  (GeminiProvider.client p || completes (GeminiProvider.initialize h p) = true ->
   fst (GeminiProvider.callAPI h p sp up o)
   = Retry.run GeminiProvider.attemptBody GeminiProvider.onFailure
       (sdk h (GeminiProvider.request p sp up o))).
Proof.
  destruct p as [key model ready].
  pose proof (run_attempts_le GeminiProvider.attemptBody GeminiProvider.onFailure
                (sdk h (GeminiProvider.request (GeminiProvider.mk key model true) sp up o)))
    as Hle.
  unfold GeminiProvider.callAPI, GeminiProvider.initialize.
  cbn [GeminiProvider.client GeminiProvider.apiKey GeminiProvider.model].
  destruct ready; cbn [orb fst]; [split; [exact Hle|reflexivity]|].
  destruct (negb (JS.nonEmpty key) || (String.length (JS.trim key) =? 0)%nat);
    [|destruct (newClient h key)];
    cbn [fst attempts completes]; split; (lia || discriminate || exact Hle || reflexivity).
Qed.

Lemma Ollama_callAPI_run h p sp up o :
  (attempts (fst (OllamaProvider.callAPI h p sp up o)) <= 3)%nat /\
  (OllamaProvider.initialized p || completes (OllamaProvider.initialize h p) = true ->
   fst (OllamaProvider.callAPI h p sp up o)
   = Retry.run (OllamaProvider.attemptBody p) (OllamaProvider.onFailure p)
       (chat h (OllamaProvider.request p sp up o))).
Proof.
  destruct p as [url model ready].
  pose proof (run_attempts_le (OllamaProvider.attemptBody (OllamaProvider.mk url model true))
                (OllamaProvider.onFailure (OllamaProvider.mk url model true))
                (chat h (OllamaProvider.request (OllamaProvider.mk url model true) sp up o)))
    as Hle.
  unfold OllamaProvider.callAPI, OllamaProvider.initialize.
  cbn [OllamaProvider.initialized OllamaProvider.endpoint OllamaProvider.model].
  destruct ready; cbn [orb fst]; [split; [exact Hle|reflexivity]|].
  destruct (negb (JS.nonEmpty url) || (String.length (JS.trim url) =? 0)%nat);
    cbn [fst attempts completes]; [split; [lia|discriminate]|].
  destruct (validURL h url); cbn [fst attempts completes];
    split; (lia || discriminate || exact Hle || reflexivity).
Qed.

(** C4, as the claim states it, fails on the Ollama adapter: two responses
    with status 429 followed by a success are retried after 2000 and 4000
    milliseconds, the plain exponential delays, not the doubled ones; and a
    response with status 401 is retried as well instead of ending the call. *)
Lemma ollama_rate_limit_not_doubled :
  let host (answers : list FetchOutcome) :=
    mkHost (fun _ => true) (fun _ _ => TimedOut) (fun _ => None)
           (fun _ k => nth k answers (FetchOk (Some "pong"))) (TagsOk None) (fun _ => None) in
  let p := OllamaProvider.new "http://localhost:11434" "llama2" in
  let limited :=
    fst (OllamaProvider.callAPI
           (host [FetchStatus 429 "rate limit exceeded"; FetchStatus 429 "rate limit exceeded"])
           p "system" "user" noOptions) in
  let denied :=
    fst (OllamaProvider.callAPI
           (host [FetchStatus 401 "unauthorized"; FetchStatus 401 "unauthorized";
                  FetchStatus 401 "unauthorized"])
           p "system" "user" noOptions) in
  result limited = Normal "pong" /\
  sleeps limited = [2000; 4000] /\
  sleeps limited <> [OllamaProvider.baseDelay * 2 ^ 1 * 2; OllamaProvider.baseDelay * 2 ^ 2 * 2] /\
  attempts denied = 3%nat /\
  sleeps denied = [2000; 4000].
Proof.
  vm_compute. repeat split; try reflexivity. discriminate.
Qed.

(** C4 (amended).  The [callAPI] of every adapter makes at most three
    requests.  For the Anthropic, OpenAI and Gemini adapters: a failure of the
    auth class ends the call at once, with no retry and no sleep after it; a
    rate-limit failure before the last attempt is retried after
    [base * 2^attempt * 2]; a timeout before the last attempt is retried after
    [base * 2^(attempt-1)]; two rate-limit failures followed by a success
    yield the text after exactly the two delays 4000 and 8000 ([base] is
    1000).  The Ollama adapter has no auth and no rate-limit class: whatever
    it retries, a timeout included, it retries after [base * 2^(attempt-1)]
    with [base] 2000. *)
Theorem callAPI_retry_policy :
  runsPolicy AnthropicProvider.callAPI
    (fun h p => AnthropicProvider.client p
                || completes (AnthropicProvider.initialize h p))
    (fun h p sp up o i =>
       AnthropicProvider.attemptBody (sdk h (AnthropicProvider.request p sp up o) i))
    (sdkPolicy AnthropicProvider.authFailure AnthropicProvider.rateLimitFailure
       AnthropicProvider.timeoutFailure 1000) /\
  runsPolicy OpenAIProvider.callAPI
    (fun h p => OpenAIProvider.client p || completes (OpenAIProvider.initialize h p))
    (fun h p sp up o i =>
       OpenAIProvider.attemptBody (sdk h (OpenAIProvider.request p sp up o) i))
    (sdkPolicy OpenAIProvider.authFailure OpenAIProvider.rateLimitFailure
       OpenAIProvider.timeoutFailure 1000) /\
  runsPolicy GeminiProvider.callAPI
    (fun h p => GeminiProvider.client p || completes (GeminiProvider.initialize h p))
    (fun h p sp up o i =>
       GeminiProvider.attemptBody (sdk h (GeminiProvider.request p sp up o) i))
    (sdkPolicy GeminiProvider.authFailure GeminiProvider.rateLimitFailure
       GeminiProvider.timeoutFailure 1000) /\
  runsPolicy OllamaProvider.callAPI
    (fun h p => OllamaProvider.initialized p
                || completes (OllamaProvider.initialize h p))
    (fun h p sp up o i =>
       OllamaProvider.attemptBody p (chat h (OllamaProvider.request p sp up o) i))
    (ollamaPolicy OllamaProvider.timeoutFailure OllamaProvider.connectionFailure
       OllamaProvider.modelNotFound).
Proof.
  split; [|split; [|split]]; intros h p sp up o.
  - destruct (Anthropic_callAPI_run h p sp up o) as [Hle Hrun].
    split; [exact Hle|]. intros Hr. rewrite (Hrun Hr).
    apply run_sdkPolicy, Anthropic_shape.
  - destruct (OpenAI_callAPI_run h p sp up o) as [Hle Hrun].
    split; [exact Hle|]. intros Hr. rewrite (Hrun Hr).
    apply run_sdkPolicy, OpenAI_shape.
  - destruct (Gemini_callAPI_run h p sp up o) as [Hle Hrun].
    split; [exact Hle|]. intros Hr. rewrite (Hrun Hr).
    apply run_sdkPolicy, Gemini_shape.
  - destruct (Ollama_callAPI_run h p sp up o) as [Hle Hrun].
    split; [exact Hle|]. intros Hr. rewrite (Hrun Hr).
    apply run_ollamaPolicy.
Qed.

(* ====================================================================== *)
(** ** Provider adapters: the error raised when the retries are exhausted  *)
(* ====================================================================== *)

Lemma startsWith_app (n a b : string) :
  JS.startsWith a n = true -> JS.startsWith (a ++ b) n = true.
Proof.
  revert a. induction n as [|c n IH]; intros a; [reflexivity|].
  destruct a as [|x a]; [discriminate|].
  change (String x a ++ b) with (String x (a ++ b)). cbn [JS.startsWith].
  intros [-> H]%andb_prop. rewrite (IH _ H). reflexivity.
Qed.

Lemma includes_app (a b n : string) :
  JS.includes a n = true -> JS.includes (a ++ b) n = true.
Proof.
  induction a as [|x a IH].
  - destruct n; [intros _; destruct b; reflexivity|discriminate].
  - change (String x a ++ b) with (String x (a ++ b)). cbn [JS.includes].
    destruct (JS.startsWith (String x a) n) eqn:Hp.
    + intros _. pose proof (startsWith_app _ _ b Hp) as Hq.
      change (String x a ++ b) with (String x (a ++ b)) in Hq.
      rewrite Hq. reflexivity.
    + intros H. rewrite (IH H). destruct (JS.startsWith (String x (a ++ b)) n); reflexivity.
Qed.

Lemma run_exhausted {Obs : Type} (attemptBody : Obs -> Completion string)
    (onFailure : Z -> JsError -> Completion Z) (env : nat -> Obs) (e x : JsError) :
  attempts (Retry.run attemptBody onFailure env) = 3%nat ->
  attemptBody (env 2%nat) = Throw e ->
  onFailure 3 e = Throw x ->
  Retry.run attemptBody onFailure env
  = mkTrace (Throw x) (sleeps (Retry.run attemptBody onFailure env)) 3.
Proof.
  rewrite run_unfold. intros Hn He Hx. revert Hn.
  destruct (attemptBody (env 0%nat)) as [|e1]; [discriminate|].
  destruct (onFailure 1 e1); [|discriminate].
  destruct (attemptBody (env 1%nat)) as [|e2]; [discriminate|].
  destruct (onFailure 2 e2); [|discriminate].
  rewrite He, Hx. reflexivity.
Qed.

Lemma names_count_other (sl : list Z) (s : string) :
  namesAttemptCount
    (mkTrace (Throw (Error ("API call failed after 3 attempts: " ++ s))) sl 3) = true.
Proof.
  unfold namesAttemptCount. cbn [result attempts message Error].
  apply includes_app. vm_compute. reflexivity.
Qed.

Lemma Anthropic_onFailure_last (e : JsError) :
  AnthropicProvider.onFailure 3 e =
  Throw (Error
    (if AnthropicProvider.authFailure e
     then "Invalid API key. Please check your Anthropic API key in settings."
     else if AnthropicProvider.rateLimitFailure e
     then "Rate limit exceeded. Please try again later."
     else if AnthropicProvider.timeoutFailure e
     then "API request timed out. Please check your connection and try again."
     else "API call failed after 3 attempts: " ++ AnthropicProvider.sanitizeError e)).
Proof.
  unfold AnthropicProvider.onFailure.
  destruct (AnthropicProvider.authFailure e), (AnthropicProvider.rateLimitFailure e),
    (AnthropicProvider.timeoutFailure e); reflexivity.
Qed.

Lemma OpenAI_onFailure_last (e : JsError) :
  OpenAIProvider.onFailure 3 e =
  Throw (Error
    (if OpenAIProvider.authFailure e
     then "Invalid API key. Please check your OpenAI API key in settings."
     else if OpenAIProvider.rateLimitFailure e
     then "Rate limit exceeded. Please try again later."
     else if OpenAIProvider.timeoutFailure e
     then "API request timed out. Please check your connection and try again."
     else if OpenAIProvider.quotaFailure e
     then "OpenAI quota exceeded. Please check your billing settings."
     else "API call failed after 3 attempts: " ++ OpenAIProvider.sanitizeError e)).
Proof.
  unfold OpenAIProvider.onFailure.
  destruct (OpenAIProvider.authFailure e), (OpenAIProvider.rateLimitFailure e),
    (OpenAIProvider.timeoutFailure e), (OpenAIProvider.quotaFailure e); reflexivity.
Qed.

Lemma Gemini_onFailure_last (e : JsError) :
  GeminiProvider.onFailure 3 e =
  Throw (Error
    (if GeminiProvider.authFailure e
     then "Invalid API key. Please check your Gemini API key in settings."
     else if GeminiProvider.rateLimitFailure e
     then "Rate limit exceeded. Please try again later."
     else if GeminiProvider.timeoutFailure e
     then "API request timed out. Please check your connection and try again."
     else if GeminiProvider.quotaFailure e
     then "Gemini quota exceeded. Please check your billing settings."
     else if GeminiProvider.safetyFailure e
     then "Content was blocked by Gemini safety filters. Please try different input."
     else "API call failed after 3 attempts: " ++ GeminiProvider.sanitizeError e)).
Proof.
  unfold GeminiProvider.onFailure.
  destruct (GeminiProvider.authFailure e), (GeminiProvider.rateLimitFailure e),
    (GeminiProvider.timeoutFailure e), (GeminiProvider.quotaFailure e),
    (GeminiProvider.safetyFailure e); reflexivity.
Qed.

Lemma Anthropic_exhaustion (env : nat -> SdkOutcome) :
  exhaustionPolicy AnthropicClass.other AnthropicClass.rate AnthropicClass.timeout
    AnthropicProvider.sanitizeError
    (Some "Rate limit exceeded. Please try again later.")
    (Some "API request timed out. Please check your connection and try again.")
    (fun i => AnthropicProvider.attemptBody (env i))
    (Retry.run AnthropicProvider.attemptBody AnthropicProvider.onFailure env).
Proof.
  intros e Hn He. cbn beta in He.
  unfold AnthropicClass.other, AnthropicClass.rate, AnthropicClass.timeout.
  rewrite (run_exhausted _ _ _ _ _ Hn He (Anthropic_onFailure_last e)).
  destruct (AnthropicProvider.authFailure e), (AnthropicProvider.rateLimitFailure e),
    (AnthropicProvider.timeoutFailure e); cbn [negb andb result];
    (split; [|split]); try discriminate; intros _.
  all: try (eexists; split; [reflexivity|split; [reflexivity|vm_compute; reflexivity]]).
  split; [reflexivity|apply names_count_other].
Qed.

Lemma OpenAI_exhaustion (env : nat -> SdkOutcome) :
  exhaustionPolicy OpenAIClass.other OpenAIClass.rate OpenAIClass.timeout
    OpenAIProvider.sanitizeError
    (Some "Rate limit exceeded. Please try again later.")
    (Some "API request timed out. Please check your connection and try again.")
    (fun i => OpenAIProvider.attemptBody (env i))
    (Retry.run OpenAIProvider.attemptBody OpenAIProvider.onFailure env).
Proof.
  intros e Hn He. cbn beta in He.
  unfold OpenAIClass.other, OpenAIClass.rate, OpenAIClass.timeout.
  rewrite (run_exhausted _ _ _ _ _ Hn He (OpenAI_onFailure_last e)).
  destruct (OpenAIProvider.authFailure e), (OpenAIProvider.rateLimitFailure e),
    (OpenAIProvider.timeoutFailure e), (OpenAIProvider.quotaFailure e);
    cbn [negb andb result];
    (split; [|split]); try discriminate; intros _.
  all: try (eexists; split; [reflexivity|split; [reflexivity|vm_compute; reflexivity]]).
  split; [reflexivity|apply names_count_other].
Qed.

Lemma Gemini_exhaustion (env : nat -> SdkOutcome) :
  exhaustionPolicy GeminiClass.other GeminiClass.rate GeminiClass.timeout
    GeminiProvider.sanitizeError
    (Some "Rate limit exceeded. Please try again later.")
    (Some "API request timed out. Please check your connection and try again.")
    (fun i => GeminiProvider.attemptBody (env i))
    (Retry.run GeminiProvider.attemptBody GeminiProvider.onFailure env).
Proof.
  intros e Hn He. cbn beta in He.
  unfold GeminiClass.other, GeminiClass.rate, GeminiClass.timeout.
  rewrite (run_exhausted _ _ _ _ _ Hn He (Gemini_onFailure_last e)).
  destruct (GeminiProvider.authFailure e), (GeminiProvider.rateLimitFailure e),
    (GeminiProvider.timeoutFailure e), (GeminiProvider.quotaFailure e),
    (GeminiProvider.safetyFailure e);
    cbn [negb andb result];
    (split; [|split]); try discriminate; intros _.
  all: try (eexists; split; [reflexivity|split; [reflexivity|vm_compute; reflexivity]]).
  split; [reflexivity|apply names_count_other].
Qed.

Lemma Ollama_onFailure_3 (p : OllamaProvider.t) (e : JsError) :
  OllamaProvider.onFailure p 3 e =
  Throw (if OllamaProvider.timeoutFailure e
         then Error "Request timed out. Your local model may be too slow or overloaded."
         else if OllamaProvider.connectionFailure e
         then Error ("Cannot connect to Ollama server at " ++ OllamaProvider.endpoint p
                       ++ ". Is Ollama running?")
         else if OllamaProvider.modelNotFound e
         then e
         else Error ("API call failed after 3 attempts: " ++ OllamaProvider.sanitizeError e)).
Proof.
  unfold OllamaProvider.onFailure.
  destruct (OllamaProvider.timeoutFailure e), (OllamaProvider.connectionFailure e),
    (OllamaProvider.modelNotFound e); reflexivity.
Qed.

Lemma Ollama_exhaustion (p : OllamaProvider.t) (env : nat -> FetchOutcome) :
  exhaustionPolicy OllamaClass.other (fun _ => false) OllamaProvider.timeoutFailure
    OllamaProvider.sanitizeError
    None
    (Some "Request timed out. Your local model may be too slow or overloaded.")
    (fun i => OllamaProvider.attemptBody p (env i))
    (Retry.run (OllamaProvider.attemptBody p) (OllamaProvider.onFailure p) env).
Proof.
  intros e Hn He. cbn beta in He.
  unfold OllamaClass.other.
  rewrite (run_exhausted _ _ _ _ _ Hn He (Ollama_onFailure_3 p e)).
  destruct (OllamaProvider.timeoutFailure e), (OllamaProvider.connectionFailure e),
    (OllamaProvider.modelNotFound e); cbn [negb andb result];
    (split; [|split]); try discriminate; intros _.
  all: try (eexists; split; [reflexivity|split; [reflexivity|vm_compute; reflexivity]]).
  split; [reflexivity|apply names_count_other].
Qed.

(** C8, as the claim states it, fails for the rate-limit and the timeout
    classes: a call that meets three rate-limit failures, or three timeouts,
    makes its three requests and raises a fixed message in which no attempt
    count appears. *)
Lemma exhaustion_message_without_count :
  let host (answer : SdkOutcome) :=
    mkHost (fun _ => true) (fun _ _ => answer) (fun _ => None)
           (fun _ _ => FetchAborted) (TagsOk None) (fun _ => None) in
  let p := AnthropicProvider.new "sk-ant-api03-test" "claude-3-opus-20240229" in
  let limited :=
    fst (AnthropicProvider.callAPI (host (Rejected (Error "429 Too Many Requests")))
           p "system" "user" noOptions) in
  let slow := fst (AnthropicProvider.callAPI (host TimedOut) p "system" "user" noOptions) in
  attempts limited = 3%nat /\
  result limited = Throw (Error "Rate limit exceeded. Please try again later.") /\
  namesAttemptCount limited = false /\
  attempts slow = 3%nat /\
  result slow
  = Throw (Error "API request timed out. Please check your connection and try again.") /\
  namesAttemptCount slow = false.
Proof.
  vm_compute. repeat split; reflexivity.
Qed.

(** C8 (amended).  When the [callAPI] of an adapter has made its three
    requests and the third fails with a failure of the other/network class (one
    that none of the adapter's named conditions matches), the error it raises
    states the count: its message is [API call failed after 3 attempts: ]
    followed by the sanitized message of the failure.  When the third failure
    is a rate limit or a timeout, the error raised is the fixed message of
    that class, which names no count. *)
Theorem exhaustion_names_attempts_of_other_failures :
  runsPolicy AnthropicProvider.callAPI
    (fun h p => AnthropicProvider.client p
                || completes (AnthropicProvider.initialize h p))
    (fun h p sp up o i =>
       AnthropicProvider.attemptBody (sdk h (AnthropicProvider.request p sp up o) i))
    (exhaustionPolicy AnthropicClass.other AnthropicClass.rate AnthropicClass.timeout
       AnthropicProvider.sanitizeError
       (Some "Rate limit exceeded. Please try again later.")
       (Some "API request timed out. Please check your connection and try again.")) /\
  runsPolicy OpenAIProvider.callAPI
    (fun h p => OpenAIProvider.client p || completes (OpenAIProvider.initialize h p))
    (fun h p sp up o i =>
       OpenAIProvider.attemptBody (sdk h (OpenAIProvider.request p sp up o) i))
    (exhaustionPolicy OpenAIClass.other OpenAIClass.rate OpenAIClass.timeout
       OpenAIProvider.sanitizeError
       (Some "Rate limit exceeded. Please try again later.")
       (Some "API request timed out. Please check your connection and try again.")) /\
  runsPolicy GeminiProvider.callAPI
    (fun h p => GeminiProvider.client p || completes (GeminiProvider.initialize h p))
    (fun h p sp up o i =>
       GeminiProvider.attemptBody (sdk h (GeminiProvider.request p sp up o) i))
    (exhaustionPolicy GeminiClass.other GeminiClass.rate GeminiClass.timeout
       GeminiProvider.sanitizeError
       (Some "Rate limit exceeded. Please try again later.")
       (Some "API request timed out. Please check your connection and try again.")) /\
  runsPolicy OllamaProvider.callAPI
    (fun h p => OllamaProvider.initialized p
                || completes (OllamaProvider.initialize h p))
    (fun h p sp up o i =>
       OllamaProvider.attemptBody p (chat h (OllamaProvider.request p sp up o) i))
    (exhaustionPolicy OllamaClass.other (fun _ => false) OllamaProvider.timeoutFailure
       OllamaProvider.sanitizeError
       None
       (Some "Request timed out. Your local model may be too slow or overloaded.")).
Proof.
  split; [|split; [|split]]; intros h p sp up o.
  - destruct (Anthropic_callAPI_run h p sp up o) as [Hle Hrun].
    split; [exact Hle|]. intros Hr. rewrite (Hrun Hr).
    apply Anthropic_exhaustion.
  - destruct (OpenAI_callAPI_run h p sp up o) as [Hle Hrun].
    split; [exact Hle|]. intros Hr. rewrite (Hrun Hr).
    apply OpenAI_exhaustion.
  - destruct (Gemini_callAPI_run h p sp up o) as [Hle Hrun].
    split; [exact Hle|]. intros Hr. rewrite (Hrun Hr).
    apply Gemini_exhaustion.
  - destruct (Ollama_callAPI_run h p sp up o) as [Hle Hrun].
    split; [exact Hle|]. intros Hr. rewrite (Hrun Hr).
    apply Ollama_exhaustion.
Qed.

(* ====================================================================== *)
(** ** LLMClient: construction by tag and delegation                       *)
(* ====================================================================== *)

Lemma present_Some (s : option string) (v : string) :
  s = Some v -> v <> EmptyString -> LLMClient.present s = Some v.
Proof. intros -> Hv. destruct v; [contradiction|reflexivity]. Qed.

Lemma present_None (s : option string) :
  s = None \/ s = Some EmptyString -> LLMClient.present s = None.
Proof. intros [->| ->]; reflexivity. Qed.

Lemma allAscii_complete (c : ascii) : In c Pattern.allAscii.
Proof.
  unfold Pattern.allAscii. rewrite <- (ascii_nat_embedding c).
  apply in_map, in_seq. pose proof (nat_ascii_bounded c). lia.
Qed.

(** [toLowerCase] makes a text equal to a tag of letters [a] to [z] exactly
    when the text is the tag but for the case of its letters. *)
Lemma lowerChar_sameLetter (a b : ascii) :
  lowerLetter b = true -> Ascii.eqb (JS.lowerChar a) b = sameLetter a b.
Proof.
  assert (Hall : forallb (fun y => forallb (fun x =>
                    implb (lowerLetter y)
                      (Bool.eqb (Ascii.eqb (JS.lowerChar x) y) (sameLetter x y)))
                    Pattern.allAscii) Pattern.allAscii = true)
    by (vm_compute; reflexivity).
  intros Hb. rewrite forallb_forall in Hall.
  specialize (Hall b (allAscii_complete b)). rewrite forallb_forall in Hall.
  specialize (Hall a (allAscii_complete a)). rewrite Hb in Hall.
  apply Bool.eqb_prop, Hall.
Qed.

Lemma toLowerCase_sameButCase (tag s : string) :
  forallb lowerLetter (list_ascii_of_string tag) = true ->
  String.eqb (JS.toLowerCase s) tag = sameButCase s tag.
Proof.
  revert s. induction tag as [|b tag IH]; intros s Htag.
  - destruct s; reflexivity.
  - cbn [list_ascii_of_string forallb] in Htag. apply andb_true_iff in Htag as [Hb Htag].
    destruct s as [|a s]; [reflexivity|].
    cbn [JS.toLowerCase String.eqb sameButCase].
    rewrite (lowerChar_sameLetter a b Hb), (IH s Htag). reflexivity.
Qed.

(** C7.  [createFromConfig] builds the adapter its tag names, the case of the
    letters of the tag set aside: a tag that is [anthropic], [openai] or
    [gemini] but for the case of its letters gives the adapter of that name
    with [config.apiKey], one that is [ollama] gives the Ollama adapter with
    [config.endpoint], and each throws when its field is absent or empty;
    any other tag throws the unknown-provider error, which quotes the tag as
    given.  Every method of the client is the method of the same name of the
    adapter it holds, whatever the class of that adapter. *)
Theorem createFromConfig_builds_adapter_of_tag :
  (forall (providerType : string) (config : ProviderConfig.t),
     let model := ProviderConfig.model config in
     (sameButCase providerType "anthropic" = true ->
        (forall key, ProviderConfig.apiKey config = Some key -> key <> EmptyString ->
           LLMClient.createFromConfig providerType config
           = Normal (mkLLMClient (AnthropicProvider.new key model))) /\
        (ProviderConfig.apiKey config = None \/
         ProviderConfig.apiKey config = Some EmptyString ->
           LLMClient.createFromConfig providerType config
           = Throw (Error "Anthropic provider requires API key"))) /\
     (sameButCase providerType "openai" = true ->
        (forall key, ProviderConfig.apiKey config = Some key -> key <> EmptyString ->
           LLMClient.createFromConfig providerType config
           = Normal (mkLLMClient (OpenAIProvider.new key model))) /\
        (ProviderConfig.apiKey config = None \/
         ProviderConfig.apiKey config = Some EmptyString ->
           LLMClient.createFromConfig providerType config
           = Throw (Error "OpenAI provider requires API key"))) /\
     (sameButCase providerType "gemini" = true ->
        (forall key, ProviderConfig.apiKey config = Some key -> key <> EmptyString ->
           LLMClient.createFromConfig providerType config
           = Normal (mkLLMClient (GeminiProvider.new key model))) /\
        (ProviderConfig.apiKey config = None \/
         ProviderConfig.apiKey config = Some EmptyString ->
           LLMClient.createFromConfig providerType config
           = Throw (Error "Gemini provider requires API key"))) /\
     (sameButCase providerType "ollama" = true ->
        (forall url, ProviderConfig.endpoint config = Some url -> url <> EmptyString ->
           LLMClient.createFromConfig providerType config
           = Normal (mkLLMClient (OllamaProvider.new url model))) /\
        (ProviderConfig.endpoint config = None \/
         ProviderConfig.endpoint config = Some EmptyString ->
           LLMClient.createFromConfig providerType config
           = Throw (Error "Ollama provider requires endpoint"))) /\
     (sameButCase providerType "anthropic" = false ->
      sameButCase providerType "openai" = false ->
      sameButCase providerType "gemini" = false ->
      sameButCase providerType "ollama" = false ->
        LLMClient.createFromConfig providerType config
        = Throw (Error ("Unknown provider type: " ++ providerType)))) /\
  (forall (P : Type) (impl : ILLMProvider P) (adapter : P) (h : Host)
          (systemPrompt userPrompt : string) (options : LLMCallOptions) (m : string),
     let client := mkLLMClient adapter in
     LLMClient.initialize h client
       = match initialize h adapter with
         | Normal adapter' => Normal (mkLLMClient adapter')
         | Throw e => Throw e
         end /\
     LLMClient.callAPI h client systemPrompt userPrompt options
       = (fst (callAPI h adapter systemPrompt userPrompt options),
          mkLLMClient (snd (callAPI h adapter systemPrompt userPrompt options))) /\
     LLMClient.testConnection h client
       = (fst (testConnection h adapter), mkLLMClient (snd (testConnection h adapter))) /\
     LLMClient.getAvailableModels h client
       = (fst (getAvailableModels h adapter),
          mkLLMClient (snd (getAvailableModels h adapter))) /\
     LLMClient.isInitialized client = isInitialized adapter /\
     LLMClient.getModel client = getModel adapter /\
     LLMClient.setModel m client = mkLLMClient (setModel m adapter)).
Proof.
  split.
  - intros providerType config model. subst model.
    unfold LLMClient.createFromConfig.
    split; [|split; [|split; [|split]]].
    + intros Htag. rewrite <- toLowerCase_sameButCase in Htag by reflexivity.
      apply String.eqb_eq in Htag. rewrite Htag.
      cbn [String.eqb Ascii.eqb Bool.eqb andb].
      split; [intros key Hk Hne; rewrite (present_Some _ _ Hk Hne)
             |intros Hk; rewrite (present_None _ Hk)]; reflexivity.
    + intros Htag. rewrite <- toLowerCase_sameButCase in Htag by reflexivity.
      apply String.eqb_eq in Htag. rewrite Htag.
      cbn [String.eqb Ascii.eqb Bool.eqb andb].
      split; [intros key Hk Hne; rewrite (present_Some _ _ Hk Hne)
             |intros Hk; rewrite (present_None _ Hk)]; reflexivity.
    + intros Htag. rewrite <- toLowerCase_sameButCase in Htag by reflexivity.
      apply String.eqb_eq in Htag. rewrite Htag.
      cbn [String.eqb Ascii.eqb Bool.eqb andb].
      split; [intros key Hk Hne; rewrite (present_Some _ _ Hk Hne)
             |intros Hk; rewrite (present_None _ Hk)]; reflexivity.
    + intros Htag. rewrite <- toLowerCase_sameButCase in Htag by reflexivity.
      apply String.eqb_eq in Htag. rewrite Htag.
      cbn [String.eqb Ascii.eqb Bool.eqb andb].
      split; [intros key Hk Hne; rewrite (present_Some _ _ Hk Hne)
             |intros Hk; rewrite (present_None _ Hk)]; reflexivity.
    + intros Ha Ho Hg Hl.
      rewrite <- toLowerCase_sameButCase in Ha, Ho, Hg, Hl by reflexivity.
      rewrite Ha, Ho, Hg, Hl. reflexivity.
  - intros P impl adapter h systemPrompt userPrompt options m client. subst client.
    unfold LLMClient.initialize, LLMClient.callAPI, LLMClient.testConnection,
      LLMClient.getAvailableModels, LLMClient.isInitialized, LLMClient.getModel,
      LLMClient.setModel, LLMClient.withProvider.
    cbn [provider providerClass providerImpl].
    destruct (callAPI h adapter systemPrompt userPrompt options),
      (testConnection h adapter), (getAvailableModels h adapter).
    repeat split; reflexivity.
Qed.

(* ====================================================================== *)
(** ** CooldownManager: the persisted index                                *)
(* ====================================================================== *)

Section CooldownFacts.

Variable pf : Platform.
Variable folder : string.

Local Abbreviation indexPath := (CooldownManager.cooldownFilePath pf folder).
Local Abbreviation persisted := (CooldownManager.persisted pf folder).

(** Loading never throws, reads the persisted entries and leaves the vault
    as it is; it reads the clock only when the index is missing or damaged. *)
Lemma loadCooldownData_run (w : World) :
  exists data w',
    CooldownManager.loadCooldownData pf folder w = (Normal data, w') /\
    entries data = persisted w /\
    sameVault w w' /\
    (reads w <= reads w' <= S (reads w))%nat /\
    (forall body, files w !! indexPath = Some (IndexJson body) ->
                  data = body /\ w' = w).
Proof.
  unfold CooldownManager.loadCooldownData, CooldownManager.persisted, sameVault.
  destruct w as [fs wr clk n out]. io_run.
  destruct (fs !! indexPath) as [[body|content]|] eqn:Hfile.
  - rewrite bool_decide_eq_true_2 by eauto. cbn [negb]. cbv beta iota.
    rewrite Hfile. cbv beta iota.
    exists body. eexists. split; [reflexivity|]. cbn.
    repeat split; auto; congruence.
  - rewrite bool_decide_eq_true_2 by eauto. cbn [negb]. cbv beta iota.
    rewrite Hfile. cbv beta iota.
    eexists _, _. split; [reflexivity|]. cbn.
    repeat split; auto; try lia; discriminate.
  - rewrite bool_decide_eq_false_2 by (intros [? ?]; discriminate). cbn [negb].
    cbv beta iota.
    eexists _, _. split; [reflexivity|]. cbn.
    repeat split; auto; try lia; discriminate.
Qed.

(** Saving throws exactly when the vault refuses writes, and then changes no
    file; otherwise the index it leaves is the data it was given. *)
Lemma saveCooldownData_run (data : CooldownData) (w : World) :
  exists r w',
    CooldownManager.saveCooldownData pf folder data w = (r, w') /\
    clock w' = clock w /\ reads w' = reads w /\ writable w' = writable w /\
    (writable w = true ->
       r = Normal tt /\ persisted w' = entries data /\
       hd_error (console w') = Some "[Weaklog] Saved cooldown data") /\
    (writable w = false -> completes r = false /\ files w' = files w).
Proof.
  unfold CooldownManager.saveCooldownData, CooldownManager.persisted.
  destruct w as [fs wr clk n out]. io_run.
  destruct (fs !! indexPath) as [content|] eqn:Hfile.
  - rewrite bool_decide_eq_true_2 by eauto. cbv beta iota. rewrite Hfile.
    cbv beta iota. destruct wr; cbv beta iota.
    + eexists _, _. split; [reflexivity|]. cbn.
      rewrite lookup_insert_eq. repeat split; auto; discriminate.
    + eexists _, _. split; [reflexivity|]. cbn.
      repeat split; auto; discriminate.
  - rewrite bool_decide_eq_false_2 by (intros [? ?]; discriminate).
    cbv beta iota. destruct wr; cbv beta iota.
    + eexists _, _. split; [reflexivity|]. cbn.
      rewrite lookup_insert_eq. repeat split; auto; discriminate.
    + eexists _, _. split; [reflexivity|]. cbn.
      repeat split; auto; discriminate.
Qed.

Lemma bind_run {A B : Type} (m : IO A) (k : A -> IO B) (w w' : World) (a : A) :
  m w = (Normal a, w') -> (m ≫= k) w = k a w'.
Proof. intros H. unfold mbind, IO_bind. rewrite H. reflexivity. Qed.

Lemma bind_throw {A B : Type} (m : IO A) (k : A -> IO B) (w w' : World) (e : JsError) :
  m w = (Throw e, w') -> (m ≫= k) w = (Throw e, w').
Proof. intros H. unfold mbind, IO_bind. rewrite H. reflexivity. Qed.

Lemma timestamp_run (w : World) :
  Io.timestamp w
  = (Normal (JsDate.isoOfTime (clock w (reads w))),
     mkWorld (files w) (writable w) (clock w) (S (reads w)) (console w)).
Proof. reflexivity. Qed.

Lemma without_idempotent (id : string) (es : list CooldownEntry) :
  without id (without id es) = without id es.
Proof.
  unfold without. induction es as [|e es IH]; [reflexivity|].
  cbn [List.filter].
  destruct (negb (String.eqb (weaklogId e) id)) eqn:He; [|exact IH].
  cbn [List.filter]. rewrite He, IH. reflexivity.
Qed.

Lemma without_absent (id : string) (es : list CooldownEntry) :
  Forall (fun e => weaklogId e <> id) (without id es).
Proof.
  unfold without. induction es as [|e es IH]; [constructor|].
  cbn [List.filter].
  destruct (String.eqb_spec (weaklogId e) id); cbn [negb]; [exact IH|].
  constructor; assumption.
Qed.

(** [unregisterEntry] throws exactly when the vault refuses writes, whether
    the id is in the index or not; when it completes, the index holds the
    entries it held before but those of the id, and the last line of the
    console says whether one was removed. *)
Lemma unregisterEntry_run (id : string) (w : World) :
  exists r w',
    CooldownManager.unregisterEntry pf folder id w = (r, w') /\
    clock w' = clock w /\ writable w' = writable w /\
    (writable w = true ->
       r = Normal tt /\ persisted w' = without id (persisted w) /\
       hd_error (console w')
       = Some (if (length (without id (persisted w)) <? length (persisted w))%nat
               then "[Weaklog] Unregistered cooldown for " ++ id
               else "[Weaklog] Entry " ++ id ++ " not found in cooldown data")) /\
    (writable w = false -> completes r = false /\ files w' = files w).
Proof.
  unfold CooldownManager.unregisterEntry.
  destruct (loadCooldownData_run w) as (data & w1 & Hload & Hdata & (Hf1 & Hw1 & Hc1) & _ & _).
  rewrite (bind_run _ _ _ _ _ Hload).
  rewrite (bind_run _ _ _ _ _ (timestamp_run w1)).
  set (w2 := mkWorld (files w1) (writable w1) (clock w1) (S (reads w1)) (console w1)).
  set (kept := List.filter _ (entries data)).
  destruct (saveCooldownData_run
              (mkData kept (JsDate.isoOfTime (clock w1 (reads w1)))) w2)
    as (r & w3 & Hsave & Hc3 & _ & Hw3 & Hok & Hfail).
  assert (Hkept : kept = without id (persisted w)).
  { subst kept. unfold without. rewrite Hdata. reflexivity. }
  change (writable w2) with (writable w1) in *.
  change (clock w2) with (clock w1) in *.
  change (files w2) with (files w1) in *.
  destruct (writable w) eqn:Hw.
  - destruct Hok as (-> & Hp & Hlog); [congruence|].
    rewrite (bind_run _ _ _ _ _ Hsave).
    cbn [entries] in Hp.
    rewrite Hdata, <- Hkept.
    destruct (length kept <? length (persisted w))%nat;
      (eexists _, _; split; [reflexivity|]); cbn [clock writable console files hd_error];
      (repeat split; try congruence;
       unfold CooldownManager.persisted in *; cbn [files]; assumption).
  - destruct Hfail as (Hr & Hfiles); [congruence|].
    destruct r as [u|e]; [discriminate|].
    rewrite (bind_throw _ _ _ _ _ Hsave).
    eexists _, _. split; [reflexivity|].
    repeat split; try congruence.
Qed.

End CooldownFacts.

Lemma filter_sublist {A : Type} (f : A -> bool) (l : list A) :
  sublist (List.filter f l) l.
Proof.
  induction l as [|x l IH]; cbn [List.filter]; [constructor|].
  destruct (f x); [apply sublist_skip|apply sublist_cons]; exact IH.
Qed.

Lemma isReady_spec (pf : Platform) (now : Z) (e : CooldownEntry) :
  CooldownManager.isReady pf now e = true <->
  exists t, dateParse pf (readyAt e) = Some t /\ t <= now.
Proof.
  unfold CooldownManager.isReady.
  destruct (dateParse pf (readyAt e)) as [t|].
  - rewrite Z.leb_le. split; [eauto|]. intros (t' & [= <-] & H). exact H.
  - split; [discriminate|]. intros (t' & H & _). discriminate.
Qed.

(* ====================================================================== *)
(** ** CooldownManager: the readiness time of a registered entry           *)
(* ====================================================================== *)

(** What [registerEntry] writes on a vault that accepts writes, with [k] the
    number of readings of the clock taken when the index has been loaded:
    [createdAt] is the reading [k], and [readyAt] is the reading [k + 1]
    moved by the cooldown days. *)
Lemma registerEntry_run (pf : Platform) (folder : string) (file : TFile) (days : Z)
    (w : World) :
  writable w = true ->
  JsDate.timeClip (addLocalDays pf (clock w (S (reads (snd (CooldownManager.loadCooldownData pf folder w))))) days) <> None ->
  let k := reads (snd (CooldownManager.loadCooldownData pf folder w)) in
  let w' := snd (CooldownManager.registerEntry pf folder file days w) in
  fst (CooldownManager.registerEntry pf folder file days w) = Normal tt /\
  CooldownManager.persisted pf folder w'
  = (List.filter (fun e => negb (String.eqb (weaklogId e) (basename file)))
       (CooldownManager.persisted pf folder w)
     ++ [ {| weaklogId := basename file;
             filePath := path file;
             createdAt := JsDate.isoOfTime (clock w k);
             cooldownDays := days;
             readyAt := JsDate.isoOfTime (addLocalDays pf (clock w (S k)) days) |} ])%list.
Proof.
  intros Hw Hclip k w'. subst k w'. revert Hclip.
  unfold CooldownManager.registerEntry.
  destruct (loadCooldownData_run pf folder w)
    as (data & w1 & Hload & Hdata & (Hf1 & Hw1 & Hc1) & _ & _).
  rewrite Hload. cbn [snd]. intros Hclip.
  rewrite (bind_run _ _ _ _ _ Hload).
  rewrite (bind_run _ _ _ _ _ (timestamp_run w1)).
  set (w2 := mkWorld (files w1) (writable w1) (clock w1) (S (reads w1)) (console w1)).
  assert (Hnew : Io.newDate w2
                 = (Normal (clock w1 (S (reads w1))),
                    mkWorld (files w1) (writable w1) (clock w1) (S (S (reads w1)))
                      (console w1))) by reflexivity.
  rewrite (bind_run _ _ _ _ _ Hnew).
  rewrite <- Hc1 in Hclip.
  destruct (JsDate.timeClip (addLocalDays pf (clock w1 (S (reads w1))) days))
    as [t|] eqn:Ht; [|contradiction].
  assert (t = addLocalDays pf (clock w1 (S (reads w1))) days) as ->.
  { unfold JsDate.timeClip in Ht.
    destruct (Z.abs _ <=? _); congruence. }
  set (w3 := mkWorld _ _ _ (S (S (reads w1))) _).
  assert (Hiso : Io.lift (JsDate.toISOString
                   (Some (addLocalDays pf (clock w1 (S (reads w1))) days))) w3
                 = (Normal (JsDate.isoOfTime
                       (addLocalDays pf (clock w1 (S (reads w1))) days)), w3))
    by reflexivity.
  rewrite (bind_run _ _ _ _ _ Hiso).
  rewrite (bind_run _ _ _ _ _ (timestamp_run w3)).
  match goal with
  | |- context [CooldownManager.saveCooldownData pf folder ?d ≫= _] =>
      destruct (saveCooldownData_run pf folder d
                  (mkWorld (files w3) (writable w3) (clock w3) (S (reads w3)) (console w3)))
        as (r & w4 & Hsave & _ & _ & _ & Hok & _)
  end.
  destruct Hok as (-> & Hp & _); [cbn; congruence|].
  rewrite (bind_run _ _ _ _ _ Hsave).
  cbn [fst snd Io.log entries] in *.
  split; [reflexivity|].
  unfold CooldownManager.persisted in *. cbn [files]. rewrite Hp.
  rewrite Hdata. unfold CooldownManager.persisted. rewrite Hc1. reflexivity.
Qed.

(** The failing input of C6: on an empty vault, with a clock that advances by
    one millisecond between two readings, the entry registered for seven days
    has a [readyAt] one millisecond after its [createdAt] plus seven days. *)
Lemma registerEntry_readyAt_off_createdAt :
  let w := mkWorld ∅ true (fun k => 1769472000000 + Z.of_nat k) 0 [] in
  let file := mkTFile "Weaklog/02_Cooling/2026-01-27_001.md" "2026-01-27_001" in
  let w' := snd (CooldownManager.registerEntry utcPlatform "Weaklog" file 7 w) in
  CooldownManager.persisted utcPlatform "Weaklog" w'
  = [ {| weaklogId := "2026-01-27_001";
         filePath := "Weaklog/02_Cooling/2026-01-27_001.md";
         createdAt := "2026-01-27T00:00:00.001Z";
         cooldownDays := 7;
         readyAt := "2026-02-03T00:00:00.002Z" |} ] /\
  JsDate.parseISO "2026-01-27T00:00:00.001Z" = Some 1769472000001 /\
  JsDate.parseISO "2026-02-03T00:00:00.002Z"
  = Some (1769472000001 + 7 * JsDate.msPerDay + 1).
Proof.
  vm_compute. repeat split; reflexivity.
Qed.

(* ====================================================================== *)
(** ** FileManager: the identifier and the stage of an existing entry      *)
(* ====================================================================== *)

(** The identifier [findFree] returns names no file of the raw folder. *)
Lemma findFree_free (pf : Platform) (folder dateStr : string) (nextNum : Z)
    (remaining : nat) (attempt : Z) (id0 id : string) (w w' : World) :
  FileManager.findFree pf folder dateStr nextNum remaining attempt id0 w = (Normal id, w') ->
  w' = w /\
  files w !! normalizePath pf (FileManager.rawFolder folder ++ "/" ++ id ++ ".md") = None.
Proof.
  revert attempt id0.
  induction remaining as [|remaining IH]; intros attempt id0; cbn [FileManager.findFree].
  - discriminate.
  - unfold mbind, IO_bind, Io.pathExists.
    destruct (files w !! normalizePath pf (FileManager.rawFolder folder ++ "/" ++ id0 ++ ".md"))
      as [body|] eqn:Hfile.
    + rewrite bool_decide_eq_true_2 by eauto. cbn [negb]. apply IH.
    + rewrite bool_decide_eq_false_2 by (intros [? ?]; discriminate). cbn [negb].
      intros [= <- <-]. auto.
Qed.

(** The failing input of C5: the first entry of the day has been moved to the
    cooling folder, as the capture dialog does at once; the raw folder is
    empty again, and the next identifier generated that day is the identifier
    of that entry. *)
Lemma generateWeaklogId_reuses_id_outside_raw :
  let w := mkWorld {[ "Weaklog/02_Cooling/2026-01-27_001.md" := Text "first entry" ]}
             true (fun _ => 1769472000000) 0 [] in
  fst (FileManager.generateWeaklogId utcPlatform "Weaklog" w) = Normal "2026-01-27_001" /\
  fst (Vault.getMarkdownFiles w)
  = Normal [ {| path := "Weaklog/02_Cooling/2026-01-27_001.md";
                basename := "2026-01-27_001" |} ].
Proof.
  vm_compute. split; reflexivity.
Qed.

(** Whatever the vault, an identifier that [generateWeaklogId] returns names
    no file of the raw folder: the uniqueness the function does establish. *)
Lemma generateWeaklogId_free_in_raw (pf : Platform) (folder id : string) (w w' : World) :
  FileManager.generateWeaklogId pf folder w = (Normal id, w') ->
  files w !! normalizePath pf (FileManager.rawFolder folder ++ "/" ++ id ++ ".md") = None.
Proof.
  unfold FileManager.generateWeaklogId.
  unfold mbind at 1, IO_bind at 1. cbn [Io.newDate].
  destruct (localDate pf (clock w (reads w))) as [[year month] day].
  unfold mbind at 1, IO_bind at 1. cbn [Vault.getMarkdownFiles files].
  intros H. apply findFree_free in H. destruct H as [_ H]. exact H.
Qed.

(* ====================================================================== *)
(** * Further properties of the code                                       *)
(* ====================================================================== *)

(** ** The redactions of [sanitizeError] *)

Section PatternFacts.

Variable ps : list (ascii -> bool).

Lemma mayHead_complete (qs : list (ascii -> bool)) (r t : string) :
  Pattern.heads qs (r ++ t) = true -> Pattern.mayHead qs r = true.
Proof.
  revert r. induction qs as [|p qs IH]; intros r H; [destruct r; reflexivity|].
  destruct r as [|c r]; [reflexivity|]. cbn in *.
  apply andb_true_iff in H as [Hp Hq]. rewrite Hp. cbn. auto.
Qed.

Lemma occurs_cons (c : ascii) (s : string) :
  Pattern.occurs ps (String c s) = Pattern.heads ps (String c s) || Pattern.occurs ps s.
Proof. reflexivity. Qed.

Lemma occurs_drop (n : nat) (s : string) :
  Pattern.occurs ps s = false -> Pattern.occurs ps (Retry.drop n s) = false.
Proof.
  revert s. induction n as [|n IH]; intros s H; [destruct s; exact H|].
  destruct s as [|c s]; [exact H|]. cbn [Retry.drop]. apply IH.
  rewrite occurs_cons in H. apply orb_false_iff in H. tauto.
Qed.

Lemma clear_app (r t : string) :
  Pattern.clear ps r = true -> Pattern.occurs ps t = false ->
  Pattern.occurs ps (r ++ t) = false.
Proof.
  induction r as [|c r IH]; intros Hr Ht; [exact Ht|].
  cbn [Pattern.clear] in Hr. apply andb_true_iff in Hr as [Hc Hr].
  change (String c r ++ t) with (String c (r ++ t)). rewrite occurs_cons.
  apply orb_false_iff. split; [|auto].
  destruct (Pattern.heads ps (String c (r ++ t))) eqn:E; [|reflexivity].
  apply (mayHead_complete ps (String c r) t) in E. rewrite E in Hc. discriminate.
Qed.

End PatternFacts.

Section ReplaceFacts.

Variable matchAt : string -> option nat.
Variable r : string.

Local Abbreviation out := (Retry.replaceAll matchAt r 0).

Lemma replaceAll_skip (n : nat) (s : string) :
  Retry.replaceAll matchAt r n s = out (Retry.drop n s).
Proof.
  revert s. induction n as [|n IH]; intros s; [destruct s; reflexivity|].
  destruct s as [|c s]; [reflexivity|]. cbn [Retry.replaceAll Retry.drop]. apply IH.
Qed.

Lemma out_cons (c : ascii) (s : string) :
  out (String c s) =
    match matchAt (String c s) with
    | Some (S len) => r ++ out (Retry.drop len s)
    | _ => String c (out s)
    end.
Proof.
  cbn [Retry.replaceAll]. destruct (matchAt (String c s)) as [[|len]|]; try reflexivity.
  rewrite replaceAll_skip. reflexivity.
Qed.

Lemma length_drop (n : nat) (s : string) :
  (String.length (Retry.drop n s) <= String.length s)%nat.
Proof.
  revert s. induction n as [|n IH]; intros s; [destruct s; cbn; lia|].
  destruct s as [|c s]; [cbn; lia|]. cbn [Retry.drop String.length]. specialize (IH s). lia.
Qed.

(** The characters a match can begin with *)
Variable h : ascii -> bool.
Hypothesis matchAt_head : forall c s n, matchAt (String c s) = Some n -> h c = true.

Lemma heads_out (ps : list (ascii -> bool)) :
  Pattern.compatible h r ps = true ->
  forall s, Pattern.heads ps (out s) = true -> Pattern.heads ps s = true.
Proof.
  induction ps as [|p ps IH]; intros Hc s H; [reflexivity|].
  cbn [Pattern.compatible] in Hc. apply andb_true_iff in Hc as [Hhere Hrest].
  destruct s as [|c s]; [cbn in H; discriminate|].
  rewrite out_cons in H.
  destruct (matchAt (String c s)) as [[|len]|] eqn:E.
  - cbn in *. apply andb_true_iff in H as [Hp Hq]. rewrite Hp. cbn. auto.
  - apply mayHead_complete in H. rewrite H in Hhere.
    change (negb true) with false in Hhere. rewrite orb_false_l in Hhere.
    apply andb_true_iff in Hhere as [Hnil Hall].
    destruct ps; [|discriminate]. cbn. rewrite andb_true_r.
    rewrite forallb_forall in Hall. specialize (Hall c (allAscii_complete c)).
    rewrite (matchAt_head _ _ _ E) in Hall. exact Hall.
  - cbn in *. apply andb_true_iff in H as [Hp Hq]. rewrite Hp. cbn. auto.
Qed.

Variable ps : list (ascii -> bool).
Hypothesis compatible_ps : Pattern.compatible h r ps = true.
Hypothesis clear_r : Pattern.clear ps r = true.

(** A redaction brings no run of [ps] into a text that has none. *)
Lemma occurs_out_preserved (s : string) :
  Pattern.occurs ps s = false -> Pattern.occurs ps (out s) = false.
Proof.
  remember (String.length s) as n eqn:Hn.
  assert (Hle : (String.length s <= n)%nat) by lia. clear Hn.
  revert s Hle. induction n as [|n IH]; intros s Hle H.
  - destruct s; [exact H|cbn in Hle; lia].
  - destruct s as [|c s]; [exact H|]. cbn [String.length] in Hle.
    pose proof H as H0. rewrite occurs_cons in H0. apply orb_false_iff in H0 as [Hh Ho].
    pose proof (heads_out ps compatible_ps (String c s)) as Ht.
    rewrite out_cons in *.
    destruct (matchAt (String c s)) as [[|len]|] eqn:E.
    + rewrite occurs_cons. apply orb_false_iff. split; [|apply IH; [lia|exact Ho]].
      destruct (Pattern.heads ps (String c (out s))); [|reflexivity].
      rewrite Ht in Hh by reflexivity. discriminate.
    + apply clear_app; [exact clear_r|]. apply IH.
      * pose proof (length_drop len s). lia.
      * apply occurs_drop. exact Ho.
    + rewrite occurs_cons. apply orb_false_iff. split; [|apply IH; [lia|exact Ho]].
      destruct (Pattern.heads ps (String c (out s))); [|reflexivity].
      rewrite Ht in Hh by reflexivity. discriminate.
Qed.

(** The redaction of the runs of [ps] themselves leaves none. *)
Hypothesis matchAt_complete :
  forall s, Pattern.heads ps s = true -> exists len, matchAt s = Some (S len).

Hypothesis ps_nonempty : Pattern.heads ps EmptyString = false.

Lemma occurs_out_removed (s : string) : Pattern.occurs ps (out s) = false.
Proof.
  remember (String.length s) as n eqn:Hn.
  assert (Hle : (String.length s <= n)%nat) by lia. clear Hn.
  revert s Hle. induction n as [|n IH]; intros s Hle.
  - destruct s; [|cbn in Hle; lia]. cbn. rewrite ps_nonempty. reflexivity.
  - destruct s as [|c s]; [cbn; rewrite ps_nonempty; reflexivity|].
    cbn [String.length] in Hle.
    pose proof (heads_out ps compatible_ps (String c s)) as Ht.
    rewrite out_cons in *.
    destruct (matchAt (String c s)) as [[|len]|] eqn:E.
    + rewrite occurs_cons. apply orb_false_iff. split; [|apply IH; lia].
      destruct (Pattern.heads ps (String c (out s))); [|reflexivity].
      destruct (matchAt_complete (String c s) (Ht eq_refl)) as [len E']. congruence.
    + apply clear_app; [exact clear_r|]. apply IH.
      pose proof (length_drop len s). lia.
    + rewrite occurs_cons. apply orb_false_iff. split; [|apply IH; lia].
      destruct (Pattern.heads ps (String c (out s))); [|reflexivity].
      destruct (matchAt_complete (String c s) (Ht eq_refl)) as [len E']. congruence.
Qed.

End ReplaceFacts.

Lemma heads_ofKey (prefix : string) (class : ascii -> bool) (s : string) :
  Pattern.heads (Pattern.ofKey prefix class) s
  = JS.startsWith s prefix
    && match Retry.drop (String.length prefix) s with
       | String c _ => class c
       | EmptyString => false
       end.
Proof.
  revert s. induction prefix as [|a prefix IH]; intros s.
  - destruct s as [|c s]; [reflexivity|]. cbn. apply andb_true_r.
  - destruct s as [|b s]; [reflexivity|].
    change (Pattern.ofKey (String a prefix) class)
      with (Ascii.eqb a :: Pattern.ofKey prefix class).
    cbn [Pattern.heads JS.startsWith String.length Retry.drop].
    rewrite IH. apply andb_assoc.
Qed.

Lemma matchKey_heads (prefix : string) (class : ascii -> bool) (s : string) :
  Pattern.heads (Pattern.ofKey prefix class) s = true <->
  exists len, Retry.matchKey prefix class s = Some (S len).
Proof.
  rewrite heads_ofKey. unfold Retry.matchKey.
  destruct (JS.startsWith s prefix); cbn [andb]; [|split; [discriminate|intros [? ?]; discriminate]].
  destruct (Retry.drop (String.length prefix) s) as [|c rest]; cbn [Retry.countWhile].
  - split; [discriminate|intros [? ?]; discriminate].
  - destruct (class c).
    + split; [intros _|reflexivity]. rewrite Nat.add_succ_r. eauto.
    + split; [discriminate|intros [? ?]; discriminate].
Qed.

Lemma matchKey_positive (prefix : string) (class : ascii -> bool) (s : string) (n : nat) :
  Retry.matchKey prefix class s = Some n -> exists len, n = S len.
Proof.
  unfold Retry.matchKey. destruct (JS.startsWith s prefix); [|discriminate].
  destruct (Retry.countWhile class _); [discriminate|].
  intros [= <-]. rewrite Nat.add_succ_r. eauto.
Qed.

Lemma exposesKey_occurs (prefix : string) (class : ascii -> bool) (s : string) :
  exposesKey prefix class s = Pattern.occurs (Pattern.ofKey prefix class) s.
Proof.
  induction s as [|c s IH].
  - cbn [exposesKey Pattern.occurs]. rewrite orb_false_r.
    destruct (Retry.matchKey prefix class EmptyString) as [n|] eqn:E.
    + destruct (matchKey_positive _ _ _ _ E) as [len ->].
      symmetry. apply matchKey_heads. eauto.
    + destruct (Pattern.heads _ _) eqn:E'; [|reflexivity].
      apply matchKey_heads in E' as [len E']. congruence.
  - cbn [exposesKey Pattern.occurs]. rewrite <- IH.
    destruct (Retry.matchKey prefix class (String c s)) as [n|] eqn:E.
    + destruct (matchKey_positive _ _ _ _ E) as [len ->].
      assert (H : Pattern.heads (Pattern.ofKey prefix class) (String c s) = true)
        by (apply matchKey_heads; eauto).
      rewrite H. reflexivity.
    + destruct (Pattern.heads _ _) eqn:E'; [|reflexivity].
      apply matchKey_heads in E' as [len E']. congruence.
Qed.

Lemma matchHeader_head (name : string) (a : ascii) (rest : string) (c : ascii) (s : string) (n : nat) :
  name = String a rest ->
  Retry.matchHeader name (String c s) = Some n -> Ascii.eqb a (JS.lowerChar c) = true.
Proof.
  intros ->. unfold Retry.matchHeader.
  destruct (Retry.prefixNoCase (String a rest) (String c s)) eqn:E; [|discriminate].
  intros _. cbn in E. apply andb_true_iff in E. tauto.
Qed.

Lemma matchBearer_head (c : ascii) (s : string) (n : nat) :
  Retry.matchBearer (String c s) = Some n -> Ascii.eqb "b" (JS.lowerChar c) = true.
Proof.
  unfold Retry.matchBearer.
  destruct (Retry.prefixNoCase "bearer" (String c s)) eqn:E; [|discriminate].
  intros _. cbn in E. apply andb_true_iff in E. tauto.
Qed.

(** The key pass of an adapter leaves no key, and a later pass brings none. *)
Lemma key_pass (prefix : string) (class : ascii -> bool) (r s : string) :
  Pattern.compatible (fun _ => true) r (Pattern.ofKey prefix class) = true ->
  Pattern.clear (Pattern.ofKey prefix class) r = true ->
  exposesKey prefix class (Retry.replaceAll (Retry.matchKey prefix class) r 0 s) = false.
Proof.
  intros Hc Hr. rewrite exposesKey_occurs.
  apply (occurs_out_removed _ r (fun _ => true)); auto.
  - intros t Ht. apply matchKey_heads. exact Ht.
  - rewrite heads_ofKey. destruct prefix; reflexivity.
Qed.

Lemma later_pass (prefix : string) (class : ascii -> bool) (matchAt : string -> option nat)
    (h : ascii -> bool) (r s : string) :
  (forall c t n, matchAt (String c t) = Some n -> h c = true) ->
  Pattern.compatible h r (Pattern.ofKey prefix class) = true ->
  Pattern.clear (Pattern.ofKey prefix class) r = true ->
  exposesKey prefix class s = false ->
  exposesKey prefix class (Retry.replaceAll matchAt r 0 s) = false.
Proof.
  intros Hh Hc Hr. rewrite !exposesKey_occurs.
  apply (occurs_out_preserved matchAt r h); auto.
Qed.

Lemma exposesKey_app (prefix : string) (class : ascii -> bool) (r t : string) :
  Pattern.clear (Pattern.ofKey prefix class) r = true ->
  exposesKey prefix class t = false -> exposesKey prefix class (r ++ t) = false.
Proof. rewrite !exposesKey_occurs. apply clear_app. Qed.

Lemma Anthropic_sanitizeError_clean (e : JsError) :
  exposesKey "sk-ant-" Retry.isKeyChar (AnthropicProvider.sanitizeError e) = false.
Proof.
  unfold AnthropicProvider.sanitizeError, Retry.redactAuthorization.
  destruct (instanceofError e); [|vm_compute; reflexivity].
  apply (later_pass _ _ _ (fun c => Ascii.eqb "a" (JS.lowerChar c))).
  - intros c t n. apply (matchHeader_head "authorization" "a" "uthorization"). reflexivity.
  - vm_compute. reflexivity.
  - vm_compute. reflexivity.
  - apply key_pass; vm_compute; reflexivity.
Qed.

Lemma OpenAI_sanitizeError_clean (e : JsError) :
  exposesKey "sk-" Retry.isAlnum (OpenAIProvider.sanitizeError e) = false.
Proof.
  unfold OpenAIProvider.sanitizeError, Retry.redactAuthorization.
  destruct (instanceofError e); [|vm_compute; reflexivity].
  apply (later_pass _ _ _ (fun c => Ascii.eqb "b" (JS.lowerChar c))).
  - intros c t n. apply matchBearer_head.
  - vm_compute. reflexivity.
  - vm_compute. reflexivity.
  - apply (later_pass _ _ _ (fun c => Ascii.eqb "a" (JS.lowerChar c))).
    + intros c t n. apply (matchHeader_head "authorization" "a" "uthorization"). reflexivity.
    + vm_compute. reflexivity.
    + vm_compute. reflexivity.
    + apply key_pass; vm_compute; reflexivity.
Qed.

(** The pattern is seen where a key stands.  The Gemini adapter is left out of
    the two results above: its redaction of the authorization header can join
    [AIz] to the [a] of the replacement, which the key pattern matches. *)
Example exposesKey_sees_key :
  exposesKey "sk-ant-" Retry.isKeyChar "401 {x-api-key: sk-ant-api03-aBc_9}" = true /\
  exposesKey "sk-ant-" Retry.isKeyChar "401 {x-api-key: sk-ant-}" = false /\
  exposesKey "sk-" Retry.isAlnum "key sk-proj" = true /\
  Pattern.compatible (fun c => Ascii.eqb "a" (JS.lowerChar c)) "authorization: [REDACTED]"
    (Pattern.ofKey "AIza" Retry.isKeyChar) = false /\
  exposesKey "AIza" Retry.isKeyChar
    (GeminiProvider.sanitizeError (Error "AIzAuthorization: secret")) = true.
Proof. vm_compute. repeat split; reflexivity. Qed.

Lemma loop_throws {Obs : Type} (attemptBody : Obs -> Completion string)
    (onFailure : Z -> JsError -> Completion Z) (env : nat -> Obs)
    (remaining : nat) (attempt : Z) (k : nat) (e : JsError) :
  result (Retry.loop attemptBody onFailure env remaining attempt k) = Throw e ->
  e = Error "API call failed: Maximum retries exceeded" \/
  exists a err, onFailure a err = Throw e.
Proof.
  revert attempt k. induction remaining as [|n IH]; intros attempt k; cbn [Retry.loop].
  - cbn. intros [= <-]. auto.
  - destruct (attemptBody (env k)) as [text|err]; [cbn; discriminate|].
    destruct (onFailure attempt err) as [d|x] eqn:E.
    + cbn [result]. apply IH.
    + cbn. intros [= <-]. eauto.
Qed.

Lemma Anthropic_onFailure_clean (a : Z) (err e : JsError) :
  AnthropicProvider.onFailure a err = Throw e ->
  exposesKey "sk-ant-" Retry.isKeyChar (message e) = false.
Proof.
  unfold AnthropicProvider.onFailure.
  destruct (AnthropicProvider.authFailure err); [intros [= <-]; vm_compute; reflexivity|].
  destruct (AnthropicProvider.rateLimitFailure err).
  { destruct (a =? Retry.maxRetries); intros [= <-]. vm_compute. reflexivity. }
  destruct (AnthropicProvider.timeoutFailure err).
  { destruct (a =? Retry.maxRetries); intros [= <-]. vm_compute. reflexivity. }
  destruct (a =? Retry.maxRetries); intros [= <-].
  change (message (Error _))
    with ("API call failed after 3 attempts: " ++ AnthropicProvider.sanitizeError err).
  apply exposesKey_app; [vm_compute; reflexivity|apply Anthropic_sanitizeError_clean].
Qed.

Lemma Anthropic_testFailure_clean (err : JsError) :
  exposesKey "sk-ant-" Retry.isKeyChar (message (AnthropicProvider.testFailure err)) = false.
Proof.
  unfold AnthropicProvider.testFailure.
  destruct (AnthropicProvider.authFailure err); [vm_compute; reflexivity|].
  destruct (AnthropicProvider.rateLimitFailure err); [vm_compute; reflexivity|].
  destruct (_ && _); [vm_compute; reflexivity|].
  change (message (Error _))
    with ("Connection test failed: " ++ AnthropicProvider.sanitizeError err).
  apply exposesKey_app; [vm_compute; reflexivity|apply Anthropic_sanitizeError_clean].
Qed.

(** A text that holds a key holds a match of the pattern where the key
    begins, when the key itself begins with a match. *)
Lemma startsWith_trans (s k p : string) :
  JS.startsWith s k = true -> JS.startsWith k p = true -> JS.startsWith s p = true.
Proof.
  revert s k. induction p as [|a p IH]; intros s k Hsk Hkp; [reflexivity|].
  destruct k as [|b k]; [discriminate|]. destruct s as [|c s]; [discriminate|].
  cbn [JS.startsWith] in *.
  apply andb_true_iff in Hsk as [Hbc Hsk]. apply andb_true_iff in Hkp as [Hab Hkp].
  apply Ascii.eqb_eq in Hbc, Hab. subst. rewrite Ascii.eqb_refl. cbn [andb].
  eapply IH; eassumption.
Qed.

Lemma startsWith_drop (n : nat) (s k : string) :
  JS.startsWith s k = true -> JS.startsWith (Retry.drop n s) (Retry.drop n k) = true.
Proof.
  revert s k. induction n as [|n IH]; intros s k H; [exact H|].
  destruct k as [|b k]; [destruct s; reflexivity|].
  destruct s as [|c s]; [discriminate|].
  cbn [JS.startsWith] in H. apply andb_true_iff in H as [_ H].
  cbn [Retry.drop]. apply IH, H.
Qed.

Lemma matchKey_startsWith (prefix : string) (class : ascii -> bool) (key s : string) :
  Retry.matchKey prefix class key <> None ->
  JS.startsWith s key = true ->
  Retry.matchKey prefix class s <> None.
Proof.
  unfold Retry.matchKey. intros Hkey Hs.
  destruct (JS.startsWith key prefix) eqn:Hp; [|contradiction].
  rewrite (startsWith_trans _ _ _ Hs Hp).
  pose proof (startsWith_drop (String.length prefix) _ _ Hs) as Hd.
  destruct (Retry.drop (String.length prefix) key) as [|c r]; [contradiction|].
  destruct (Retry.drop (String.length prefix) s) as [|c' r']; [discriminate|].
  cbn [JS.startsWith] in Hd. apply andb_true_iff in Hd as [Hc _].
  apply Ascii.eqb_eq in Hc. subst c'.
  cbn [Retry.countWhile] in *. destruct (class c); [discriminate|contradiction].
Qed.

Lemma exposesKey_includes (prefix : string) (class : ascii -> bool) (key text : string) :
  Retry.matchKey prefix class key <> None ->
  exposesKey prefix class text = false ->
  JS.includes text key = false.
Proof.
  intros Hkey. induction text as [|c text IH]; intros Hclean.
  - cbn [JS.includes]. cbn [exposesKey] in Hclean.
    destruct (JS.startsWith EmptyString key) eqn:Hs; [|reflexivity].
    pose proof (matchKey_startsWith _ _ _ _ Hkey Hs) as Hm.
    destruct (Retry.matchKey prefix class EmptyString); [discriminate|contradiction].
  - cbn [JS.includes]. cbn [exposesKey] in Hclean.
    destruct (JS.startsWith (String c text) key) eqn:Hs.
    + pose proof (matchKey_startsWith _ _ _ _ Hkey Hs) as Hm.
      destruct (Retry.matchKey prefix class (String c text)); [discriminate|contradiction].
    + destruct (Retry.matchKey prefix class (String c text)); [discriminate|].
      apply IH, Hclean.
Qed.

(** X1.  What the Anthropic adapter redacts.  No position of a message that
    [sanitizeError] returns begins a match of [/sk-ant-[a-zA-Z0-9-_]+/]; the
    same holds of the message of every error that [testConnection] raises
    and of every error that [callAPI] raises, but for the error of
    [initialize], which [callAPI] raises as it is when the adapter has no
    client yet.  A text without a match holds no key that begins with a
    match: so the key of the adapter, when it is of that form, is in none
    of these messages.  A key of another form is not looked for: it stays
    in the message. *)
Theorem Anthropic_errors_expose_no_key :
  (forall error,
     exposesKey "sk-ant-" Retry.isKeyChar (AnthropicProvider.sanitizeError error) = false) /\
  (forall h p systemPrompt userPrompt options e,
     result (fst (AnthropicProvider.callAPI h p systemPrompt userPrompt options)) = Throw e ->
     (AnthropicProvider.client p = false /\ AnthropicProvider.initialize h p = Throw e) \/
     exposesKey "sk-ant-" Retry.isKeyChar (message e) = false) /\
  (forall h p e,
     fst (AnthropicProvider.testConnection h p) = Throw e ->
     exposesKey "sk-ant-" Retry.isKeyChar (message e) = false) /\
  (forall p text,
     Retry.matchKey "sk-ant-" Retry.isKeyChar (AnthropicProvider.apiKey p) <> None ->
     exposesKey "sk-ant-" Retry.isKeyChar text = false ->
     JS.includes text (AnthropicProvider.apiKey p) = false) /\
  AnthropicProvider.sanitizeError (Error "rejected key 7f3a9c1e, not sk-ant-api03-Ab_9")
  = "rejected key 7f3a9c1e, not [API_KEY_REDACTED]".
Proof.
  split; [exact Anthropic_sanitizeError_clean|split; [|split; [|split]]];
    [| | |vm_compute; reflexivity].
  - intros h p sp up o e. unfold AnthropicProvider.callAPI.
    destruct (AnthropicProvider.client p) eqn:Hc.
    + cbn [fst]. intros E. right.
      apply loop_throws in E as [->|(a & err & E)]; [vm_compute; reflexivity|].
      exact (Anthropic_onFailure_clean _ _ _ E).
    + destruct (AnthropicProvider.initialize h p) as [p'|x] eqn:Ei.
      * cbn [fst]. intros E. right.
        apply loop_throws in E as [->|(a & err & E)]; [vm_compute; reflexivity|].
        exact (Anthropic_onFailure_clean _ _ _ E).
      * cbn [fst result]. intros [= <-]. left. split; reflexivity.
  - intros h p e. unfold AnthropicProvider.testConnection.
    destruct (if AnthropicProvider.client p then _ else _) as [p'|x].
    + destruct (probe h _); cbn [fst]; [|discriminate].
      intros [= <-]. apply Anthropic_testFailure_clean.
    + cbn [fst]. intros [= <-]. apply Anthropic_testFailure_clean.
  - intros p text. apply exposesKey_includes.
Qed.

(** The error of [initialize] reaches the caller of [callAPI] with the
    message of the vendor as it is. *)
Example Anthropic_initialize_error_as_it_is :
  let h := mkHost (fun _ => true) (fun _ _ => TimedOut) (fun _ => None)
             (fun _ _ => FetchAborted) (TagsOk None)
             (fun key => Some (Error ("bad key " ++ key))) in
  result (fst (AnthropicProvider.callAPI h (AnthropicProvider.new "sk-ant-abc" "claude")
                 "system" "user" noOptions))
  = Throw (Error "Failed to initialize Anthropic provider: bad key sk-ant-abc").
Proof. reflexivity. Qed.

Lemma OpenAI_onFailure_clean (a : Z) (err e : JsError) :
  OpenAIProvider.onFailure a err = Throw e ->
  exposesKey "sk-" Retry.isAlnum (message e) = false.
Proof.
  unfold OpenAIProvider.onFailure.
  destruct (OpenAIProvider.authFailure err); [intros [= <-]; vm_compute; reflexivity|].
  destruct (OpenAIProvider.rateLimitFailure err).
  { destruct (a =? Retry.maxRetries); intros [= <-]. vm_compute. reflexivity. }
  destruct (OpenAIProvider.timeoutFailure err).
  { destruct (a =? Retry.maxRetries); intros [= <-]. vm_compute. reflexivity. }
  destruct (OpenAIProvider.quotaFailure err); [intros [= <-]; vm_compute; reflexivity|].
  destruct (a =? Retry.maxRetries); intros [= <-].
  change (message (Error _))
    with ("API call failed after 3 attempts: " ++ OpenAIProvider.sanitizeError err).
  apply exposesKey_app; [vm_compute; reflexivity|apply OpenAI_sanitizeError_clean].
Qed.

Lemma OpenAI_testFailure_clean (err : JsError) :
  exposesKey "sk-" Retry.isAlnum (message (OpenAIProvider.testFailure err)) = false.
Proof.
  unfold OpenAIProvider.testFailure.
  destruct (OpenAIProvider.authFailure err); [vm_compute; reflexivity|].
  destruct (OpenAIProvider.rateLimitFailure err); [vm_compute; reflexivity|].
  destruct (OpenAIProvider.quotaFailure err); [vm_compute; reflexivity|].
  destruct (_ && _); [vm_compute; reflexivity|].
  change (message (Error _))
    with ("Connection test failed: " ++ OpenAIProvider.sanitizeError err).
  apply exposesKey_app; [vm_compute; reflexivity|apply OpenAI_sanitizeError_clean].
Qed.

(** X2.  What the OpenAI adapter redacts.  No position of a message that
    [sanitizeError] returns begins a match of [/sk-[a-zA-Z0-9]+/]; the same
    holds of the message of every error that [testConnection] raises and of
    every error that [callAPI] raises, but for the error of [initialize],
    which [callAPI] raises as it is when the adapter has no client yet.  A
    text without a match holds no key that begins with a match: so the key
    of the adapter, when it begins with [sk-] and a letter or digit, is
    whole in none of these messages.  The match ends at the first hyphen or
    underscore of a key, and what follows it stays in the message. *)
Theorem OpenAI_errors_expose_no_key :
  (forall error,
     exposesKey "sk-" Retry.isAlnum (OpenAIProvider.sanitizeError error) = false) /\
  (forall h p systemPrompt userPrompt options e,
     result (fst (OpenAIProvider.callAPI h p systemPrompt userPrompt options)) = Throw e ->
     (OpenAIProvider.client p = false /\ OpenAIProvider.initialize h p = Throw e) \/
     exposesKey "sk-" Retry.isAlnum (message e) = false) /\
  (forall h p e,
     fst (OpenAIProvider.testConnection h p) = Throw e ->
     exposesKey "sk-" Retry.isAlnum (message e) = false) /\
  (forall p text,
     Retry.matchKey "sk-" Retry.isAlnum (OpenAIProvider.apiKey p) <> None ->
     exposesKey "sk-" Retry.isAlnum text = false ->
     JS.includes text (OpenAIProvider.apiKey p) = false) /\
  OpenAIProvider.sanitizeError (Error "rejected key sk-proj-AbCd1234_efGH-5678ijkl")
  = "rejected key [API_KEY_REDACTED]-AbCd1234_efGH-5678ijkl".
Proof.
  split; [exact OpenAI_sanitizeError_clean|split; [|split; [|split]]].
  - intros h p sp up o e. unfold OpenAIProvider.callAPI.
    destruct (OpenAIProvider.client p) eqn:Hc.
    + cbn [fst]. intros E. right.
      apply loop_throws in E as [->|(a & err & E)]; [vm_compute; reflexivity|].
      exact (OpenAI_onFailure_clean _ _ _ E).
    + destruct (OpenAIProvider.initialize h p) as [p'|x] eqn:Ei.
      * cbn [fst]. intros E. right.
        apply loop_throws in E as [->|(a & err & E)]; [vm_compute; reflexivity|].
        exact (OpenAI_onFailure_clean _ _ _ E).
      * cbn [fst result]. intros [= <-]. left. split; reflexivity.
  - intros h p e. unfold OpenAIProvider.testConnection.
    destruct (if OpenAIProvider.client p then _ else _) as [p'|x].
    + destruct (probe h _); cbn [fst]; [|discriminate].
      intros [= <-]. apply OpenAI_testFailure_clean.
    + cbn [fst]. intros [= <-]. apply OpenAI_testFailure_clean.
  - intros p text. apply exposesKey_includes.
  - vm_compute. reflexivity.
Qed.

(** ** The time spent in backoff *)

Lemma run_totalSleep {Obs : Type} (attemptBody : Obs -> Completion string)
    (onFailure : Z -> JsError -> Completion Z) (env : nat -> Obs) (b1 b2 : Z) :
  0 <= b1 -> 0 <= b2 ->
  (forall e d, onFailure 1 e = Normal d -> 0 <= d <= b1) ->
  (forall e d, onFailure 2 e = Normal d -> 0 <= d <= b2) ->
  (forall e d, onFailure 3 e = Normal d -> False) ->
  0 <= totalSleep (Retry.run attemptBody onFailure env) <= b1 + b2.
Proof.
  intros Hb1 Hb2 H1 H2 H3. unfold Retry.run, totalSleep.
  change (Z.to_nat Retry.maxRetries) with 3%nat. cbn [Retry.loop].
  destruct (attemptBody (env 0%nat)) as [t|e1]; [cbn; lia|].
  destruct (onFailure 1 e1) as [d1|x] eqn:E1; [|cbn; lia].
  specialize (H1 _ _ E1).
  change (1 + 1) with 2.
  destruct (attemptBody (env 1%nat)) as [t|e2]; [cbn; lia|].
  destruct (onFailure 2 e2) as [d2|x] eqn:E2; [|cbn; lia].
  specialize (H2 _ _ E2).
  change (2 + 1) with 3.
  destruct (attemptBody (env 2%nat)) as [t|e3]; [cbn; lia|].
  destruct (onFailure 3 e3) as [d3|x] eqn:E3; [|cbn; lia].
  destruct (H3 _ _ E3).
Qed.

Ltac backoff_cases :=
  repeat match goal with
         | |- context [if ?b then _ else _] => destruct b
         end;
  try discriminate; intros [= <-]; vm_compute; split; discriminate.

Lemma Anthropic_delays (e : JsError) (d : Z) :
  (AnthropicProvider.onFailure 1 e = Normal d -> 0 <= d <= 4000) /\
  (AnthropicProvider.onFailure 2 e = Normal d -> 0 <= d <= 8000) /\
  (AnthropicProvider.onFailure 3 e = Normal d -> False).
Proof.
  unfold AnthropicProvider.onFailure.
  change (1 =? Retry.maxRetries) with false. change (2 =? Retry.maxRetries) with false.
  change (3 =? Retry.maxRetries) with true. cbv iota.
  split; [|split]; backoff_cases.
Qed.

Lemma OpenAI_delays (e : JsError) (d : Z) :
  (OpenAIProvider.onFailure 1 e = Normal d -> 0 <= d <= 4000) /\
  (OpenAIProvider.onFailure 2 e = Normal d -> 0 <= d <= 8000) /\
  (OpenAIProvider.onFailure 3 e = Normal d -> False).
Proof.
  unfold OpenAIProvider.onFailure.
  change (1 =? Retry.maxRetries) with false. change (2 =? Retry.maxRetries) with false.
  change (3 =? Retry.maxRetries) with true. cbv iota.
  split; [|split]; backoff_cases.
Qed.

Lemma Gemini_delays (e : JsError) (d : Z) :
  (GeminiProvider.onFailure 1 e = Normal d -> 0 <= d <= 4000) /\
  (GeminiProvider.onFailure 2 e = Normal d -> 0 <= d <= 8000) /\
  (GeminiProvider.onFailure 3 e = Normal d -> False).
Proof.
  unfold GeminiProvider.onFailure.
  change (1 =? Retry.maxRetries) with false. change (2 =? Retry.maxRetries) with false.
  change (3 =? Retry.maxRetries) with true. cbv iota.
  split; [|split]; backoff_cases.
Qed.

Lemma Ollama_delays (p : OllamaProvider.t) (e : JsError) (d : Z) :
  (OllamaProvider.onFailure p 1 e = Normal d -> 0 <= d <= 2000) /\
  (OllamaProvider.onFailure p 2 e = Normal d -> 0 <= d <= 4000) /\
  (OllamaProvider.onFailure p 3 e = Normal d -> False).
Proof.
  unfold OllamaProvider.onFailure.
  change (1 =? Retry.maxRetries) with false. change (2 =? Retry.maxRetries) with false.
  change (3 =? Retry.maxRetries) with true. cbv iota.
  split; [|split]; backoff_cases.
Qed.

(** X3.  A call never sleeps more than 12 seconds in all between its requests
    with the Anthropic, OpenAI and Gemini adapters (4 s and 8 s, after two
    rate limits), nor more than 6 seconds with the Ollama adapter (2 s and
    4 s), whatever the backend answers. *)
Theorem callAPI_backoff_bounded (h : Host) (systemPrompt userPrompt : string)
    (options : LLMCallOptions) :
  (forall p,
     0 <= totalSleep (fst (AnthropicProvider.callAPI h p systemPrompt userPrompt options))
       <= 12000) /\
  (forall p,
     0 <= totalSleep (fst (OpenAIProvider.callAPI h p systemPrompt userPrompt options))
       <= 12000) /\
  (forall p,
     0 <= totalSleep (fst (GeminiProvider.callAPI h p systemPrompt userPrompt options))
       <= 12000) /\
  (forall p,
     0 <= totalSleep (fst (OllamaProvider.callAPI h p systemPrompt userPrompt options))
       <= 6000).
Proof.
  repeat split.
  all: try (unfold AnthropicProvider.callAPI; destruct (if AnthropicProvider.client p then _ else _);
            [|cbn; lia]; cbn [fst];
            apply (run_totalSleep _ _ _ 4000 8000); [lia|lia|..]; intros e d;
            apply (Anthropic_delays e d)).
  all: try (unfold OpenAIProvider.callAPI; destruct (if OpenAIProvider.client p then _ else _);
            [|cbn; lia]; cbn [fst];
            apply (run_totalSleep _ _ _ 4000 8000); [lia|lia|..]; intros e d;
            apply (OpenAI_delays e d)).
  all: try (unfold GeminiProvider.callAPI; destruct (if GeminiProvider.client p then _ else _);
            [|cbn; lia]; cbn [fst];
            apply (run_totalSleep _ _ _ 4000 8000); [lia|lia|..]; intros e d;
            apply (Gemini_delays e d)).
  all: try (unfold OllamaProvider.callAPI; destruct (if OllamaProvider.initialized p then _ else _);
            [|cbn; lia]; cbn [fst];
            apply (run_totalSleep _ _ _ 2000 4000); [lia|lia|..]; intros e d;
            apply (Ollama_delays _ e d)).
Qed.

(** ** Ollama: failures that end a call *)

Lemma includes_app_r (a b n : string) :
  JS.includes b n = true -> JS.includes (a ++ b) n = true.
Proof.
  intros H. induction a as [|x a IH]; [exact H|].
  change (String x a ++ b) with (String x (a ++ b)). cbn [JS.includes].
  rewrite IH. destruct (JS.startsWith _ n); reflexivity.
Qed.

Lemma loop_stops {Obs : Type} (attemptBody : Obs -> Completion string)
    (onFailure : Z -> JsError -> Completion Z) (env : nat -> Obs) (e x : JsError)
    (remaining : nat) (attempt : Z) (k i : nat) :
  (forall a, onFailure a e = Throw x) ->
  (i < attempts (Retry.loop attemptBody onFailure env remaining attempt k))%nat ->
  attemptBody (env (k + i)%nat) = Throw e ->
  result (Retry.loop attemptBody onFailure env remaining attempt k) = Throw x /\
  attempts (Retry.loop attemptBody onFailure env remaining attempt k) = S i /\
  length (sleeps (Retry.loop attemptBody onFailure env remaining attempt k)) = i.
Proof.
  intros Hx. revert attempt k i.
  induction remaining as [|n IH]; intros attempt k i; cbn [Retry.loop].
  - cbn. lia.
  - destruct i as [|i].
    + rewrite Nat.add_0_r. intros _ ->. rewrite Hx. cbn. auto.
    + destruct (attemptBody (env k)) as [text|err]; [cbn; lia|].
      destruct (onFailure attempt err) as [d|y]; [|cbn; lia].
      cbn [attempts sleeps result]. intros Hlt He.
      destruct (IH (attempt + 1) (S k) i) as (Hr & Ha & Hl); [lia| |].
      { rewrite <- He. f_equal. f_equal. lia. }
      rewrite Hr, Ha. cbn [length]. rewrite Hl. auto.
Qed.

Lemma Ollama_missing_model (p : OllamaProvider.t) (body : string) :
  exists e, OllamaProvider.attemptBody p (FetchStatus 404 body) = Throw e /\
            OllamaProvider.timeoutFailure e = false /\
            OllamaProvider.modelNotFound e = true.
Proof.
  eexists. split; [reflexivity|]. split; [reflexivity|].
  unfold OllamaProvider.modelNotFound. cbn [instanceofError message Error andb].
  apply andb_true_iff. split; [reflexivity|].
  do 4 apply includes_app_r. apply includes_app. vm_compute. reflexivity.
Qed.

Lemma Ollama_onFailure_final (p : OllamaProvider.t) (e : JsError) :
  OllamaProvider.timeoutFailure e = false ->
  OllamaProvider.connectionFailure e || OllamaProvider.modelNotFound e = true ->
  forall a,
    OllamaProvider.onFailure p a e =
    Throw (if OllamaProvider.connectionFailure e
           then Error ("Cannot connect to Ollama server at " ++ OllamaProvider.endpoint p
                         ++ ". Is Ollama running?")
           else e).
Proof.
  intros Ht Hc a. unfold OllamaProvider.onFailure. rewrite Ht.
  destruct (OllamaProvider.connectionFailure e); [reflexivity|].
  cbn in Hc. rewrite Hc. reflexivity.
Qed.

(** X4.  The Ollama adapter never retries a refused connection or a missing
    model.  When the request number [i] of a call fails with an error that is
    not an abort and whose message shows a connection failure or a model not
    found, the call ends there: [i + 1] requests, [i] sleeps, and the error
    raised is the connection message naming the endpoint, or the failure
    itself for a missing model.  An HTTP 404 answer is such a failure,
    whatever the name of the model. *)
Theorem Ollama_unreachable_or_missing_model_not_retried (h : Host) (p p' : OllamaProvider.t)
    (systemPrompt userPrompt : string) (options : LLMCallOptions) (i : nat) :
  let tr := fst (OllamaProvider.callAPI h p systemPrompt userPrompt options) in
  let answer := chat h (OllamaProvider.request p' systemPrompt userPrompt options) i in
  (if OllamaProvider.initialized p then Normal p else OllamaProvider.initialize h p) = Normal p' ->
  (i < attempts tr)%nat ->
  (forall e,
     OllamaProvider.attemptBody p' answer = Throw e ->
     OllamaProvider.timeoutFailure e = false ->
     OllamaProvider.connectionFailure e || OllamaProvider.modelNotFound e = true ->
     attempts tr = S i /\ length (sleeps tr) = i /\
     result tr =
       Throw (if OllamaProvider.connectionFailure e
              then Error ("Cannot connect to Ollama server at " ++ OllamaProvider.endpoint p'
                            ++ ". Is Ollama running?")
              else e)) /\
  (forall body,
     answer = FetchStatus 404 body ->
     attempts tr = S i /\ length (sleeps tr) = i /\ completes (result tr) = false).
Proof.
  intros tr answer Hready Hlt. subst tr answer.
  unfold OllamaProvider.callAPI in *. rewrite Hready in *. cbn [fst] in *.
  unfold Retry.run in *.
  assert (Hgen : forall e,
     OllamaProvider.attemptBody p'
       (chat h (OllamaProvider.request p' systemPrompt userPrompt options) i) = Throw e ->
     OllamaProvider.timeoutFailure e = false ->
     OllamaProvider.connectionFailure e || OllamaProvider.modelNotFound e = true ->
     let tr := Retry.loop (OllamaProvider.attemptBody p') (OllamaProvider.onFailure p')
                 (chat h (OllamaProvider.request p' systemPrompt userPrompt options))
                 (Z.to_nat Retry.maxRetries) 1 0 in
     attempts tr = S i /\ length (sleeps tr) = i /\
     result tr =
       Throw (if OllamaProvider.connectionFailure e
              then Error ("Cannot connect to Ollama server at " ++ OllamaProvider.endpoint p'
                            ++ ". Is Ollama running?")
              else e)).
  { intros e He Ht Hc.
    destruct (loop_stops (OllamaProvider.attemptBody p') (OllamaProvider.onFailure p')
                (chat h (OllamaProvider.request p' systemPrompt userPrompt options)) e _
                (Z.to_nat Retry.maxRetries) 1 0 i
                (Ollama_onFailure_final p' e Ht Hc) Hlt He) as (Hr & Ha & Hl).
    cbv zeta. rewrite Hr, Ha, Hl. auto. }
  split; [exact Hgen|].
  intros body Hbody.
  destruct (Ollama_missing_model p' body) as (e & He & Ht & Hm).
  rewrite <- Hbody in He.
  destruct (Hgen e He Ht) as (Ha & Hl & Hr).
  { rewrite Hm. apply orb_true_r. }
  rewrite Hr. auto.
Qed.

Lemma Ollama_unreachable_or_missing_model_not_retried_witness :
  let h := mkHost (fun _ => true) (fun _ _ => TimedOut) (fun _ => None)
             (fun _ k => nth k [FetchAborted] (FetchStatus 404 "model not found"))
             (TagsOk None) (fun _ => None) in
  let p := OllamaProvider.new "http://localhost:11434/" "llama2" in
  let tr := fst (OllamaProvider.callAPI h p "system" "user" noOptions) in
  attempts tr = 2%nat /\ length (sleeps tr) = 1%nat /\ completes (result tr) = false.
Proof.
  intros h p tr.
  refine (proj2 (Ollama_unreachable_or_missing_model_not_retried h p
                   (OllamaProvider.mk "http://localhost:11434" "llama2" true)
                   "system" "user" noOptions 1 _ _) "model not found" _).
  - reflexivity.
  - vm_compute. lia.
  - reflexivity.
Defined.

(** ** The shape of the results of the parsers *)

Lemma length_substring0 (n : nat) (s : string) :
  String.length (JS.substring0 n s) = Nat.min n (String.length s).
Proof.
  unfold JS.substring0. revert s.
  induction n as [|n IH]; intros [|c s]; cbn; auto.
Qed.

Lemma length_append (a b : string) :
  String.length (a ++ b) = (String.length a + String.length b)%nat.
Proof.
  induction a as [|c a IH]; [reflexivity|].
  change (String c a ++ b) with (String c (a ++ b)). cbn [String.length Nat.add].
  f_equal. exact IH.
Qed.

(** X5.  Every result of [parseTriageResponse], parsed or fallback, has a core
    question of at most 40 characters, a score of at most 4, and the time
    stamp of the parse. *)
Theorem triage_result_within_bounds (JSON_parse : string -> option JSON)
    (response originalContent now : string) :
  let r := TriageAnalyzer.parseTriageResponse JSON_parse response originalContent now in
  (String.length (coreQuestion r) <= 40)%nat /\
  (score r <= 4)%nat /\
  timestamp r = now.
Proof.
  intros r. subst r.
  destruct (parseTriageResponse_cases JSON_parse response originalContent now)
    as [(r & Hb & ->)|(e & Hb & ->)].
  - destruct (parseTriageBody_normal _ _ _ _ Hb) as (Hs & _ & Ht & Hq).
    rewrite Hs. auto using passed_le_4.
  - cbn [TriageAnalyzer.createFallbackResult coreQuestion score timestamp].
    rewrite length_append, length_substring0.
    change (String.length "...") with 3%nat.
    pose proof (Nat.le_min_l 37 (String.length originalContent)).
    pose proof (passed_le_4 (mkChecks (mkCheck false "") (mkCheck false "") (mkCheck false "")
                               (mkCheck true ""))).
    repeat split; lia.
Qed.

Lemma trimStart_noLeadingSpace (s : string) : noLeadingSpace (JS.trimStart s).
Proof.
  induction s as [|c s IH]; [exact I|]. cbn [JS.trimStart].
  destruct (JS.isWhiteSpace c) eqn:E; [exact IH|exact E].
Qed.

Lemma trimStart_fixed (s : string) : noLeadingSpace s -> JS.trimStart s = s.
Proof. destruct s as [|c s]; [reflexivity|]. cbn. intros ->. reflexivity. Qed.

Lemma trimEnd_noLeadingSpace (s : string) : noLeadingSpace s -> noLeadingSpace (JS.trimEnd s).
Proof.
  destruct s as [|c s]; [exact id|]. cbn [noLeadingSpace JS.trimEnd]. intros H.
  destruct (JS.trimEnd s); [rewrite H|]; exact H.
Qed.

Lemma trimEnd_idempotent (s : string) : JS.trimEnd (JS.trimEnd s) = JS.trimEnd s.
Proof.
  induction s as [|c s IH]; [reflexivity|]. cbn [JS.trimEnd].
  destruct (JS.trimEnd s) as [|d t] eqn:E.
  - destruct (JS.isWhiteSpace c) eqn:Ec; [reflexivity|]. cbn. rewrite Ec. reflexivity.
  - change (JS.trimEnd (String c (String d t)))
      with (match JS.trimEnd (String d t) with
            | EmptyString => if JS.isWhiteSpace c then EmptyString else String c EmptyString
            | String x r => String c (String x r)
            end).
    rewrite IH. reflexivity.
Qed.

Lemma trim_idempotent (s : string) : JS.trim (JS.trim s) = JS.trim s.
Proof.
  unfold JS.trim.
  rewrite (trimStart_fixed (JS.trimEnd (JS.trimStart s))).
  - apply trimEnd_idempotent.
  - apply trimEnd_noLeadingSpace, trimStart_noLeadingSpace.
Qed.

Lemma validateTone_valid (tone : option JSON) :
  In (SynthesisGuide.validateTone tone) SynthesisGuide.validTones.
Proof.
  unfold SynthesisGuide.validateTone.
  destruct tone as [[| | | t | |]|]; try (left; reflexivity).
  destruct (existsb _ _) eqn:E; [|left; reflexivity].
  apply existsb_exists in E as (x & Hin & Hx).
  apply String.eqb_eq in Hx. rewrite Hx. exact Hin.
Qed.

Lemma specQuestions_trimmed (qs : list JSON) :
  Forall (fun q => q <> EmptyString /\ JS.trim q = q) (specQuestions qs).
Proof.
  eapply Forall_impl; [apply specQuestions_sound|].
  intros q (Hne & s & _ & ->). split; [exact Hne|apply trim_idempotent].
Qed.

Lemma parseSynthesisBody_timestamp (JSON_parse : string -> option JSON)
    (response now : string) (g : SynthesisGuideType) :
  SynthesisGuide.parseSynthesisBody JSON_parse response now = Normal g ->
  guideTimestamp g = now.
Proof.
  unfold SynthesisGuide.parseSynthesisBody, TriageAnalyzer.parseJson.
  destruct (Json.matchObject response) as [jsonText|]; [|discriminate].
  destruct (JSON_parse jsonText) as [parsed|]; cbn [mbind Completion_bind]; [|discriminate].
  destruct (Json.get parsed "questions") as [questionsV|];
    cbn [mbind Completion_bind]; [|discriminate].
  destruct questionsV as [[| | | | qs |]|]; try discriminate.
  destruct (_ || _); [discriminate|].
  destruct (_ <? _)%nat; [discriminate|].
  intros [= <-]. reflexivity.
Qed.

(** X6.  Every guide that [parseSynthesisResponse] returns, parsed or
    fallback, has one of the three tones [reflective], [analytical],
    [exploratory], whatever the response proposed, and questions that are not
    empty and neither begin nor end with white space ([q.trim() === q]). *)
Theorem synthesis_guide_well_formed (JSON_parse : string -> option JSON) (response : string)
    (language : ResponseLanguage) (now : string) :
  let g := SynthesisGuide.parseSynthesisResponse JSON_parse response language now in
  In (suggestedTone g) ["reflective"; "analytical"; "exploratory"] /\
  Forall (fun q => q <> EmptyString /\ JS.trim q = q) (questions g) /\
  guideTimestamp g = now.
Proof.
  intros g. subst g. unfold SynthesisGuide.parseSynthesisResponse.
  destruct (SynthesisGuide.parseSynthesisBody JSON_parse response now) as [g|e] eqn:Hb.
  - destruct (parseSynthesisBody_normal _ _ _ _ Hb)
      as (jsonText & parsed & qs & _ & _ & _ & _ & _ & Hq & Ht).
    rewrite Hq, Ht. split; [apply validateTone_valid|].
    split; [apply specQuestions_trimmed|].
    exact (parseSynthesisBody_timestamp _ _ _ _ Hb).
  - cbn [SynthesisGuide.createFallbackGuide suggestedTone questions guideTimestamp].
    split; [left; reflexivity|]. split; [|reflexivity].
    destruct language; cbn [SynthesisGuide.getFallbackQuestions];
      repeat constructor; try discriminate; vm_compute; reflexivity.
Qed.

(** ** The analyzers *)

Lemma blank_content (content : string) :
  negb (JS.nonEmpty content) || (String.length (JS.trim content) =? 0)%nat
  = String.eqb (JS.trim content) EmptyString.
Proof.
  destruct content as [|c s]; [reflexivity|]. cbn [JS.nonEmpty negb orb].
  destruct (JS.trim (String c s)); reflexivity.
Qed.

(** X7.  [analyzeEntry] fails only without an answer.  For blank content it
    raises [Content cannot be empty] and calls no provider.  Otherwise it
    makes one call to the provider, with the system prompt of the language,
    the entry after [Evaluate this journal entry:], the analyzer's
    temperature, 1000 tokens and 30 seconds.  If that call fails, the error
    raised is its message after [Triage analysis failed: ]; if it answers,
    whatever the answer, the outcome is the result parsed from it (or the
    fallback), whose score counts its passed checks and whose core question
    has at most 40 characters. *)
Theorem analyzeEntry_fails_only_without_answer (JSON_parse : string -> option JSON)
    (h : Host) (a : TriageAnalysis.t) (content : string) (language : ResponseLanguage)
    (now : string) :
  let r := TriageAnalysis.analyzeEntry JSON_parse h a content language now in
  let call :=
    LLMClient.callAPI h (TriageAnalysis.llmClient a)
      (TriageAnalysis.getTriageSystemPrompt language)
      ("Evaluate this journal entry:" ++ JS.lf ++ JS.lf ++ content)
      (mkOptions (Some (TriageAnalysis.temperature a)) (Some 1000) (Some 30000)) in
  if String.eqb (JS.trim content) EmptyString
  then r = mkAnalysis (Throw (Error "Content cannot be empty")) [] a
  else
    providerCalls r = [fst call] /\
    analyzer r = TriageAnalysis.mk (snd call) (TriageAnalysis.temperature a) /\
    match result (fst call) with
    | Normal response =>
        exists t,
          outcome r = Normal t /\
          t = TriageAnalyzer.parseTriageResponse JSON_parse response content now /\
          score t = TriageAnalyzer.passed (checks t) /\
          (String.length (coreQuestion t) <= 40)%nat
    | Throw e =>
        outcome r =
          Throw (Error ("Triage analysis failed: "
                          ++ (if instanceofError e then message e else "Unknown error")))
    end.
Proof.
  intros r call. subst r call. unfold TriageAnalysis.analyzeEntry.
  rewrite blank_content.
  destruct (String.eqb (JS.trim content) EmptyString); [reflexivity|].
  destruct (LLMClient.callAPI _ _ _ _ _) as [tr client]. cbn [fst snd].
  destruct (result tr) as [response|e]; cbn [providerCalls analyzer outcome];
    repeat split; try reflexivity.
  eexists. split; [reflexivity|]. split; [reflexivity|].
  destruct (parseTriageResponse_cases JSON_parse response content now)
    as [(t & Hb & ->)|(e & Hb & ->)].
  - destruct (parseTriageBody_normal _ _ _ _ Hb) as (Hs & _ & _ & Hq). auto.
  - split; [reflexivity|].
    cbn [TriageAnalyzer.createFallbackResult coreQuestion].
    rewrite length_append, length_substring0.
    change (String.length "...") with 3%nat.
    pose proof (Nat.le_min_l 37 (String.length content)). lia.
Qed.

Lemma parseSynthesisResponse_count (JSON_parse : string -> option JSON) (response : string)
    (language : ResponseLanguage) (now : string) :
  (3 <= length (questions (SynthesisGuide.parseSynthesisResponse JSON_parse response
                              language now)) <= 5)%nat.
Proof.
  unfold SynthesisGuide.parseSynthesisResponse.
  destruct (SynthesisGuide.parseSynthesisBody JSON_parse response now) as [g|e] eqn:Hb.
  - destruct (parseSynthesisBody_normal _ _ _ _ Hb)
      as (jsonText & parsed & qs & _ & _ & _ & Hn & Hs & Hg & _).
    assert (Hle : (length (specQuestions qs) <= length qs)%nat).
    { clear. induction qs as [|x qs IH]; [reflexivity|].
      destruct x; cbn [specQuestions length]; try lia.
      destruct (JS.trim (SynthesisGuide.stripListMarker s)); cbn [length]; lia. }
    rewrite Hg. lia.
  - destruct language; cbn; lia.
Qed.

(** X8.  [generateQuestions] fails only without an answer.  For blank content
    it raises [Content cannot be empty] and calls no provider.  Otherwise it
    makes one call to the provider, with the prompt [buildUserPrompt] builds,
    the generator's temperature, 500 tokens and 20 seconds.  If that call
    fails, the error raised is its message after
    [Synthesis generation failed: ]; if it answers, whatever the answer, the
    outcome is a guide of 3 to 5 questions. *)
Theorem generateQuestions_fails_only_without_answer (JSON_parse : string -> option JSON)
    (h : Host) (a : SynthesisGeneration.t) (content : string) (triageResult : TriageResult)
    (language : ResponseLanguage) (now : string) :
  let r := SynthesisGeneration.generateQuestions JSON_parse h a content triageResult
             language now in
  let call :=
    LLMClient.callAPI h (SynthesisGeneration.llmClient a)
      (SynthesisGeneration.getSynthesisSystemPrompt language)
      (SynthesisGeneration.buildUserPrompt content triageResult)
      (mkOptions (Some (SynthesisGeneration.temperature a)) (Some 500) (Some 20000)) in
  if String.eqb (JS.trim content) EmptyString
  then r = mkAnalysis (Throw (Error "Content cannot be empty")) [] a
  else
    providerCalls r = [fst call] /\
    analyzer r = SynthesisGeneration.mk (snd call) (SynthesisGeneration.temperature a) /\
    match result (fst call) with
    | Normal response =>
        exists g,
          outcome r = Normal g /\
          g = SynthesisGuide.parseSynthesisResponse JSON_parse response language now /\
          (3 <= length (questions g) <= 5)%nat
    | Throw e =>
        outcome r =
          Throw (Error ("Synthesis generation failed: "
                          ++ (if instanceofError e then message e else "Unknown error")))
    end.
Proof.
  intros r call. subst r call. unfold SynthesisGeneration.generateQuestions.
  rewrite blank_content.
  destruct (String.eqb (JS.trim content) EmptyString); [reflexivity|].
  destruct (LLMClient.callAPI _ _ _ _ _) as [tr client]. cbn [fst snd].
  destruct (result tr) as [response|e]; cbn [providerCalls analyzer outcome];
    repeat split; try reflexivity.
  eexists. split; [reflexivity|]. split; [reflexivity|].
  apply parseSynthesisResponse_count.
Qed.

(** ** The plugin's choice of a client *)

Lemma present_nonEmpty (s : string) : s <> EmptyString -> LLMClient.present (Some s) = Some s.
Proof. destruct s; [congruence|reflexivity]. Qed.

Lemma present_idempotent (s : option string) :
  LLMClient.present (LLMClient.present s) = LLMClient.present s.
Proof. destruct s as [[|c s]|]; reflexivity. Qed.

Lemma present_orElse (k : string) (b : option string) :
  k <> EmptyString ->
  LLMClient.present (WeaklogPlugin.orElse (LLMClient.present (Some k)) b) = Some k.
Proof.
  intros Hk. unfold WeaklogPlugin.orElse.
  rewrite present_idempotent, (present_nonEmpty k Hk). apply present_nonEmpty, Hk.
Qed.

Lemma present_inv (s : option string) (k : string) :
  LLMClient.present s = Some k -> LLMClient.present (Some k) = Some k.
Proof. destruct s as [[|c v]|]; try discriminate. intros [= <-]. reflexivity. Qed.

Lemma initialize_key_adapters (h : Host) (key model : string) :
  (forall c, LLMClient.initialize h (mkLLMClient (AnthropicProvider.new key model)) = Normal c ->
             c = mkLLMClient (AnthropicProvider.mk key model true)) /\
  (forall c, LLMClient.initialize h (mkLLMClient (OpenAIProvider.new key model)) = Normal c ->
             c = mkLLMClient (OpenAIProvider.mk key model true)) /\
  (forall c, LLMClient.initialize h (mkLLMClient (GeminiProvider.new key model)) = Normal c ->
             c = mkLLMClient (GeminiProvider.mk key model true)) /\
  (forall c, LLMClient.initialize h (mkLLMClient (OllamaProvider.new key model)) = Normal c ->
             c = mkLLMClient
                   (OllamaProvider.mk (OllamaProvider.stripTrailingSlash key) model true)).
Proof.
  unfold LLMClient.initialize, LLMClient.withProvider.
  cbn [providerImpl provider providerClass initialize Anthropic_ILLMProvider
       OpenAI_ILLMProvider Gemini_ILLMProvider Ollama_ILLMProvider].
  unfold AnthropicProvider.initialize, OpenAIProvider.initialize, GeminiProvider.initialize,
    OllamaProvider.initialize, AnthropicProvider.new, OpenAIProvider.new, GeminiProvider.new,
    OllamaProvider.new.
  cbn [AnthropicProvider.apiKey AnthropicProvider.model OpenAIProvider.apiKey
       OpenAIProvider.model GeminiProvider.apiKey GeminiProvider.model
       OllamaProvider.endpoint OllamaProvider.model].
  repeat split; intros c.
  all: repeat match goal with
              | |- context [if ?b then _ else _] => destruct b
              | |- context [match newClient ?h ?k with _ => _ end] => destruct (newClient h k)
              end; try discriminate.
  all: intros [= <-]; reflexivity.
Qed.

Lemma firstKey_orElse3 (a b : option string) (c : string) :
  LLMClient.present
    (WeaklogPlugin.orElse (LLMClient.present a) (WeaklogPlugin.orElse b (Some c)))
  = firstKey [a; b; Some c].
Proof. destruct a as [[|? ?]|], b as [[|? ?]|], c as [|? ?]; reflexivity. Qed.

Lemma firstKey_orElse2 (a b : option string) :
  LLMClient.present (WeaklogPlugin.orElse (LLMClient.present a) b) = firstKey [a; b].
Proof. destruct a as [[|? ?]|], b as [[|? ?]|]; reflexivity. Qed.

Lemma firstKey_present (candidates : list (option string)) (key : string) :
  firstKey candidates = Some key -> LLMClient.present (Some key) = Some key.
Proof.
  induction candidates as [|[[|c s]|] rest IH]; cbn [firstKey]; try discriminate; auto.
  intros [= <-]. reflexivity.
Qed.

(** X9.  The client that [getLLMClient] returns, and the key it holds.  The
    client is initialized and uses the model of the settings.  Its adapter is
    of the provider of the settings and holds the first key that is set and
    not empty among: the environment variable [WEAKLOG_API_KEY], then the
    key of the settings for that provider, then (for Anthropic only) the
    legacy [apiKey]; the Ollama adapter holds the endpoint of the settings,
    or the local one, without its last slash.  So when the environment
    variable holds a key, the Anthropic, OpenAI or Gemini adapter holds that
    key, whatever the settings hold. *)
Theorem getLLMClient_initialized_and_environment_first :
  (forall h env settings c,
     WeaklogPlugin.getLLMClient h env settings = Normal c ->
     let model := WeaklogSettings.model settings in
     LLMClient.isInitialized c = true /\
     LLMClient.getModel c = model /\
     (WeaklogSettings.llmProvider settings = "anthropic" ->
        exists key,
          firstKey [env; WeaklogSettings.anthropicApiKey settings;
                    Some (WeaklogSettings.apiKey settings)] = Some key /\
          c = mkLLMClient (AnthropicProvider.mk key model true)) /\
     (WeaklogSettings.llmProvider settings = "openai" ->
        exists key,
          firstKey [env; WeaklogSettings.openaiApiKey settings] = Some key /\
          c = mkLLMClient (OpenAIProvider.mk key model true)) /\
     (WeaklogSettings.llmProvider settings = "gemini" ->
        exists key,
          firstKey [env; WeaklogSettings.geminiApiKey settings] = Some key /\
          c = mkLLMClient (GeminiProvider.mk key model true)) /\
     (WeaklogSettings.llmProvider settings = "ollama" ->
        c = mkLLMClient
              (OllamaProvider.mk
                 (OllamaProvider.stripTrailingSlash
                    (default "http://localhost:11434"
                       (firstKey [WeaklogSettings.ollamaEndpoint settings])))
                 model true))) /\
  (forall h key settings c,
     key <> EmptyString ->
     WeaklogPlugin.getLLMClient h (Some key) settings = Normal c ->
     let model := WeaklogSettings.model settings in
     (WeaklogSettings.llmProvider settings = "anthropic" ->
        c = mkLLMClient (AnthropicProvider.mk key model true)) /\
     (WeaklogSettings.llmProvider settings = "openai" ->
        c = mkLLMClient (OpenAIProvider.mk key model true)) /\
     (WeaklogSettings.llmProvider settings = "gemini" ->
        c = mkLLMClient (GeminiProvider.mk key model true))).
Proof.
  assert (Hall : forall h env settings c,
     WeaklogPlugin.getLLMClient h env settings = Normal c ->
     let model := WeaklogSettings.model settings in
     LLMClient.isInitialized c = true /\
     LLMClient.getModel c = model /\
     (WeaklogSettings.llmProvider settings = "anthropic" ->
        exists key,
          firstKey [env; WeaklogSettings.anthropicApiKey settings;
                    Some (WeaklogSettings.apiKey settings)] = Some key /\
          c = mkLLMClient (AnthropicProvider.mk key model true)) /\
     (WeaklogSettings.llmProvider settings = "openai" ->
        exists key,
          firstKey [env; WeaklogSettings.openaiApiKey settings] = Some key /\
          c = mkLLMClient (OpenAIProvider.mk key model true)) /\
     (WeaklogSettings.llmProvider settings = "gemini" ->
        exists key,
          firstKey [env; WeaklogSettings.geminiApiKey settings] = Some key /\
          c = mkLLMClient (GeminiProvider.mk key model true)) /\
     (WeaklogSettings.llmProvider settings = "ollama" ->
        c = mkLLMClient
              (OllamaProvider.mk
                 (OllamaProvider.stripTrailingSlash
                    (default "http://localhost:11434"
                       (firstKey [WeaklogSettings.ollamaEndpoint settings])))
                 model true))).
  { intros h env settings c E model. revert E. unfold WeaklogPlugin.getLLMClient.
    fold model.
    destruct (String.eqb_spec (WeaklogSettings.llmProvider settings) "anthropic") as [Hp|Hp].
    { rewrite firstKey_orElse3.
      destruct (firstKey _) as [key|] eqn:Ek; [|discriminate].
      change (LLMClient.createFromConfig "anthropic" (ProviderConfig.mk (Some key) model None))
        with (match LLMClient.present (Some key) with
              | Some k => Normal (mkLLMClient (AnthropicProvider.new k model))
              | None => Throw (Error "Anthropic provider requires API key")
              end).
      rewrite (firstKey_present _ _ Ek). cbn [mbind Completion_bind]. intros E.
      apply (initialize_key_adapters h key model) in E. subst c.
      rewrite Hp. repeat split; try discriminate. intros _. exists key. auto. }
    destruct (String.eqb_spec (WeaklogSettings.llmProvider settings) "openai") as [Ho|Ho].
    { rewrite firstKey_orElse2.
      destruct (firstKey _) as [key|] eqn:Ek; [|discriminate].
      change (LLMClient.createFromConfig "openai" (ProviderConfig.mk (Some key) model None))
        with (match LLMClient.present (Some key) with
              | Some k => Normal (mkLLMClient (OpenAIProvider.new k model))
              | None => Throw (Error "OpenAI provider requires API key")
              end).
      rewrite (firstKey_present _ _ Ek). cbn [mbind Completion_bind]. intros E.
      apply (initialize_key_adapters h key model) in E. subst c.
      rewrite Ho. repeat split; try discriminate. intros _. exists key. auto. }
    destruct (String.eqb_spec (WeaklogSettings.llmProvider settings) "gemini") as [Hg|Hg].
    { rewrite firstKey_orElse2.
      destruct (firstKey _) as [key|] eqn:Ek; [|discriminate].
      change (LLMClient.createFromConfig "gemini" (ProviderConfig.mk (Some key) model None))
        with (match LLMClient.present (Some key) with
              | Some k => Normal (mkLLMClient (GeminiProvider.new k model))
              | None => Throw (Error "Gemini provider requires API key")
              end).
      rewrite (firstKey_present _ _ Ek). cbn [mbind Completion_bind]. intros E.
      apply (initialize_key_adapters h key model) in E. subst c.
      rewrite Hg. repeat split; try discriminate. intros _. exists key. auto. }
    destruct (String.eqb_spec (WeaklogSettings.llmProvider settings) "ollama") as [Hl|Hl];
      [|discriminate].
    assert (Hd : default "http://localhost:11434"
                   (LLMClient.present (WeaklogSettings.ollamaEndpoint settings))
                 = default "http://localhost:11434"
                     (firstKey [WeaklogSettings.ollamaEndpoint settings])).
    { destruct (WeaklogSettings.ollamaEndpoint settings) as [[|? ?]|]; reflexivity. }
    rewrite Hd.
    set (endpoint := default "http://localhost:11434" _).
    assert (He : LLMClient.present (Some endpoint) = Some endpoint).
    { subst endpoint.
      destruct (WeaklogSettings.ollamaEndpoint settings) as [[|? ?]|]; reflexivity. }
    change (LLMClient.createFromConfig "ollama" (ProviderConfig.mk None model (Some endpoint)))
      with (match LLMClient.present (Some endpoint) with
            | Some url => Normal (mkLLMClient (OllamaProvider.new url model))
            | None => Throw (Error "Ollama provider requires endpoint")
            end).
    rewrite He. cbn [mbind Completion_bind]. intros E.
    apply (initialize_key_adapters h endpoint model) in E. subst c.
    rewrite Hl. repeat split; try discriminate. }
  split; [exact Hall|].
  intros h key settings c Hk E model.
  destruct (Hall h (Some key) settings c E) as (_ & _ & Ha & Ho & Hg & _).
  assert (Hfirst : forall rest, firstKey (Some key :: rest) = Some key).
  { intros rest. destruct key; [congruence|reflexivity]. }
  split; [|split]; intros Hp.
  - destruct (Ha Hp) as (k & Hkey & ->). rewrite Hfirst in Hkey.
    injection Hkey as <-. reflexivity.
  - destruct (Ho Hp) as (k & Hkey & ->). rewrite Hfirst in Hkey.
    injection Hkey as <-. reflexivity.
  - destruct (Hg Hp) as (k & Hkey & ->). rewrite Hfirst in Hkey.
    injection Hkey as <-. reflexivity.
Qed.

Lemma getLLMClient_initialized_and_environment_first_witness :
  let old := WeaklogSettings.mk "sk-ant-old" 7 "Weaklog" "claude-3-opus-20240229"
               (3 # 10)%Q (7 # 10)%Q english "anthropic" (Some "sk-ant-settings")
               None None None in
  let h := mkHost (fun _ => true) (fun _ _ => TimedOut) (fun _ => None)
             (fun _ _ => FetchAborted) (TagsOk None) (fun _ => None) in
  WeaklogPlugin.getLLMClient h (Some "sk-ant-env") old
  = Normal (mkLLMClient (AnthropicProvider.mk "sk-ant-env" "claude-3-opus-20240229" true)).
Proof.
  intros old h.
  assert (E : exists c, WeaklogPlugin.getLLMClient h (Some "sk-ant-env") old = Normal c)
    by (eexists; reflexivity).
  destruct E as [c E]. rewrite E. f_equal.
  apply (proj1 (proj2 getLLMClient_initialized_and_environment_first h "sk-ant-env" old c
                  ltac:(discriminate) E) eq_refl).
Defined.

(* ====================================================================== *)
(** ** CooldownManager: the other operations on the index                  *)
(* ====================================================================== *)

Section IndexFacts.

Variable pf : Platform.
Variable folder : string.

Local Abbreviation indexPath := (CooldownManager.cooldownFilePath pf folder).
Local Abbreviation backupPath := (CooldownManager.backupPath pf folder).
Local Abbreviation persisted := (CooldownManager.persisted pf folder).

Lemma log_run (line : string) (w : World) :
  Io.log line w
  = (Normal tt, mkWorld (files w) (writable w) (clock w) (reads w) (line :: console w)).
Proof. reflexivity. Qed.

(** What a save writes on a vault that accepts writes: the backup first, when
    there is an index to back up, then the index. *)
Lemma saveCooldownData_writes (data : CooldownData) (w : World) :
  writable w = true ->
  exists w',
    CooldownManager.saveCooldownData pf folder data w = (Normal tt, w') /\
    files w' = <[indexPath := IndexJson data]>
                 (match files w !! indexPath with
                  | Some body => <[backupPath := body]> (files w)
                  | None => files w
                  end) /\
    writable w' = true /\ clock w' = clock w /\ reads w' = reads w.
Proof.
  unfold CooldownManager.saveCooldownData.
  destruct w as [fs wr clk n out]. cbn [writable]. intros ->. io_run.
  destruct (fs !! indexPath) as [content|] eqn:Hfile.
  - rewrite bool_decide_eq_true_2 by eauto. cbv beta iota. rewrite Hfile.
    cbv beta iota. eexists. split; [reflexivity|]. cbn. auto.
  - rewrite bool_decide_eq_false_2 by (intros [? ?]; discriminate).
    cbv beta iota. eexists. split; [reflexivity|]. cbn. auto.
Qed.

Lemma saveCooldownData_refused (data : CooldownData) (w : World) :
  writable w = false ->
  exists e w',
    CooldownManager.saveCooldownData pf folder data w = (Throw e, w') /\
    JS.startsWith (message e) "Failed to save cooldown data: " = true /\
    files w' = files w.
Proof.
  unfold CooldownManager.saveCooldownData.
  destruct w as [fs wr clk n out]. cbn [writable]. intros ->. io_run.
  destruct (fs !! indexPath) as [content|] eqn:Hfile.
  - rewrite bool_decide_eq_true_2 by eauto. cbv beta iota. rewrite Hfile.
    cbv beta iota. eexists _, _. split; [reflexivity|]. cbn. auto.
  - rewrite bool_decide_eq_false_2 by (intros [? ?]; discriminate).
    cbv beta iota. eexists _, _. split; [reflexivity|]. cbn. auto.
Qed.

Lemma persisted_files (w w' : World) :
  files w' !! indexPath = files w !! indexPath -> persisted w' = persisted w.
Proof. unfold CooldownManager.persisted. intros ->. reflexivity. Qed.

End IndexFacts.

(** X10.  On a vault that accepts writes, [saveCooldownData] completes and
    touches two paths only: the index then holds the data given, and the
    backup holds what the index held before the call (it is left as it was
    when there was no index).  The backup path is the index path with its
    first [.json] replaced, taken here to differ from it. *)
Theorem saveCooldownData_backs_up_then_writes (pf : Platform) (folder : string)
    (data : CooldownData) (w : World) :
  writable w = true ->
  CooldownManager.backupPath pf folder <> CooldownManager.cooldownFilePath pf folder ->
  let r := CooldownManager.saveCooldownData pf folder data w in
  fst r = Normal tt /\
  files (snd r) !! CooldownManager.cooldownFilePath pf folder = Some (IndexJson data) /\
  files (snd r) !! CooldownManager.backupPath pf folder
  = match files w !! CooldownManager.cooldownFilePath pf folder with
    | Some body => Some body
    | None => files w !! CooldownManager.backupPath pf folder
    end /\
  (forall p, p <> CooldownManager.cooldownFilePath pf folder ->
             p <> CooldownManager.backupPath pf folder ->
             files (snd r) !! p = files w !! p).
Proof.
  intros Hw Hne r. subst r.
  destruct (saveCooldownData_writes pf folder data w Hw) as (w' & -> & Hf & _).
  cbn [fst snd]. rewrite Hf. split; [reflexivity|].
  split; [apply lookup_insert_eq|].
  split.
  - rewrite lookup_insert_ne by congruence.
    destruct (files w !! CooldownManager.cooldownFilePath pf folder);
      [apply lookup_insert_eq|reflexivity].
  - intros p Hi Hb. rewrite lookup_insert_ne by congruence.
    destruct (files w !! CooldownManager.cooldownFilePath pf folder);
      [apply lookup_insert_ne; congruence|reflexivity].
Qed.

Lemma saveCooldownData_backs_up_then_writes_witness :
  let old := mkData [mkEntry "2026-01-20_001" "Weaklog/02_Cooling/2026-01-20_001.md"
                       "2026-01-20T00:00:00.000Z" 7 "2026-01-27T00:00:00.000Z"]
               "2026-01-20T00:00:00.000Z" in
  let new := mkData [] "2026-01-27T00:00:00.000Z" in
  let w := mkWorld {[ "Weaklog/02_Cooling/.cooldown.json" := IndexJson old ]}
             true (fun _ => 1769472000000) 0 [] in
  let r := CooldownManager.saveCooldownData utcPlatform "Weaklog" new w in
  files (snd r) !! "Weaklog/02_Cooling/.cooldown.json" = Some (IndexJson new) /\
  files (snd r) !! "Weaklog/02_Cooling/.cooldown.backup.json" = Some (IndexJson old).
Proof.
  intros old new w r.
  destruct (saveCooldownData_backs_up_then_writes utcPlatform "Weaklog" new w)
    as (_ & Hi & Hb & _); [reflexivity|vm_compute; discriminate|].
  split; [exact Hi|exact Hb].
Defined.

Lemma clearAllEntries_run (pf : Platform) (folder : string) (w : World) :
  writable w = true ->
  exists w',
    CooldownManager.clearAllEntries pf folder w = (Normal tt, w') /\
    files w' = <[CooldownManager.cooldownFilePath pf folder :=
                   IndexJson (mkData [] (JsDate.isoOfTime (clock w (reads w))))]>
                 (match files w !! CooldownManager.cooldownFilePath pf folder with
                  | Some body => <[CooldownManager.backupPath pf folder := body]> (files w)
                  | None => files w
                  end) /\
    writable w' = true /\ clock w' = clock w.
Proof.
  intros Hw. unfold CooldownManager.clearAllEntries.
  rewrite (bind_run _ _ _ _ _ (timestamp_run w)).
  destruct (saveCooldownData_writes pf folder
              (mkData [] (JsDate.isoOfTime (clock w (reads w))))
              (mkWorld (files w) (writable w) (clock w) (S (reads w)) (console w)) Hw)
    as (w1 & Hsave & Hf & Hw1 & Hc & _).
  rewrite (bind_run _ _ _ _ _ Hsave).
  eexists. split; [reflexivity|]. cbn. auto.
Qed.

(** X12.  On a vault that accepts writes [clearAllEntries] completes and
    leaves an empty index: [getEntryCount] then returns zero and
    [getReadyEntries] nothing.  On a vault that refuses writes it fails and
    changes no file. *)
Theorem clearAllEntries_empties_the_index (pf : Platform) (folder : string) (w : World) :
  let cleared := CooldownManager.clearAllEntries pf folder w in
  if writable w
  then
    fst cleared = Normal tt /\
    CooldownManager.persisted pf folder (snd cleared) = [] /\
    fst (CooldownManager.getEntryCount pf folder (snd cleared)) = Normal 0 /\
    fst (CooldownManager.getReadyEntries pf folder (snd cleared)) = Normal []
  else
    completes (fst cleared) = false /\ files (snd cleared) = files w.
Proof.
  intros cleared. subst cleared. destruct (writable w) eqn:Hw.
  - destruct (clearAllEntries_run pf folder w Hw) as (w' & -> & Hf & _).
    cbn [fst snd].
    assert (Hp : CooldownManager.persisted pf folder w' = []).
    { unfold CooldownManager.persisted. rewrite Hf, lookup_insert_eq. reflexivity. }
    split; [reflexivity|]. split; [exact Hp|].
    unfold CooldownManager.getEntryCount, CooldownManager.getReadyEntries.
    destruct (loadCooldownData_run pf folder w') as (data & w1 & Hload & Hdata & _).
    rewrite !(bind_run _ _ _ _ _ Hload). cbn. rewrite Hdata, Hp. auto.
  - unfold CooldownManager.clearAllEntries.
    rewrite (bind_run _ _ _ _ _ (timestamp_run w)).
    destruct (saveCooldownData_refused pf folder
                (mkData [] (JsDate.isoOfTime (clock w (reads w))))
                (mkWorld (files w) (writable w) (clock w) (S (reads w)) (console w)) Hw)
      as (e & w1 & Hsave & _ & Hf).
    rewrite (bind_throw _ _ _ _ _ Hsave). cbn. auto.
Qed.

(** ** CooldownManager: registering *)

(** The entry [registerEntry] writes for a file, from the two readings of the
    clock it takes *)
Lemma registerEntry_world (pf : Platform) (folder : string) (file : TFile) (days : Z)
    (w : World) :
  writable w = true ->
  let k := reads (snd (CooldownManager.loadCooldownData pf folder w)) in
  JsDate.timeClip (addLocalDays pf (clock w (S k)) days) <> None ->
  exists w',
    CooldownManager.registerEntry pf folder file days w = (Normal tt, w') /\
    CooldownManager.persisted pf folder w'
    = (without (basename file) (CooldownManager.persisted pf folder w)
       ++ [ {| weaklogId := basename file;
               filePath := path file;
               createdAt := JsDate.isoOfTime (clock w k);
               cooldownDays := days;
               readyAt := JsDate.isoOfTime (addLocalDays pf (clock w (S k)) days) |} ])%list /\
    writable w' = true /\ clock w' = clock w /\
    (forall p, p <> CooldownManager.cooldownFilePath pf folder ->
               p <> CooldownManager.backupPath pf folder ->
               files w' !! p = files w !! p).
Proof.
  intros Hw k. subst k. unfold CooldownManager.registerEntry.
  destruct (loadCooldownData_run pf folder w)
    as (data & w1 & Hload & Hdata & (Hf1 & Hw1 & Hc1) & _ & _).
  rewrite Hload. cbn [snd]. intros Hclip.
  rewrite (bind_run _ _ _ _ _ Hload).
  rewrite (bind_run _ _ _ _ _ (timestamp_run w1)).
  set (w2 := mkWorld (files w1) (writable w1) (clock w1) (S (reads w1)) (console w1)).
  assert (Hnew : Io.newDate w2
                 = (Normal (clock w1 (S (reads w1))),
                    mkWorld (files w1) (writable w1) (clock w1) (S (S (reads w1)))
                      (console w1))) by reflexivity.
  rewrite (bind_run _ _ _ _ _ Hnew).
  rewrite <- Hc1 in Hclip.
  destruct (JsDate.timeClip (addLocalDays pf (clock w1 (S (reads w1))) days))
    as [t|] eqn:Ht; [|contradiction].
  assert (t = addLocalDays pf (clock w1 (S (reads w1))) days) as ->.
  { unfold JsDate.timeClip in Ht. destruct (Z.abs _ <=? _); congruence. }
  set (w3 := mkWorld _ _ _ (S (S (reads w1))) _).
  assert (Hiso : Io.lift (JsDate.toISOString
                   (Some (addLocalDays pf (clock w1 (S (reads w1))) days))) w3
                 = (Normal (JsDate.isoOfTime
                       (addLocalDays pf (clock w1 (S (reads w1))) days)), w3))
    by reflexivity.
  rewrite (bind_run _ _ _ _ _ Hiso).
  rewrite (bind_run _ _ _ _ _ (timestamp_run w3)).
  match goal with
  | |- context [CooldownManager.saveCooldownData pf folder ?d ≫= _] =>
      destruct (saveCooldownData_writes pf folder d
                  (mkWorld (files w3) (writable w3) (clock w3) (S (reads w3)) (console w3)))
        as (w4 & Hsave & Hf4 & Hw4 & Hc4 & _); [cbn; congruence|]
  end.
  rewrite (bind_run _ _ _ _ _ Hsave).
  eexists. split; [reflexivity|]. subst w3 w2.
  cbn [files writable clock reads console Io.log fst snd] in *.
  split; [|split; [exact Hw4|split; [congruence|]]].
  - unfold CooldownManager.persisted at 1. cbn [files]. rewrite Hf4, lookup_insert_eq.
    cbn [entries]. rewrite Hdata, Hc1. reflexivity.
  - intros p Hi Hb. rewrite Hf4, lookup_insert_ne by congruence.
    destruct (files w1 !! CooldownManager.cooldownFilePath pf folder);
      [rewrite lookup_insert_ne by congruence|]; rewrite Hf1; reflexivity.
Qed.

Lemma without_other (id : string) (es : list CooldownEntry) :
  Forall (fun e => weaklogId e <> id) es -> without id es = es.
Proof.
  unfold without. induction 1 as [|e es He _ IH]; [reflexivity|].
  cbn [List.filter]. destruct (String.eqb_spec (weaklogId e) id); [contradiction|].
  cbn [negb]. rewrite IH. reflexivity.
Qed.

Lemma without_app (id : string) (a b : list CooldownEntry) :
  without id (a ++ b) = (without id a ++ without id b)%list.
Proof. unfold without. apply List.filter_app. Qed.

Lemma without_In (id : string) (es : list CooldownEntry) (e : CooldownEntry) :
  In e (without id es) <-> In e es /\ weaklogId e <> id.
Proof.
  unfold without. rewrite List.filter_In, negb_true_iff.
  destruct (String.eqb_spec (weaklogId e) id); intuition congruence.
Qed.

Lemma without_NoDup (id : string) (es : list CooldownEntry) :
  NoDup (List.map weaklogId es) -> NoDup (List.map weaklogId (without id es)).
Proof.
  unfold without. induction es as [|e es IH]; [intros; constructor|].
  cbn [List.map List.filter]. intros [Hn Hd]%NoDup_cons.
  destruct (negb (String.eqb (weaklogId e) id)); [|auto].
  cbn [List.map]. apply NoDup_cons. split; [|auto].
  rewrite list_elem_of_In in *.
  intros (x & Hx & Hin)%in_map_iff. apply Hn. apply in_map_iff.
  exists x. split; [exact Hx|]. apply List.filter_In in Hin. tauto.
Qed.





Lemma filter_fixed {A : Type} (f g : A -> bool) (l : list A) :
  (forall x, f x = true -> g x = true) ->
  List.filter g (List.filter f l) = List.filter f l.
Proof.
  intros H. induction l as [|x l IH]; [reflexivity|]. cbn [List.filter].
  destruct (f x) eqn:E; [|exact IH]. cbn [List.filter]. rewrite (H x E), IH. reflexivity.
Qed.

(** ** CooldownManager: from registration to readiness *)

Lemma getReadyEntries_run (pf : Platform) (folder : string) (w : World) :
  exists w',
    CooldownManager.getReadyEntries pf folder w
    = (Normal (List.filter (CooldownManager.isReady pf (clock w (Nat.pred (reads w'))))
                 (CooldownManager.persisted pf folder w)), w').
Proof.
  unfold CooldownManager.getReadyEntries.
  destruct (loadCooldownData_run pf folder w)
    as (data & w1 & Hload & Hdata & (_ & _ & Hc1) & _ & _).
  rewrite (bind_run _ _ _ _ _ Hload).
  exists (mkWorld (files w1) (writable w1) (clock w1) (S (reads w1)) (console w1)).
  cbn [reads Nat.pred]. rewrite <- Hdata, <- Hc1. reflexivity.
Qed.



(* ====================================================================== *)
(** ** FileManager: creating and moving a note                             *)
(* ====================================================================== *)

Lemma findFree_world (pf : Platform) (folder dateStr : string) (nextNum : Z)
    (remaining : nat) (attempt : Z) (id0 : string) (w : World) :
  exists r, FileManager.findFree pf folder dateStr nextNum remaining attempt id0 w = (r, w).
Proof.
  revert attempt id0. induction remaining as [|remaining IH]; intros attempt id0.
  - eexists. reflexivity.
  - cbn [FileManager.findFree]. unfold mbind, IO_bind, Io.pathExists.
    destruct (negb _); [eexists; reflexivity|]. apply IH.
Qed.

(** [generateWeaklogId] reads the clock once and changes nothing else. *)
Lemma generateWeaklogId_world (pf : Platform) (folder : string) (w : World) :
  exists r,
    FileManager.generateWeaklogId pf folder w
    = (r, mkWorld (files w) (writable w) (clock w) (S (reads w)) (console w)).
Proof.
  unfold FileManager.generateWeaklogId.
  unfold mbind at 1, IO_bind at 1. cbn [Io.newDate].
  destruct (localDate pf (clock w (reads w))) as [[year month] day].
  unfold mbind at 1, IO_bind at 1. cbn [Vault.getMarkdownFiles files].
  apply findFree_world.
Qed.

Lemma create_run (p : string) (body : FileBody) (w : World) :
  files w !! p = None ->
  Io.create p body w
  = if writable w
    then (Normal tt,
          mkWorld (<[p := body]> (files w)) (writable w) (clock w) (reads w) (console w))
    else (Throw (Error ("EACCES: permission denied, open " ++ p)), w).
Proof. intros H. unfold Io.create. rewrite H. reflexivity. Qed.

Lemma createRawLog_run (pf : Platform) (folder content : string) (days : Z) (w w1 : World)
    (id : string) :
  FileManager.generateWeaklogId pf folder w = (Normal id, w1) ->
  let filePath := normalizePath pf (FileManager.rawFolder folder ++ "/" ++ id ++ ".md") in
  let createdAt := JsDate.isoOfTime (clock w (S (reads w))) in
  FileManager.createRawLog pf folder content days w
  = if writable w
    then (Normal (Vault.toTFile filePath),
          mkWorld (<[filePath := Text (FileManager.rawFrontmatter id createdAt days
                                         ++ content)]> (files w))
            true (clock w) (S (S (reads w)))
            (("[Weaklog] Created raw log: " ++ filePath) :: console w))
    else (Throw (Error ("Failed to create raw log: "
                          ++ "EACCES: permission denied, open " ++ filePath)),
          mkWorld (files w) false (clock w) (S (S (reads w)))
            ("[Weaklog] Failed to create raw log:" :: console w)).
Proof.
  intros Hgen filePath createdAt. subst filePath createdAt.
  pose proof (generateWeaklogId_free_in_raw _ _ _ _ _ Hgen) as Hfree.
  destruct (generateWeaklogId_world pf folder w) as (r & Hgen').
  rewrite Hgen in Hgen'. injection Hgen' as <- ->.
  unfold FileManager.createRawLog.
  rewrite (bind_run _ _ _ _ _ Hgen). fold (FileManager.rawFolder folder).
  rewrite (bind_run _ _ _ _ _ (timestamp_run _)).
  cbn [clock reads files writable console].
  unfold Io.tryCatch. unfold mbind at 1, IO_bind at 1.
  rewrite create_run by exact Hfree.
  cbn [writable files clock reads console].
  destruct (writable w); reflexivity.
Qed.

(** X18.  [createRawLog] adds exactly one note or none.  When
    [generateWeaklogId] fails, its error is passed on as it is and no file
    changes.  Otherwise the identifier names a path of [01_Raw] that is
    free; on a vault that accepts writes the call returns the file at that
    path and the one change to the vault is this file, whose content is the
    front matter (identifier, the time of the call, the days, status [raw])
    before the content given; on a vault that refuses writes it throws an
    error whose message begins with [Failed to create raw log: ] and no file
    changes. *)
Theorem createRawLog_adds_one_file (pf : Platform) (folder content : string) (days : Z)
    (w : World) :
  let created := FileManager.createRawLog pf folder content days w in
  match fst (FileManager.generateWeaklogId pf folder w) with
  | Throw e => fst created = Throw e /\ files (snd created) = files w
  | Normal id =>
      let filePath :=
        normalizePath pf (FileManager.rawFolder folder ++ "/" ++ id ++ ".md") in
      let createdAt := JsDate.isoOfTime (clock w (S (reads w))) in
      files w !! filePath = None /\
      if writable w
      then
        fst created = Normal (Vault.toTFile filePath) /\
        files (snd created)
        = <[filePath := Text (FileManager.rawFrontmatter id createdAt days ++ content)]>
            (files w)
      else
        (exists e, fst created = Throw e /\
                   JS.startsWith (message e) "Failed to create raw log: " = true) /\
        files (snd created) = files w
  end.
Proof.
  intros created. subst created.
  destruct (generateWeaklogId_world pf folder w) as (r & Hgen).
  rewrite Hgen. cbn [fst]. destruct r as [id|e].
  - cbv zeta. split; [exact (generateWeaklogId_free_in_raw _ _ _ _ _ Hgen)|].
    rewrite (createRawLog_run pf folder content days w _ id Hgen).
    destruct (writable w); cbn [fst snd files]; [split; reflexivity|].
    split; [|reflexivity]. eexists. split; reflexivity.
  - unfold FileManager.createRawLog. rewrite (bind_throw _ _ _ _ _ Hgen). cbn. auto.
Qed.

Section MoveFacts.

Variable pf : Platform.
Variable folder : string.
Variable assignFrontMatter : list (string * string) -> FileBody -> Completion FileBody.

Lemma updateFrontmatter_run (file : TFile) (updates : list (string * string))
    (body body' : FileBody) (w : World) :
  writable w = true ->
  files w !! path file = Some body ->
  assignFrontMatter updates body = Normal body' ->
  FileManager.updateFrontmatter assignFrontMatter file updates w
  = (Normal tt,
     mkWorld (<[path file := body']> (files w)) true (clock w) (reads w)
       (("[Weaklog] Updated frontmatter for " ++ path file) :: console w)).
Proof.
  intros Hw Hfile Hassign.
  unfold FileManager.updateFrontmatter, FileManager.processFrontMatter, Io.tryCatch,
    mbind, IO_bind, Io.read, Io.lift, Io.write, Io.log.
  rewrite Hfile, Hassign, Hw. reflexivity.
Qed.

Lemma moveFile_run (file : TFile) (status : WeaklogStatus) (body body' : FileBody)
    (w : World) :
  writable w = true ->
  files w !! path file = Some body ->
  assignFrontMatter [("status", statusName status)] body = Normal body' ->
  let newPath := targetPath pf folder file status in
  let updated := "[Weaklog] Updated frontmatter for " ++ path file in
  FileManager.moveFile pf folder assignFrontMatter file status w
  = match files w !! newPath with
    | Some _ =>
        (Throw (Error ("Failed to move file: Target file already exists: " ++ newPath)),
         mkWorld (<[path file := body']> (files w)) true (clock w) (reads w)
           ("[Weaklog] Failed to move file:" :: updated :: console w))
    | None =>
        (Normal (Vault.toTFile newPath),
         mkWorld (<[newPath := body']> (delete (path file) (files w))) true (clock w)
           (reads w)
           (("[Weaklog] Moved " ++ path file ++ " to " ++ newPath) :: updated :: console w))
    end.
Proof.
  intros Hw Hfile Hassign newPath updated. subst newPath updated.
  unfold FileManager.moveFile. fold (targetPath pf folder file status).
  unfold Io.tryCatch. unfold mbind at 1, IO_bind at 1.
  rewrite (updateFrontmatter_run _ _ _ _ _ Hw Hfile Hassign).
  unfold mbind at 1, IO_bind at 1. unfold Io.pathExists at 1. cbn [files].
  destruct (decide (targetPath pf folder file status = path file)) as [Heq|Hne].
  - rewrite Heq, lookup_insert_eq, Hfile.
    rewrite bool_decide_eq_true_2 by eauto. reflexivity.
  - rewrite lookup_insert_ne by congruence.
    destruct (files w !! targetPath pf folder file status) as [other|] eqn:Htarget.
    + rewrite bool_decide_eq_true_2 by eauto. reflexivity.
    + rewrite bool_decide_eq_false_2 by (intros [? ?]; discriminate).
      unfold mbind, IO_bind, Io.rename, Io.log, Vault.getAbstractFileByPath.
      cbn [files writable clock reads console].
      rewrite ?lookup_insert_eq, ?lookup_insert_ne, ?Htarget by congruence.
      cbn [files writable clock reads console].
      rewrite ?lookup_insert_eq. rewrite bool_decide_eq_true_2 by eauto.
      rewrite delete_insert_eq. reflexivity.
Qed.

End MoveFacts.

(** X19.  [moveFile] returns the file at the target path or throws an error
    whose message begins with [Failed to move file: ], and it is not atomic.
    For a file that exists, whose front matter can be rewritten, on a vault
    that accepts writes: when the target path is taken (as it is whenever
    the file is already in the folder of the status, [cooling] and
    [ready-for-triage] sharing one folder) the call throws
    [Failed to move file: Target file already exists: <path>], and yet the
    file is left with its new status written, every other file being as
    before; when the target path is free the file is returned at the target
    path, holds the rewritten content there, and is gone from its old
    path. *)
Theorem moveFile_moves_or_leaves_in_place (pf : Platform) (folder : string)
    (assignFrontMatter : list (string * string) -> FileBody -> Completion FileBody)
    (file : TFile) (status : WeaklogStatus) (w : World) :
  let newPath := targetPath pf folder file status in
  let moved := FileManager.moveFile pf folder assignFrontMatter file status w in
  match fst moved with
  | Normal movedFile => movedFile = Vault.toTFile newPath
  | Throw e => JS.startsWith (message e) "Failed to move file: " = true
  end /\
  forall body body',
    writable w = true ->
    files w !! path file = Some body ->
    assignFrontMatter [("status", statusName status)] body = Normal body' ->
    match files w !! newPath with
    | Some _ =>
        fst moved
        = Throw (Error ("Failed to move file: Target file already exists: " ++ newPath)) /\
        files (snd moved) = <[path file := body']> (files w)
    | None =>
        fst moved = Normal (Vault.toTFile newPath) /\
        files (snd moved) !! path file = None /\
        files (snd moved) !! newPath = Some body'
    end.
Proof.
  intros newPath moved. subst newPath moved. split.
  - unfold FileManager.moveFile. fold (targetPath pf folder file status).
    unfold Io.tryCatch.
    match goal with
    | |- context [match ?body w with _ => _ end] => destruct (body w) as [[f|e] w1] eqn:E
    end; [|reflexivity].
    cbn [fst]. revert E. unfold mbind at 1, IO_bind at 1.
    destruct (FileManager.updateFrontmatter _ _ _ w) as [[u|e] w0]; [|discriminate].
    unfold mbind at 1, IO_bind at 1. unfold Io.pathExists at 1.
    destruct (bool_decide _); [discriminate|].
    unfold mbind at 1, IO_bind at 1.
    destruct (Io.rename _ _ w0) as [[u'|e] w2]; [|discriminate].
    unfold mbind at 1, IO_bind at 1. unfold Io.log at 1.
    unfold mbind at 1, IO_bind at 1. unfold Vault.getAbstractFileByPath at 1.
    destruct (bool_decide _); [|discriminate].
    intros [= <- _]. reflexivity.
  - intros body body' Hw Hfile Hassign.
    rewrite (moveFile_run pf folder assignFrontMatter file status body body' w Hw Hfile
               Hassign).
    destruct (files w !! targetPath pf folder file status) eqn:Htarget.
    + split; reflexivity.
    + cbn [fst snd files]. split; [reflexivity|]. split.
      * rewrite lookup_insert_ne by congruence. apply lookup_delete_eq.
      * apply lookup_insert_eq.
Qed.

Lemma moveFile_moves_or_leaves_in_place_witness :
  let assign := fun (updates : list (string * string)) (body : FileBody) =>
                  match body with
                  | Text content => Normal (Text ("status: cooling; " ++ content))
                  | IndexJson _ => Throw (Error "not a note")
                  end in
  let w := mkWorld {[ "Weaklog/02_Cooling/2026-01-27_001.md" := Text "first" ]}
             true (fun _ => 1769472000000) 0 [] in
  let file := mkTFile "Weaklog/02_Cooling/2026-01-27_001.md" "2026-01-27_001" in
  let moved := FileManager.moveFile utcPlatform "Weaklog" assign file readyForTriage w in
  fst moved
  = Throw (Error ("Failed to move file: Target file already exists: "
                    ++ "Weaklog/02_Cooling/2026-01-27_001.md")) /\
  files (snd moved)
  = <[ "Weaklog/02_Cooling/2026-01-27_001.md" := Text "status: cooling; first" ]> (files w).
Proof.
  intros assign w file moved.
  exact (proj2 (moveFile_moves_or_leaves_in_place utcPlatform "Weaklog" assign file
                  readyForTriage w)
           (Text "first") (Text "status: cooling; first") eq_refl eq_refl eq_refl).
Defined.

Lemma findFree_result (pf : Platform) (folder dateStr : string) (nextNum : Z)
    (remaining : nat) (attempt : Z) (id0 : string) (w w' : World) :
  files w' = files w ->
  fst (FileManager.findFree pf folder dateStr nextNum remaining attempt id0 w')
  = fst (FileManager.findFree pf folder dateStr nextNum remaining attempt id0 w).
Proof.
  intros Hfiles. revert attempt id0.
  induction remaining as [|remaining IH]; intros attempt id0.
  - reflexivity.
  - cbn [FileManager.findFree]. unfold mbind, IO_bind, Io.pathExists.
    rewrite Hfiles. destruct (negb _); [reflexivity|]. apply IH.
Qed.

(** The identifier [generateWeaklogId] returns depends on the files and on the
    clock only. *)
Lemma generateWeaklogId_result (pf : Platform) (folder : string) (w w' : World) :
  files w' = files w -> clock w' = clock w -> reads w' = reads w ->
  fst (FileManager.generateWeaklogId pf folder w')
  = fst (FileManager.generateWeaklogId pf folder w).
Proof.
  intros Hfiles Hclock Hreads. unfold FileManager.generateWeaklogId.
  unfold mbind at 1 3, IO_bind at 1 3. cbn [Io.newDate].
  rewrite Hclock, Hreads.
  destruct (localDate pf (clock w (reads w))) as [[year month] day].
  unfold mbind at 1 2, IO_bind at 1 2. cbn [Vault.getMarkdownFiles files].
  rewrite Hfiles. apply findFree_result. reflexivity.
Qed.

Section SubmitFacts.

Variable pf : Platform.
Variable folder : string.
Variable assignFrontMatter : list (string * string) -> FileBody -> Completion FileBody.

Local Abbreviation handleSubmit := (RawLogModal.handleSubmit pf folder assignFrontMatter).

(** X20.  [handleSubmit] never throws: whatever the form holds and whatever
    the vault does, the outcome is a notice.  When the trimmed content has
    fewer than 10 characters, or the days field (7 when it is empty or
    missing) is not a number from 1 to 365, the notice stays 3000 ms and
    nothing was done: no file, no index entry and no log line. *)
Theorem handleSubmit_never_throws_and_refuses_without_writing
    (contentValue cooldownValue : option string) (w : World) :
  let content := match contentValue with Some value => JS.trim value | None => EmptyString end in
  let cooldownDays :=
    RawLogModal.parseInt
      (match cooldownValue with
       | Some value => if JS.nonEmpty value then value else "7"
       | None => "7"
       end) in
  let submitted := handleSubmit contentValue cooldownValue w in
  (exists notice, fst submitted = Normal notice) /\
  ((String.length content < 10)%nat \/
   (forall days, cooldownDays = Some days -> days < 1 \/ 365 < days) ->
   snd submitted = w /\
   exists notice, fst submitted = Normal notice /\ noticeDuration notice = 3000).
Proof.
  intros content cooldownDays submitted. subst submitted.
  unfold RawLogModal.handleSubmit. fold content. fold cooldownDays.
  split.
  - destruct (RawLogModal.validateInput content cooldownDays) as [notice|days].
    + eexists. reflexivity.
    + unfold Io.tryCatch.
      match goal with
      | |- context [match ?body w with _ => _ end] => destruct (body w) as [[n|e] w1]
      end; eexists; reflexivity.
  - intros Hbad.
    assert (exists notice, RawLogModal.validateInput content cooldownDays = inl notice
                           /\ noticeDuration notice = 3000) as (notice & -> & Hd).
    { unfold RawLogModal.validateInput.
      destruct (String.length content =? 0)%nat; [eauto|].
      destruct (Nat.ltb_spec (String.length content) 10); [eauto|].
      destruct Hbad as [Hshort|Hdays]; [lia|].
      destruct cooldownDays as [days|]; [|eauto].
      destruct (Hdays days eq_refl) as [Hlow|Hhigh].
      - apply Z.ltb_lt in Hlow. rewrite Hlow. eauto.
      - apply Z.ltb_lt in Hhigh. rewrite Hhigh, orb_true_r. eauto. }
    split; [reflexivity|]. exists notice. split; [reflexivity|exact Hd].
Qed.


End SubmitFacts.


(* ====================================================================== *)
(** ** CooldownManager over an index of any content                        *)
(* ====================================================================== *)

Lemma jbind_run {A B : Type} (m : JIO A) (k : A -> JIO B) (w w' : JsonWorld) (a : A) :
  m w = (Normal a, w') -> (m ≫= k) w = k a w'.
Proof. intros H. unfold mbind, JIO_bind. rewrite H. reflexivity. Qed.

Lemma jbind_throw {A B : Type} (m : JIO A) (k : A -> JIO B) (w w' : JsonWorld)
    (e : JsError) :
  m w = (Throw e, w') -> (m ≫= k) w = (Throw e, w').
Proof. intros H. unfold mbind, JIO_bind. rewrite H. reflexivity. Qed.

Lemma jtimestamp_run (w : JsonWorld) :
  Jio.timestamp w
  = (Normal (JsDate.isoOfTime (jclock w (jreads w))),
     mkJsonWorld (jfiles w) (jwritable w) (jclock w) (S (jreads w)) (jconsole w)).
Proof. reflexivity. Qed.

Lemma jlog_run (line : string) (w : JsonWorld) :
  Jio.log line w
  = (Normal tt,
     mkJsonWorld (jfiles w) (jwritable w) (jclock w) (jreads w) (line :: jconsole w)).
Proof. reflexivity. Qed.

(** *** Assigning a property *)

Lemma lookupMember_removeMember (k : string) (ms : list (string * JSON)) :
  Json.lookupMember k (JsValue.removeMember k ms) = None.
Proof.
  induction ms as [|[k' x] ms IH]; [reflexivity|].
  cbn [JsValue.removeMember]. destruct (String.eqb_spec k' k) as [->|Hk]; [exact IH|].
  cbn [Json.lookupMember]. rewrite IH.
  destruct (String.eqb_spec k' k); [contradiction|reflexivity].
Qed.

Lemma lookupMember_removeMember_other (k k' : string) (ms : list (string * JSON)) :
  k <> k' ->
  Json.lookupMember k (JsValue.removeMember k' ms) = Json.lookupMember k ms.
Proof.
  intros Hk. induction ms as [|[k0 x] ms IH]; [reflexivity|].
  cbn [JsValue.removeMember Json.lookupMember].
  destruct (String.eqb_spec k0 k') as [->|H0].
  - rewrite IH. destruct (Json.lookupMember k ms); [reflexivity|].
    destruct (String.eqb_spec k' k); [congruence|reflexivity].
  - cbn [Json.lookupMember]. rewrite IH. reflexivity.
Qed.

Lemma lookupMember_setMembers (k : string) (v : JSON) (ms : list (string * JSON)) :
  Json.lookupMember k (JsValue.setMembers k v ms) = Some v.
Proof.
  induction ms as [|[k' x] ms IH]; cbn [JsValue.setMembers Json.lookupMember].
  - rewrite String.eqb_refl. reflexivity.
  - destruct (String.eqb_spec k' k) as [->|Hk].
    + cbn [Json.lookupMember]. rewrite lookupMember_removeMember, String.eqb_refl.
      reflexivity.
    + cbn [Json.lookupMember]. rewrite IH. reflexivity.
Qed.

Lemma lookupMember_setMembers_other (k k' : string) (v : JSON)
    (ms : list (string * JSON)) :
  k <> k' ->
  Json.lookupMember k (JsValue.setMembers k' v ms) = Json.lookupMember k ms.
Proof.
  intros Hk. induction ms as [|[k0 x] ms IH]; cbn [JsValue.setMembers Json.lookupMember].
  - destruct (String.eqb_spec k' k); [congruence|reflexivity].
  - destruct (String.eqb_spec k0 k') as [->|H0].
    + cbn [Json.lookupMember]. rewrite lookupMember_removeMember_other by exact Hk.
      destruct (Json.lookupMember k ms); [reflexivity|].
      destruct (String.eqb_spec k' k); [congruence|reflexivity].
    + cbn [Json.lookupMember]. rewrite IH. reflexivity.
Qed.

Lemma entriesOf_updated (data : JSON) (newEntries : list JSON) (checked : string) :
  indexData data ->
  UntypedCooldownManager.entriesOf
    (UntypedCooldownManager.updated data newEntries checked) = newEntries /\
  indexData (UntypedCooldownManager.updated data newEntries checked).
Proof.
  intros (ms & items & -> & _).
  unfold UntypedCooldownManager.updated, UntypedCooldownManager.entriesOf.
  cbn [JsValue.setMember Json.member].
  assert (H : Json.lookupMember "entries"
                (JsValue.setMembers "lastChecked" (JString checked)
                   (JsValue.setMembers "entries" (JArray newEntries) ms))
              = Some (JArray newEntries)).
  { rewrite lookupMember_setMembers_other by discriminate.
    apply lookupMember_setMembers. }
  rewrite H. split; [reflexivity|]. eexists _, _. split; [reflexivity|exact H].
Qed.

Section UntypedFacts.

Variable pf : Platform.
Variable folder : string.

Local Abbreviation indexPath := (UntypedCooldownManager.cooldownFilePath pf folder).
Local Abbreviation backupPath := (UntypedCooldownManager.backupPath pf folder).
Local Abbreviation stored := (UntypedCooldownManager.persisted pf folder).

(** Loading never throws and leaves the vault as it is.  It returns the data
    of the file when the file parses to an object whose [entries] is an
    array, and an empty index for any other file and for none; so the
    entries it returns are the persisted ones. *)
Lemma untyped_load_run (w : JsonWorld) :
  exists data w',
    UntypedCooldownManager.loadCooldownData pf folder w = (Normal data, w') /\
    indexData data /\
    UntypedCooldownManager.entriesOf data = stored w /\
    jfiles w' = jfiles w /\ jwritable w' = jwritable w /\ jclock w' = jclock w /\
    (jreads w <= jreads w' <= S (jreads w))%nat /\
    (forall ms items,
       jfiles w !! indexPath = Some (Parsed (JObject ms)) ->
       Json.lookupMember "entries" ms = Some (JArray items) ->
       data = JObject ms /\ w' = w).
Proof.
  assert (Hempty : forall ts, indexData (JObject [("entries", JArray []);
                                                  ("lastChecked", JString ts)])).
  { intros ts. eexists _, _. split; reflexivity. }
  unfold UntypedCooldownManager.loadCooldownData, UntypedCooldownManager.persisted.
  destruct w as [fs wr clk n out]. jio_run.
  destruct (fs !! indexPath) as [[value|content]|] eqn:Hfile.
  - rewrite bool_decide_eq_true_2 by eauto. cbn [negb]. cbv beta iota.
    rewrite Hfile. cbv beta iota. cbn [UntypedCooldownManager.parseBody].
    destruct value as [|b|m e|s|items|ms]; cbn [Json.get Json.member];
      try (cbn [Json.truthyU JsValue.isArray negb orb]; cbv beta iota;
           eexists _, _; split; [reflexivity|]; cbn;
           repeat split; auto; try lia; discriminate).
    unfold UntypedCooldownManager.entriesOf. cbn [Json.member].
    destruct (Json.lookupMember "entries" ms) as [[|b|m e|s|items|ms']|] eqn:Hm;
      cbn [Json.truthyU Json.truthy JsValue.isArray negb orb]; cbv beta iota;
      try (destruct (negb _); cbn [orb]; cbv beta iota);
      try (destruct (JS.nonEmpty _); cbn [negb orb]; cbv beta iota);
      try (destruct b; cbn [negb orb]; cbv beta iota);
      try (eexists _, _; split; [reflexivity|]; cbn;
           repeat split; auto; try lia; congruence).
    eexists _, _. split; [reflexivity|]. cbn [jfiles jwritable jclock jreads].
    split; [eexists _, _; split; [reflexivity|exact Hm]|].
    cbn [Json.member]. rewrite Hm.
    repeat split; auto; try lia; congruence.
  - rewrite bool_decide_eq_true_2 by eauto. cbn [negb]. cbv beta iota.
    rewrite Hfile. cbv beta iota. cbn [UntypedCooldownManager.parseBody].
    eexists _, _. split; [reflexivity|]. cbn.
    repeat split; auto; try lia; discriminate.
  - rewrite bool_decide_eq_false_2 by (intros [? ?]; discriminate). cbn [negb].
    cbv beta iota.
    eexists _, _. split; [reflexivity|]. cbn.
    repeat split; auto; try lia; discriminate.
Qed.

(** Saving throws exactly when the vault refuses writes, and then changes no
    file; otherwise the index it leaves holds the data it was given, and the
    only other file it touches is the backup. *)
Lemma untyped_save_run (data : JSON) (w : JsonWorld) :
  exists r w',
    UntypedCooldownManager.saveCooldownData pf folder data w = (r, w') /\
    jclock w' = jclock w /\ jreads w' = jreads w /\ jwritable w' = jwritable w /\
    (jwritable w = true ->
       r = Normal tt /\
       jfiles w' !! indexPath = Some (Parsed data) /\
       (forall p, p <> indexPath -> p <> backupPath -> jfiles w' !! p = jfiles w !! p) /\
       (forall p, is_Some (jfiles w !! p) -> is_Some (jfiles w' !! p)) /\
       hd_error (jconsole w') = Some "[Weaklog] Saved cooldown data") /\
    (jwritable w = false -> completes r = false /\ jfiles w' = jfiles w).
Proof.
  unfold UntypedCooldownManager.saveCooldownData.
  destruct w as [fs wr clk n out]. jio_run.
  destruct (fs !! indexPath) as [content|] eqn:Hfile.
  - rewrite bool_decide_eq_true_2 by eauto. cbv beta iota. rewrite Hfile.
    cbv beta iota. destruct wr; cbv beta iota.
    + eexists _, _. split; [reflexivity|]. cbn.
      rewrite lookup_insert_eq.
      split; [reflexivity|]. split; [reflexivity|]. split; [reflexivity|].
      split; [|discriminate]. intros _.
      split; [reflexivity|]. split; [reflexivity|]. split; [|split; [|reflexivity]].
      * intros p Hi Hb. rewrite !lookup_insert_ne by congruence. reflexivity.
      * intros p Hp.
        destruct (decide (p = indexPath)) as [->|Hi]; [rewrite lookup_insert_eq; eauto|].
        rewrite lookup_insert_ne by congruence.
        destruct (decide (p = backupPath)) as [->|Hb]; [rewrite lookup_insert_eq; eauto|].
        rewrite lookup_insert_ne by congruence. exact Hp.
    + eexists _, _. split; [reflexivity|]. cbn.
      repeat split; auto; discriminate.
  - rewrite bool_decide_eq_false_2 by (intros [? ?]; discriminate).
    cbv beta iota. destruct wr; cbv beta iota.
    + eexists _, _. split; [reflexivity|]. cbn.
      rewrite lookup_insert_eq.
      split; [reflexivity|]. split; [reflexivity|]. split; [reflexivity|].
      split; [|discriminate]. intros _.
      split; [reflexivity|]. split; [reflexivity|]. split; [|split; [|reflexivity]].
      * intros p Hi Hb. rewrite lookup_insert_ne by congruence. reflexivity.
      * intros p Hp.
        destruct (decide (p = indexPath)) as [->|Hi]; [rewrite lookup_insert_eq; eauto|].
        rewrite lookup_insert_ne by congruence. exact Hp.
    + eexists _, _. split; [reflexivity|]. cbn.
      repeat split; auto; discriminate.
Qed.

(** *** Filtering by id *)

Lemma filterC_otherId (id : string) (es : list JSON) :
  JsValue.filterC (UntypedCooldownManager.otherId id) es
  = if existsb isNull es
    then Throw (TypeError "Cannot read properties of null")
    else Normal (withoutId id es).
Proof.
  induction es as [|e es IH]; [reflexivity|].
  cbn [JsValue.filterC existsb withoutId List.filter].
  destruct e; cbn [UntypedCooldownManager.otherId Json.get mbind Completion_bind isNull orb];
    try reflexivity;
    rewrite IH; destruct (existsb isNull es); reflexivity.
Qed.

Lemma withoutId_idempotent (id : string) (es : list JSON) :
  withoutId id (withoutId id es) = withoutId id es.
Proof.
  unfold withoutId. induction es as [|e es IH]; [reflexivity|].
  cbn [List.filter].
  destruct (JsValue.differsFrom (Json.member e "weaklogId") id) eqn:He; [|exact IH].
  cbn [List.filter]. rewrite He, IH. reflexivity.
Qed.

Lemma withoutId_absent (id : string) (es : list JSON) :
  Forall (fun e => Json.member e "weaklogId" <> Some (JString id)) (withoutId id es).
Proof.
  unfold withoutId. induction es as [|e es IH]; [constructor|].
  cbn [List.filter].
  destruct (JsValue.differsFrom (Json.member e "weaklogId") id) eqn:He; [|exact IH].
  constructor; [|exact IH]. intros Hm. rewrite Hm in He. cbn in He.
  rewrite String.eqb_refl in He. discriminate.
Qed.

Lemma withoutId_noNull (id : string) (es : list JSON) :
  existsb isNull es = false -> existsb isNull (withoutId id es) = false.
Proof.
  unfold withoutId. induction es as [|e es IH]; [reflexivity|].
  cbn [existsb List.filter]. intros [He Hes]%orb_false_iff.
  destruct (JsValue.differsFrom _ _); [|exact (IH Hes)].
  cbn [existsb]. rewrite He. exact (IH Hes).
Qed.

(** [unregisterEntry] throws exactly when an entry of the index is [null] or
    the vault refuses writes, whether the id is in the index or not, and then
    changes no file; when it completes, the index holds the entries it held
    before but those of the id, and the last line of the console says whether
    one was removed. *)
Lemma untyped_unregisterEntry_run (id : string) (w : JsonWorld) :
  exists r w',
    UntypedCooldownManager.unregisterEntry pf folder id w = (r, w') /\
    jclock w' = jclock w /\ jwritable w' = jwritable w /\
    completes r = jwritable w && negb (existsb isNull (stored w)) /\
    (completes r = true ->
       stored w' = withoutId id (stored w) /\
       hd_error (jconsole w')
       = Some (if (length (withoutId id (stored w)) <? length (stored w))%nat
               then "[Weaklog] Unregistered cooldown for " ++ id
               else "[Weaklog] Entry " ++ id ++ " not found in cooldown data")) /\
    (completes r = false -> jfiles w' = jfiles w).
Proof.
  unfold UntypedCooldownManager.unregisterEntry.
  destruct (untyped_load_run w)
    as (data & w1 & Hload & Hdata & Hentries & Hf1 & Hw1 & Hc1 & _ & _).
  rewrite (jbind_run _ _ _ _ _ Hload). rewrite Hentries.
  unfold Jio.lift at 1. unfold mbind at 1, JIO_bind at 1.
  rewrite filterC_otherId.
  destruct (existsb isNull (stored w)) eqn:Hnull.
  { eexists _, _. split; [reflexivity|]. cbn [completes].
    rewrite andb_false_r. repeat split; auto; discriminate. }
  rewrite (jbind_run _ _ _ _ _ (jtimestamp_run w1)).
  set (w2 := mkJsonWorld (jfiles w1) (jwritable w1) (jclock w1) (S (jreads w1))
               (jconsole w1)).
  set (data' := UntypedCooldownManager.updated data _ _).
  destruct (untyped_save_run data' w2)
    as (r & w3 & Hsave & Hc3 & _ & Hw3 & Hok & Hfail).
  destruct (entriesOf_updated data (withoutId id (stored w))
              (JsDate.isoOfTime (jclock w1 (jreads w1))) Hdata) as [Hkept _].
  fold data' in Hkept.
  change (jwritable w2) with (jwritable w1) in *.
  change (jclock w2) with (jclock w1) in *.
  change (jfiles w2) with (jfiles w1) in *.
  cbn [negb]. rewrite andb_true_r.
  destruct (jwritable w) eqn:Hw.
  - destruct Hok as (-> & Hp & _ & _ & Hlog); [congruence|].
    rewrite (jbind_run _ _ _ _ _ Hsave).
    assert (Hstored : stored w3 = withoutId id (stored w)).
    { unfold UntypedCooldownManager.persisted. rewrite Hp. exact Hkept. }
    destruct (length (withoutId id (stored w)) <? length (stored w))%nat;
      (eexists _, _; split; [reflexivity|]);
      cbn [jclock jwritable jconsole jfiles hd_error completes];
      (repeat split; try congruence; try discriminate;
       unfold UntypedCooldownManager.persisted in *; cbn [jfiles]; assumption).
  - destruct Hfail as (Hr & Hfiles); [congruence|].
    destruct r as [u|e]; [discriminate|].
    rewrite (jbind_throw _ _ _ _ _ Hsave).
    eexists _, _. split; [reflexivity|]. cbn [completes].
    repeat split; try congruence; discriminate.
Qed.

End UntypedFacts.



(** *** The entries that are ready *)

Lemma filterC_isReady (pf : Platform) (engine : Engine) (now : Z) (es : list JSON) :
  JsValue.filterC (UntypedCooldownManager.isReady pf engine now) es
  = if existsb isNull es
    then Throw (TypeError "Cannot read properties of null")
    else Normal (List.filter
                   (fun e => match JsValue.dateOf engine pf (Json.member e "readyAt") with
                             | Some t => t <=? now
                             | None => false
                             end) es).
Proof.
  induction es as [|e es IH]; [reflexivity|].
  cbn [JsValue.filterC existsb List.filter].
  destruct e;
    cbn [UntypedCooldownManager.isReady Json.get mbind Completion_bind isNull orb];
    try reflexivity;
    rewrite IH; destruct (existsb isNull es); reflexivity.
Qed.



(** X11.  [getAllEntries] and [getEntryCount] never fail and change no file.
    When the index file parses to an object whose [entries] is an array they
    return the elements of that array, whatever these are, and their number;
    for any other file, and for none, the empty list and zero. *)
Theorem index_readers_never_fail (pf : Platform) (folder : string) (w : JsonWorld) :
  let all := UntypedCooldownManager.getAllEntries pf folder w in
  let count := UntypedCooldownManager.getEntryCount pf folder w in
  jfiles (snd all) = jfiles w /\ jfiles (snd count) = jfiles w /\
  (exists items, fst all = Normal items /\ fst count = Normal (Z.of_nat (length items))) /\
  (forall ms items,
     jfiles w !! UntypedCooldownManager.cooldownFilePath pf folder
     = Some (Parsed (JObject ms)) ->
     Json.lookupMember "entries" ms = Some (JArray items) ->
     fst all = Normal items /\ fst count = Normal (Z.of_nat (length items))) /\
  ((forall ms items,
      jfiles w !! UntypedCooldownManager.cooldownFilePath pf folder
      = Some (Parsed (JObject ms)) ->
      Json.lookupMember "entries" ms <> Some (JArray items)) ->
   fst all = Normal [] /\ fst count = Normal 0).
Proof.
  intros all count. subst all count.
  unfold UntypedCooldownManager.getAllEntries, UntypedCooldownManager.getEntryCount.
  destruct (untyped_load_run pf folder w)
    as (data & w1 & Hload & _ & Hentries & Hf1 & _ & _ & _ & Hsame).
  rewrite !(jbind_run _ _ _ _ _ Hload). cbn [fst snd mret JIO_ret].
  split; [exact Hf1|]. split; [exact Hf1|]. split; [eauto|]. split.
  - intros ms items Hfile Hm. destruct (Hsame _ _ Hfile Hm) as [-> _].
    unfold UntypedCooldownManager.entriesOf. cbn [Json.member]. rewrite Hm.
    split; reflexivity.
  - intros Hnone. rewrite Hentries. unfold UntypedCooldownManager.persisted.
    destruct (jfiles w !! UntypedCooldownManager.cooldownFilePath pf folder)
      as [[value|content]|] eqn:Hfile; try (split; reflexivity).
    unfold UntypedCooldownManager.entriesOf.
    destruct value as [| | | | |ms]; cbn [Json.member]; try (split; reflexivity).
    destruct (Json.lookupMember "entries" ms) as [[| | | |items|]|] eqn:Hm;
      try (split; reflexivity).
    destruct (Hnone ms items eq_refl Hm).
Qed.

(** ** CooldownManager: cleaning the index *)

Section CleaningFacts.

Variable pf : Platform.
Variable engine : Engine.
Variable folder : string.

Local Abbreviation stored := (UntypedCooldownManager.persisted pf folder).

Lemma validEntry_files (w w' : JsonWorld) (e : JSON) :
  jfiles w' = jfiles w -> validEntry pf engine w' e = validEntry pf engine w e.
Proof. intros H. unfold validEntry. rewrite H. reflexivity. Qed.

(** The loop writes to the console only.  It throws when an entry is faulty;
    otherwise it keeps the valid entries, in order. *)
Lemma untyped_validateEntries_run (todo validEntries : list JSON) (w : JsonWorld) :
  exists r w',
    UntypedCooldownManager.validateEntries pf engine todo validEntries w = (r, w') /\
    jfiles w' = jfiles w /\ jwritable w' = jwritable w /\ jclock w' = jclock w /\
    jreads w' = jreads w /\
    if existsb (faultyEntry pf engine) todo
    then completes r = false
    else r = Normal (validEntries ++ List.filter (validEntry pf engine w) todo)%list.
Proof.
  revert validEntries w. induction todo as [|entry rest IH]; intros acc w.
  - exists (Normal acc), w. cbn [existsb List.filter]. rewrite app_nil_r.
    repeat split; reflexivity.
  - assert (Hskip : forall line,
      exists r w',
        (Jio.log line;; UntypedCooldownManager.validateEntries pf engine rest acc) w
        = (r, w') /\
        jfiles w' = jfiles w /\ jwritable w' = jwritable w /\ jclock w' = jclock w /\
        jreads w' = jreads w /\
        if existsb (faultyEntry pf engine) rest
        then completes r = false
        else r = Normal (acc ++ List.filter (validEntry pf engine w) rest)%list).
    { intros line. rewrite (jbind_run _ _ _ _ _ (jlog_run _ w)).
      destruct (IH acc (mkJsonWorld (jfiles w) (jwritable w) (jclock w) (jreads w)
                          (line :: jconsole w)))
        as (r & w' & -> & Hf & Hw & Hc & Hr & Hres).
      exists r, w'. split; [reflexivity|]. repeat split; auto. }
    cbn [UntypedCooldownManager.validateEntries existsb List.filter].
    destruct (isNull entry) eqn:Hnull.
    { destruct entry; try discriminate.
      exists (Throw (TypeError "Cannot read properties of null")), w.
      split; [reflexivity|]. unfold faultyEntry. cbn. auto. }
    assert (Hget : Jio.lift (Json.get entry "weaklogId") w
                   = (Normal (Json.member entry "weaklogId"), w)).
    { destruct entry; try discriminate; reflexivity. }
    rewrite (jbind_run _ _ _ _ _ Hget).
    unfold faultyEntry at 1, validEntry at 1, wellFormed. rewrite Hnull. cbn [orb].
    destruct (Json.truthyU (Json.member entry "weaklogId")); cbn [negb orb andb];
      [|apply Hskip].
    destruct (Json.truthyU (Json.member entry "filePath")); cbn [negb orb andb];
      [|apply Hskip].
    destruct (Json.truthyU (Json.member entry "readyAt")); cbn [negb orb andb];
      [|apply Hskip].
    destruct (dateParse pf (JsValue.toStringU engine (Json.member entry "readyAt")))
      as [t|].
    2:{ rewrite bool_decide_eq_false_2 by (intros [? ?]; discriminate). cbn [andb].
        apply Hskip. }
    rewrite bool_decide_eq_true_2 by eauto. cbn [andb].
    destruct (Json.member entry "filePath") as [[|b|m e|p|items|ms]|];
      cbn [isString negb andb orb UntypedCooldownManager.normalizePathOf];
      try (eexists (Throw _), w; split; [reflexivity|]; cbn [completes];
           repeat split; reflexivity).
    assert (Hnorm : Jio.lift (Normal (normalizePath pf p)) w
                    = (Normal (normalizePath pf p), w)) by reflexivity.
    rewrite (jbind_run _ _ _ _ _ Hnorm).
    assert (Hex : Jio.pathExists (normalizePath pf p) w
                  = (Normal (bool_decide (is_Some (jfiles w !! normalizePath pf p))), w))
      by reflexivity.
    rewrite (jbind_run _ _ _ _ _ Hex).
    destruct (bool_decide (is_Some (jfiles w !! normalizePath pf p))); cbn [negb];
      [|apply Hskip].
    destruct (IH (acc ++ [entry])%list w) as (r & w' & -> & Hf & Hw & Hc & Hr & Hres).
    exists r, w'. split; [reflexivity|]. repeat split; auto.
    destruct (existsb (faultyEntry pf engine) rest); [exact Hres|].
    rewrite Hres, <- app_assoc. reflexivity.
Qed.


Lemma untyped_validateAndCleanData_run (w : JsonWorld) :
  jwritable w = true ->
  let kept := List.filter (validEntry pf engine w) (stored w) in
  exists r w',
    UntypedCooldownManager.validateAndCleanData pf engine folder w = (r, w') /\
    jwritable w' = true /\
    (forall p, is_Some (jfiles w !! p) -> is_Some (jfiles w' !! p)) /\
    if existsb (faultyEntry pf engine) (stored w)
    then completes r = false /\ jfiles w' = jfiles w
    else r = Normal (Z.of_nat (length (stored w)) - Z.of_nat (length kept)) /\
         stored w' = kept.
Proof.
  intros Hw kept. subst kept. unfold UntypedCooldownManager.validateAndCleanData.
  destruct (untyped_load_run pf folder w)
    as (data & w1 & Hload & Hdata & Hentries & Hf1 & Hw1 & Hc1 & _ & _).
  rewrite (jbind_run _ _ _ _ _ Hload). rewrite Hentries.
  destruct (untyped_validateEntries_run (stored w) [] w1)
    as (r & w2 & Hval & Hf2 & Hw2 & _ & _ & Hres).
  destruct (existsb (faultyEntry pf engine) (stored w)).
  { destruct r as [x|e]; [discriminate|].
    rewrite (jbind_throw _ _ _ _ _ Hval).
    eexists _, _. split; [reflexivity|].
    split; [congruence|]. split; [intros p; rewrite Hf2, Hf1; auto|].
    split; [reflexivity|congruence]. }
  subst r. cbn [app] in Hval.
  rewrite (jbind_run _ _ _ _ _ Hval).
  rewrite (jbind_run _ _ _ _ _ (jtimestamp_run w2)).
  assert (Hkept : List.filter (validEntry pf engine w1) (stored w)
                  = List.filter (validEntry pf engine w) (stored w)).
  { apply filter_ext. intros e. apply validEntry_files, Hf1. }
  rewrite Hkept in *.
  set (kept := List.filter (validEntry pf engine w) (stored w)) in *.
  set (data' := UntypedCooldownManager.updated data kept _).
  destruct (untyped_save_run pf folder data'
              (mkJsonWorld (jfiles w2) (jwritable w2) (jclock w2) (S (jreads w2))
                 (jconsole w2)))
    as (r & w3 & Hsave & _ & _ & Hw3 & Hok & _).
  cbn [jwritable jfiles] in Hok, Hw3.
  destruct Hok as (-> & Hp & _ & Hkeep & _); [congruence|].
  rewrite (jbind_run _ _ _ _ _ Hsave).
  destruct (entriesOf_updated data kept (JsDate.isoOfTime (jclock w2 (jreads w2))) Hdata)
    as [Hentries' _].
  fold data' in Hentries'.
  assert (Hgoal : forall w',
    jfiles w' = jfiles w3 -> jwritable w' = jwritable w3 ->
    jwritable w' = true /\
    (forall p, is_Some (jfiles w !! p) -> is_Some (jfiles w' !! p)) /\
    stored w' = kept).
  { intros w' Hfw Hww. split; [congruence|]. split.
    - intros p Hp'. rewrite Hfw. apply Hkeep. rewrite Hf2, Hf1. exact Hp'.
    - unfold UntypedCooldownManager.persisted. rewrite Hfw, Hp. exact Hentries'. }
  destruct (0 <? _);
    (eexists _, _; split; [reflexivity|]);
    match goal with
    | |- jwritable ?w' = true /\ _ =>
        destruct (Hgoal w' eq_refl eq_refl) as (Ha & Hb & Hc)
    end; auto.
Qed.

Lemma existsb_filter_false {A : Type} (f g : A -> bool) (l : list A) :
  existsb f l = false -> existsb f (List.filter g l) = false.
Proof.
  induction l as [|x l IH]; [reflexivity|]. cbn [existsb List.filter].
  intros [Hx Hl]%orb_false_iff. destruct (g x); [|exact (IH Hl)].
  cbn [existsb]. rewrite Hx. exact (IH Hl).
Qed.

End CleaningFacts.





(* ====================================================================== *)
(** ** CooldownManager: the typed index among the indexes                  *)
(* ====================================================================== *)

Lemma refines_bind {A B A' B' : Type} (f : A -> A') (g : B -> B')
    (m : IO A) (k : A -> IO B) (m' : JIO A') (k' : A' -> JIO B') :
  refines f m m' -> (forall a, refines g (k a) (k' (f a))) ->
  refines g (m ≫= k) (m' ≫= k').
Proof.
  intros Hm Hk w. unfold mbind, IO_bind, JIO_bind. rewrite (Hm w).
  destruct (m w) as [[a|e] w1]; cbn [fst snd]; [apply Hk|reflexivity].
Qed.

Lemma refines_ret {A B : Type} (f : A -> B) (a : A) :
  refines f (mret a : IO A) (mret (f a) : JIO B).
Proof. intros w. reflexivity. Qed.

Lemma refines_throw {A B : Type} (f : A -> B) (e : JsError) :
  refines f (Io.throw e) (Jio.throw e).
Proof. intros w. reflexivity. Qed.

Lemma refines_tryCatch {A B : Type} (f : A -> B) (body : IO A) (handler : JsError -> IO A)
    (body' : JIO B) (handler' : JsError -> JIO B) :
  refines f body body' -> (forall e, refines f (handler e) (handler' e)) ->
  refines f (Io.tryCatch body handler) (Jio.tryCatch body' handler').
Proof.
  intros Hb Hh w. unfold Io.tryCatch, Jio.tryCatch. rewrite (Hb w).
  destruct (body w) as [[a|e] w1]; cbn [fst snd]; [reflexivity|apply Hh].
Qed.

Lemma refines_lift {A B : Type} (f : A -> B) (c : Completion A) (c' : Completion B) :
  c' = match c with Normal a => Normal (f a) | Throw e => Throw e end ->
  refines f (Io.lift c) (Jio.lift c').
Proof. intros -> w. reflexivity. Qed.

Lemma refines_let {A B B' : Type} (g : B -> B') (v : A) (m : IO B) (k' : A -> JIO B') :
  refines g m (k' v) -> refines g m (Jio.lift (Normal v) ≫= k').
Proof. intros H w. exact (H w). Qed.

Lemma refines_log (line : string) : refines id (Io.log line) (Jio.log line).
Proof. intros w. reflexivity. Qed.

Lemma refines_newDate : refines id Io.newDate Jio.newDate.
Proof. intros w. reflexivity. Qed.

Lemma refines_timestamp : refines id Io.timestamp Jio.timestamp.
Proof. intros w. reflexivity. Qed.

Lemma refines_pathExists (p : string) : refines id (Io.pathExists p) (Jio.pathExists p).
Proof.
  intros w. unfold Jio.pathExists, Io.pathExists, encodeWorld. cbn [jfiles fst snd id].
  rewrite lookup_fmap. f_equal. f_equal.
  apply bool_decide_ext. rewrite fmap_is_Some. reflexivity.
Qed.

Lemma refines_read (p : string) : refines encodeBody (Io.read p) (Jio.read p).
Proof.
  intros w. unfold Jio.read, Io.read, encodeWorld. cbn [jfiles].
  rewrite lookup_fmap. destruct (files w !! p); reflexivity.
Qed.

Lemma refines_write (p : string) (body : FileBody) :
  refines id (Io.write p body) (Jio.write p (encodeBody body)).
Proof.
  intros w. unfold Jio.write, Io.write, encodeWorld. cbn [jfiles jwritable].
  destruct (writable w) eqn:Hw; cbn [fst snd files writable clock reads console];
    [|rewrite Hw; reflexivity].
  rewrite fmap_insert. reflexivity.
Qed.

Section Refinement.

Variable pf : Platform.
Variable folder : string.

Lemma refines_emptyData :
  refines encodeData CooldownManager.emptyData UntypedCooldownManager.emptyData.
Proof. intros w. reflexivity. Qed.

Lemma refines_loadCooldownData :
  refines encodeData (CooldownManager.loadCooldownData pf folder)
    (UntypedCooldownManager.loadCooldownData pf folder).
Proof.
  unfold CooldownManager.loadCooldownData, UntypedCooldownManager.loadCooldownData.
  apply refines_tryCatch.
  - eapply refines_bind; [apply refines_pathExists|]. intros found. unfold id.
    destruct found; cbn [negb].
    + eapply refines_bind; [apply refines_read|]. intros [data|content] w; reflexivity.
    + eapply refines_bind; [apply refines_log|]. intros _. apply refines_emptyData.
  - intros e. eapply refines_bind; [apply refines_log|]. intros _. apply refines_emptyData.
Qed.

Lemma refines_saveCooldownData (data : CooldownData) :
  refines id (CooldownManager.saveCooldownData pf folder data)
    (UntypedCooldownManager.saveCooldownData pf folder (encodeData data)).
Proof.
  unfold CooldownManager.saveCooldownData, UntypedCooldownManager.saveCooldownData.
  apply refines_tryCatch.
  - eapply refines_bind; [apply refines_pathExists|]. intros found. unfold id at 2.
    eapply (refines_bind id id).
    + destruct found; [|apply (refines_ret id)].
      eapply refines_bind; [apply refines_read|]. intros content.
      eapply (refines_bind id id); [apply refines_write|]. intros _. apply refines_log.
    + intros _. eapply (refines_bind id id);
        [apply (refines_write _ (IndexJson data))|].
      intros _. apply refines_log.
  - intros e. eapply (refines_bind id id); [apply refines_log|]. intros _.
    apply refines_throw.
Qed.

Lemma filterC_encoded_otherId (id : string) (es : list CooldownEntry) :
  JsValue.filterC (UntypedCooldownManager.otherId id) (List.map encodeEntry es)
  = Normal (List.map encodeEntry (without id es)).
Proof.
  unfold without. induction es as [|e es IH]; [reflexivity|].
  cbn [List.map JsValue.filterC List.filter]. rewrite IH.
  change (UntypedCooldownManager.otherId id (encodeEntry e))
    with (Normal (negb (String.eqb (weaklogId e) id)) : Completion bool).
  cbv beta iota. destruct (negb (String.eqb (weaklogId e) id)); reflexivity.
Qed.

Lemma filterC_encoded_isReady (engine : Engine) (now : Z) (es : list CooldownEntry) :
  JsValue.filterC (UntypedCooldownManager.isReady pf engine now) (List.map encodeEntry es)
  = Normal (List.map encodeEntry (List.filter (CooldownManager.isReady pf now) es)).
Proof.
  induction es as [|e es IH]; [reflexivity|].
  cbn [List.map JsValue.filterC List.filter]. rewrite IH.
  change (UntypedCooldownManager.isReady pf engine now (encodeEntry e))
    with (Normal (CooldownManager.isReady pf now e) : Completion bool).
  cbv beta iota. destruct (CooldownManager.isReady pf now e); reflexivity.
Qed.


End Refinement.
